(** * tradingdemo: order dispatch, position closing and the live loop

    A shallow embedding of the C++ sources
      - [StrategyTemplate.hpp]  (CRTP validation and dispatch layer),
      - [ChineseStrategy.hpp/.cpp] (IBKR adapter, closing sweep),
      - [AlpacaStrategy.cpp]   (Alpaca paper adapter: HTTP and result parsing),
      - [liveloop.hpp]         (market picker and perpetual loop),
    followed by the properties of the specification proved about it.

    Conventions of the embedding:
      - a C++ [double] is an IEEE-754 binary64 value, [spec_float] of the
        standard library, compared with [SFltb]/[SFleb] (so a NaN compares
        false with everything) and [std::fabs] is [SFabs];
      - [int] and [long] values are integers in [Z]; the one [int] that is
        incremented, the counter of the closing sweep, wraps at 32 bits;
      - a member function that touches its object or the outside world is a
        state transformer [M S A := S -> outcome A * S]; a C++ exception is
        the [Thrown] outcome and propagates through [bind];
      - an object whose calls have to be observed is wrapped in a recording
        fake that appends every call to a log before delegating. *)

From Stdlib Require Import ZArith List String Ascii Bool Lia.
From Stdlib Require Import DecimalString.
From Stdlib Require Import Floats.SpecFloat.
Import ListNotations.
Open Scope Z_scope.
Open Scope string_scope.

(* ================================================================== *)
(** * Part I. The embedding                                            *)
(* ================================================================== *)

(** ** C++ runtime: doubles, exceptions, state and text *)

Module Cxx.

(** [double]: IEEE-754 binary64. *)
Definition double := spec_float.

(** A value of [spec_float] is a binary64 when its mantissa and exponent are
    in canonical form for precision 53 and maximal exponent 1024. *)
Definition is_double (x : double) : bool := valid_binary 53 1024 x.

(** The literals [0.0] (also the [int] literal [0] converted to double). *)
Definition d_zero : double := S754_zero false.

(** The literal [1e-12]: the binary64 nearest to 10^-12, which is
    [0x1.19799812dea11p-40 = 4951760157141521 * 2^-92]. *)
Definition d_1e_12 : double := S754_finite false 4951760157141521 (-92).

(** Small integers as doubles, for examples. *)
Definition d_one : double := S754_finite false 4503599627370496 (-52).
Definition d_ten : double := S754_finite false 5629499534213120 (-49).
Definition d_minus_one : double := S754_finite true 4503599627370496 (-52).

(** What can be thrown.  The first three are classes derived from
    [std::exception]; the last stands for any thrown object that is not. *)
Inductive exception : Type :=
| invalid_argument (what_arg : string)
| runtime_error (what_arg : string)
| std_exception (what_arg : string)
| foreign_exception.

(** [e.what()] as seen by a handler [catch (const std::exception& e)];
    [None] when that handler does not match. *)
Definition what (e : exception) : option string :=
  match e with
  | invalid_argument w | runtime_error w | std_exception w => Some w
  | foreign_exception => None
  end.

Inductive outcome (A : Type) : Type :=
| Returned (a : A)
| Thrown (e : exception).
Arguments Returned {A} a.
Arguments Thrown {A} e.

(** Stateful, possibly throwing computations over a state [S]. *)
Definition M (S A : Type) : Type := S -> outcome A * S.

Definition ret {S A} (a : A) : M S A := fun s => (Returned a, s).

Definition throw {S A} (e : exception) : M S A := fun s => (Thrown e, s).

Definition bind {S A B} (m : M S A) (k : A -> M S B) : M S B :=
  fun s =>
    match m s with
    | (Returned a, s') => k a s'
    | (Thrown e, s') => (Thrown e, s')
    end.

(** [try { m } catch (const std::exception& e) { h e.what() }]. *)
Definition try_catch {S A} (m : M S A) (h : string -> M S A) : M S A :=
  fun s =>
    match m s with
    | (Returned a, s') => (Returned a, s')
    | (Thrown e, s') =>
        match what e with
        | Some w => h w s'
        | None => (Thrown e, s')
        end
    end.

(** [std::to_string] / [operator<<] on an integer. *)
Definition to_string (z : Z) : string := NilZero.string_of_int (Z.to_int z).

(** [++] on a signed 32-bit [int] (two's complement wrap-around). *)
Definition int_wrap (z : Z) : Z := (z + 2 ^ 31) mod 2 ^ 32 - 2 ^ 31.
Definition int_incr (z : Z) : Z := int_wrap (z + 1).

(** [s.empty()]. *)
Definition empty (s : string) : bool :=
  match s with EmptyString => true | String _ _ => false end.

(** The half-open status range [200 <= status && status < 300]. *)
Definition is_2xx (status : Z) : bool := ((200 <=? status) && (status <? 300))%Z.

(** A quiet NaN, as [0.0 / 0.0] gives. *)
Definition d_nan : double := S754_nan.

(** [all_below P n acc]: [P] holds for the [2^n] integers from
    [acc * 2^n] on, listed by their binary digits. *)
Fixpoint all_below (P : Z -> bool) (n : nat) (acc : Z) : bool :=
  match n with
  | O => P acc
  | S n' => all_below P n' (2 * acc) && all_below P n' (2 * acc + 1)
  end.

End Cxx.

Declare Scope cxx_scope.
Delimit Scope cxx_scope with cxx.
Notation "x <- m ;; k" := (Cxx.bind m (fun x => k))
  (at level 100, m at next level, right associativity) : cxx_scope.
Notation "m ;;; k" := (Cxx.bind m (fun _ => k))
  (at level 100, right associativity) : cxx_scope.
Open Scope cxx_scope.

(** ** StrategyTemplate.hpp: the validation and dispatch layer *)

Module StrategyTemplate.
Import Cxx.

(** [SysTime]: a [system_clock::time_point], in clock ticks since the epoch. *)
Definition SysTime := Z.

Inductive Side := Buy | Sell.
Inductive TimeInForce := Day | GTC | IOC | FOK.

Record OrderResult := mkOrderResult {
  orderId : string;
  accepted : bool;
  message : string
}.

Module PositionCloseResult.
Record t := mk { success : bool; message : string }.
End PositionCloseResult.

Module MarketOrder.
Record t := mk { symbol : string; side : Side; qty : double; tif : TimeInForce }.
End MarketOrder.

Module LimitOrder.
Record t := mk {
  symbol : string; side : Side; qty : double; limitPrice : double;
  tif : TimeInForce }.
End LimitOrder.

Module StopOrder.
Record t := mk {
  symbol : string; side : Side; qty : double; stopPrice : double;
  tif : TimeInForce }.
End StopOrder.

Module ShortOrder.
Record t := mk { symbol : string; qty : double; tif : TimeInForce }.
End ShortOrder.

(** The CRTP contract: what [Derived] has to provide.  [D] is the state of
    the derived object (and of whatever it talks to). *)
Class Derived (D : Type) := {
  PlaceMarketOrder_Impl : MarketOrder.t -> M D OrderResult;
  PlaceShortOrder_Impl : ShortOrder.t -> M D OrderResult;
  PlaceStopOrder_Impl : StopOrder.t -> M D OrderResult;
  PlaceLimitOrder_Impl : LimitOrder.t -> M D OrderResult;
  CloseAllPositions_Impl : M D PositionCloseResult.t;
  IsMarketOpen_Impl : M D bool;
  GetNextMarketOpenTime_Impl : M D (option SysTime)
}.

Section Template.
Context {D : Type} {adapter : Derived D}.

Definition validate_basic (symbol : string) (qty : double) : M D unit :=
  if empty symbol then throw (invalid_argument "symbol must not be empty")
  else if SFleb qty d_zero then throw (invalid_argument "qty must be > 0")
  else ret tt.

Definition PlaceMarketOrder (o : MarketOrder.t) : M D OrderResult :=
  validate_basic (MarketOrder.symbol o) (MarketOrder.qty o) ;;;
  PlaceMarketOrder_Impl o.

Definition PlaceShortOrder (o : ShortOrder.t) : M D OrderResult :=
  validate_basic (ShortOrder.symbol o) (ShortOrder.qty o) ;;;
  PlaceShortOrder_Impl o.

Definition PlaceStopOrder (o : StopOrder.t) : M D OrderResult :=
  validate_basic (StopOrder.symbol o) (StopOrder.qty o) ;;;
  if SFleb (StopOrder.stopPrice o) d_zero
  then throw (invalid_argument "stopPrice must be > 0")
  else PlaceStopOrder_Impl o.

Definition PlaceLimitOrder (o : LimitOrder.t) : M D OrderResult :=
  validate_basic (LimitOrder.symbol o) (LimitOrder.qty o) ;;;
  if SFleb (LimitOrder.limitPrice o) d_zero
  then throw (invalid_argument "limitPrice must be > 0")
  else PlaceLimitOrder_Impl o.

Definition CloseAllPositions : M D PositionCloseResult.t :=
  CloseAllPositions_Impl.

Definition IsMarketOpen : M D bool := IsMarketOpen_Impl.

Definition GetNextMarketOpenTime : M D (option SysTime) :=
  GetNextMarketOpenTime_Impl.

End Template.

(** *** Order intents and a recording fake adapter *)

(** The four order kinds as one tagged union, and the front door that sends
    each kind to its entry point. *)
Inductive OrderIntent :=
| Market (o : MarketOrder.t)
| Limit (o : LimitOrder.t)
| Stop (o : StopOrder.t)
| Short (o : ShortOrder.t).

Definition dispatch {D} {adapter : Derived D} (i : OrderIntent) : M D OrderResult :=
  match i with
  | Market o => PlaceMarketOrder o
  | Limit o => PlaceLimitOrder o
  | Stop o => PlaceStopOrder o
  | Short o => PlaceShortOrder o
  end.

Definition intent_symbol (i : OrderIntent) : string :=
  match i with
  | Market o => MarketOrder.symbol o
  | Limit o => LimitOrder.symbol o
  | Stop o => StopOrder.symbol o
  | Short o => ShortOrder.symbol o
  end.

Definition intent_qty (i : OrderIntent) : double :=
  match i with
  | Market o => MarketOrder.qty o
  | Limit o => LimitOrder.qty o
  | Stop o => StopOrder.qty o
  | Short o => ShortOrder.qty o
  end.

(** The price of a Limit or Stop intent; the other kinds have none. *)
Definition intent_price (i : OrderIntent) : option double :=
  match i with
  | Limit o => Some (LimitOrder.limitPrice o)
  | Stop o => Some (StopOrder.stopPrice o)
  | Market _ | Short _ => None
  end.

(** An order intent that breaks an invariant of the data model: empty
    symbol, quantity [<= 0], or (Limit and Stop) price [<= 0]. *)
Definition invalid_intent (i : OrderIntent) : Prop :=
  intent_symbol i = "" \/
  SFleb (intent_qty i) d_zero = true \/
  (exists p, intent_price i = Some p /\ SFleb p d_zero = true).

(** One entry per call of a [*_Impl] member. *)
Inductive ImplCall :=
| Call_PlaceMarketOrder_Impl (o : MarketOrder.t)
| Call_PlaceShortOrder_Impl (o : ShortOrder.t)
| Call_PlaceStopOrder_Impl (o : StopOrder.t)
| Call_PlaceLimitOrder_Impl (o : LimitOrder.t)
| Call_CloseAllPositions_Impl
| Call_IsMarketOpen_Impl
| Call_GetNextMarketOpenTime_Impl.

(** Run [m] on the wrapped adapter after logging [c]. *)
Definition recorded {D A} (c : ImplCall) (m : M D A) : M (D * list ImplCall) A :=
  fun s =>
    let (r, d') := m (fst s) in
    (r, (d', (snd s ++ [c])%list)).

(** The recording fake: any adapter, with a log of the calls it received. *)
#[export] Instance Recording (D : Type) {adapter : Derived D} : Derived (D * list ImplCall) := {
  PlaceMarketOrder_Impl o := recorded (Call_PlaceMarketOrder_Impl o) (PlaceMarketOrder_Impl o);
  PlaceShortOrder_Impl o := recorded (Call_PlaceShortOrder_Impl o) (PlaceShortOrder_Impl o);
  PlaceStopOrder_Impl o := recorded (Call_PlaceStopOrder_Impl o) (PlaceStopOrder_Impl o);
  PlaceLimitOrder_Impl o := recorded (Call_PlaceLimitOrder_Impl o) (PlaceLimitOrder_Impl o);
  CloseAllPositions_Impl := recorded Call_CloseAllPositions_Impl CloseAllPositions_Impl;
  IsMarketOpen_Impl := recorded Call_IsMarketOpen_Impl IsMarketOpen_Impl;
  GetNextMarketOpenTime_Impl :=
    recorded Call_GetNextMarketOpenTime_Impl GetNextMarketOpenTime_Impl
}.

(** A fake adapter without state that accepts every order with the
    identifier ["adapter-id"]. *)
Definition Echo : Derived unit := {|
  PlaceMarketOrder_Impl := fun _ => ret (mkOrderResult "adapter-id" true "Accepted");
  PlaceShortOrder_Impl := fun _ => ret (mkOrderResult "adapter-id" true "Accepted");
  PlaceStopOrder_Impl := fun _ => ret (mkOrderResult "adapter-id" true "Accepted");
  PlaceLimitOrder_Impl := fun _ => ret (mkOrderResult "adapter-id" true "Accepted");
  CloseAllPositions_Impl := ret (PositionCloseResult.mk true "Closed all positions.");
  IsMarketOpen_Impl := ret true;
  GetNextMarketOpenTime_Impl := ret None
|}.

(** *** Vocabulary of the forwarding properties *)

(** The [*_Impl] member behind each entry point, and its entry in the log
    of the recording fake. *)
Definition impl {D} {adapter : Derived D} (i : OrderIntent) : M D OrderResult :=
  match i with
  | Market o => PlaceMarketOrder_Impl o
  | Limit o => PlaceLimitOrder_Impl o
  | Stop o => PlaceStopOrder_Impl o
  | Short o => PlaceShortOrder_Impl o
  end.

Definition impl_call (i : OrderIntent) : ImplCall :=
  match i with
  | Market o => Call_PlaceMarketOrder_Impl o
  | Limit o => Call_PlaceLimitOrder_Impl o
  | Stop o => Call_PlaceStopOrder_Impl o
  | Short o => Call_PlaceShortOrder_Impl o
  end.

(** The three tests of the layer, all failing: the symbol is not empty,
    [qty <= 0.0] is false and, for Limit and Stop, [price <= 0.0] is
    false. *)
Definition passes_validation (i : OrderIntent) : Prop :=
  empty (intent_symbol i) = false /\
  SFleb (intent_qty i) d_zero = false /\
  (forall p, intent_price i = Some p -> SFleb p d_zero = false).

(** A fake adapter that turns every order down as a broker would, with a
    result and not with an exception. *)
Definition Refusing : Derived unit := {|
  PlaceMarketOrder_Impl := fun _ => ret (mkOrderResult "" false "insufficient funds");
  PlaceShortOrder_Impl := fun _ => ret (mkOrderResult "" false "not shortable");
  PlaceStopOrder_Impl := fun _ => ret (mkOrderResult "" false "insufficient funds");
  PlaceLimitOrder_Impl := fun _ => ret (mkOrderResult "" false "insufficient funds");
  CloseAllPositions_Impl := ret (PositionCloseResult.mk false "market closed");
  IsMarketOpen_Impl := ret false;
  GetNextMarketOpenTime_Impl := ret None
|}.

End StrategyTemplate.

(** ** ChineseStrategy.hpp / ChineseStrategy.cpp: the IBKR adapter *)

Module ChineseStrategy.
Import Cxx.

(** *** Contract.h and Order.h of the IBKR API

    The two headers are vendor code outside the repository.  The records
    below hold the members that ChineseStrategy.cpp assigns ([c_symbol] is
    [Contract::symbol], [o_tif] is [Order::tif]; the prefix keeps them apart
    from the members of [Instrument]).  [totalQuantity] is a double, as the
    code assigns a double to it and compares it with [0].  What a
    default-constructed [Contract] or [Order] holds in a member that is left
    unassigned is given by [IbkrDefaults]. *)

Record Contract := mkContract {
  c_symbol : string;
  c_secType : string;
  c_exchange : string;
  c_currency : string;
  c_lastTradeDateOrContractMonth : string;
  c_tradingClass : string;
  c_multiplier : string
}.

Record Order := mkOrder {
  action : string;
  orderType : string;
  totalQuantity : double;
  lmtPrice : double;
  auxPrice : double;
  o_tif : string
}.

Class IbkrDefaults := {
  Contract_default : Contract;
  Order_default : Order
}.

(** *** Simple order DTOs *)

Record Instrument := mkInstrument {
  symbol : string;
  secType : string;
  exchange : string;
  currency : string;
  lastTradeDateOrContractMonth : string;
  tradingClass : string;
  multiplier : string
}.

Module MarketOrder.
Record t := mk { instrument : Instrument; quantity : double; isBuy : bool; tif : string }.
End MarketOrder.

Module ShortOrder.
Record t := mk { instrument : Instrument; quantity : double; tif : string }.
End ShortOrder.

Module StopOrder.
Record t := mk {
  instrument : Instrument; quantity : double; isBuy : bool;
  stopPrice : double; tif : string }.
End StopOrder.

Module LimitOrder.
Record t := mk {
  instrument : Instrument; quantity : double; isBuy : bool;
  limitPrice : double; tif : string }.
End LimitOrder.

(** *** Results *)

Record OrderResult := mkOrderResult {
  ok : bool;
  orderId : Z;
  message : string
}.

Module PositionCloseResult.
Record t := mk {
  ok : bool;
  closeOrdersSent : Z;
  orderIds : list Z;
  message : string }.
End PositionCloseResult.

(** *** Minimal IBKR gateway abstraction *)

Record OpenPosition := mkOpenPosition {
  instrument : Instrument;
  position : double;
  avgCost : double
}.

(** [IIbkrGateway]: the three pure virtual members, over the state [G] of
    the gateway object and the connection behind it. *)
Class IIbkrGateway (G : Type) := {
  nextOrderId : M G Z;
  placeOrder : Z -> Contract -> Order -> M G unit;
  getOpenPositionsSnapshot : M G (list OpenPosition)
}.

(** *** ChineseStrategy *)

Definition ActionFromBuy (isBuy : bool) : string :=
  if isBuy then "BUY" else "SELL".

Section Strategy.
Context {defaults : IbkrDefaults} {G : Type} {gw : IIbkrGateway G}.

Definition BuildContract (i : Instrument) : Contract :=
  let fut := String.eqb (secType i) "FUT" in
  {| c_symbol := symbol i;
     c_secType := secType i;
     c_exchange := exchange i;
     c_currency := currency i;
     c_lastTradeDateOrContractMonth :=
       if fut then lastTradeDateOrContractMonth i
       else c_lastTradeDateOrContractMonth Contract_default;
     c_tradingClass :=
       if fut && negb (empty (tradingClass i)) then tradingClass i
       else c_tradingClass Contract_default;
     c_multiplier :=
       if fut && negb (empty (multiplier i)) then multiplier i
       else c_multiplier Contract_default |}.

Definition SendOrder (c : Contract) (o : Order) : M G OrderResult :=
  if SFleb (totalQuantity o) d_zero then
    ret {| ok := false; orderId := -1; message := "Quantity must be > 0" |}
  else
    try_catch
      (orderId <- nextOrderId ;;
       placeOrder orderId c o ;;;
       ret {| ok := true; orderId := orderId;
              message := "Order sent to IBKR (acceptance/fill is async via EWrapper callbacks)" |})
      (fun e_what =>
         ret {| ok := false; orderId := -1;
                message := "Failed to send order: " ++ e_what |}).

Definition PlaceMarketOrder_Impl (i : MarketOrder.t) : M G OrderResult :=
  let c := BuildContract (MarketOrder.instrument i) in
  let o := {| action := ActionFromBuy (MarketOrder.isBuy i);
              orderType := "MKT";
              totalQuantity := MarketOrder.quantity i;
              lmtPrice := lmtPrice Order_default;
              auxPrice := auxPrice Order_default;
              o_tif := MarketOrder.tif i |} in
  SendOrder c o.

Definition PlaceShortOrder_Impl (i : ShortOrder.t) : M G OrderResult :=
  let c := BuildContract (ShortOrder.instrument i) in
  let o := {| action := "SELL";
              orderType := "MKT";
              totalQuantity := ShortOrder.quantity i;
              lmtPrice := lmtPrice Order_default;
              auxPrice := auxPrice Order_default;
              o_tif := ShortOrder.tif i |} in
  SendOrder c o.

Definition PlaceStopOrder_Impl (i : StopOrder.t) : M G OrderResult :=
  if negb (SFltb d_zero (StopOrder.stopPrice i)) then
    ret {| ok := false; orderId := -1; message := "StopPrice must be > 0" |}
  else
    let c := BuildContract (StopOrder.instrument i) in
    let o := {| action := ActionFromBuy (StopOrder.isBuy i);
                orderType := "STP";
                totalQuantity := StopOrder.quantity i;
                lmtPrice := lmtPrice Order_default;
                auxPrice := StopOrder.stopPrice i;
                o_tif := StopOrder.tif i |} in
    SendOrder c o.

Definition PlaceLimitOrder_Impl (i : LimitOrder.t) : M G OrderResult :=
  if negb (SFltb d_zero (LimitOrder.limitPrice i)) then
    ret {| ok := false; orderId := -1; message := "LimitPrice must be > 0" |}
  else
    let c := BuildContract (LimitOrder.instrument i) in
    let o := {| action := ActionFromBuy (LimitOrder.isBuy i);
                orderType := "LMT";
                totalQuantity := LimitOrder.quantity i;
                lmtPrice := LimitOrder.limitPrice i;
                auxPrice := auxPrice Order_default;
                o_tif := LimitOrder.tif i |} in
    SendOrder c o.

(** The [for] loop of [CloseAllPositions_Impl], with its two accumulators
    [sent] and [orderIds]. *)
Fixpoint close_loop (positions : list OpenPosition) (sent : Z) (orderIds : list Z)
  : M G (Z * list Z) :=
  match positions with
  | [] => ret (sent, orderIds)
  | p :: rest =>
      if SFltb (SFabs (position p)) d_1e_12 then close_loop rest sent orderIds
      else
        let closeBuy := SFltb (position p) d_zero in
        let mo := {| MarketOrder.instrument := instrument p;
                     MarketOrder.quantity := SFabs (position p);
                     MarketOrder.isBuy := closeBuy;
                     MarketOrder.tif := "DAY" |} in
        res <- PlaceMarketOrder_Impl mo ;;
        if ok res
        then close_loop rest (int_incr sent) (orderIds ++ [orderId res])%list
        else close_loop rest sent orderIds
  end.

Definition CloseAllPositions_Impl : M G PositionCloseResult.t :=
  fetched <- try_catch
               (positions <- getOpenPositionsSnapshot ;; ret (inr positions))
               (fun e_what =>
                  ret (inl {| PositionCloseResult.ok := false;
                              PositionCloseResult.closeOrdersSent := 0;
                              PositionCloseResult.orderIds := [];
                              PositionCloseResult.message :=
                                "Failed to fetch positions: " ++ e_what |})) ;;
  match fetched with
  | inl out => ret out
  | inr positions =>
      acc <- close_loop positions 0 [] ;;
      let (sent, orderIds) := acc : Z * list Z in
      ret {| PositionCloseResult.ok := true;
             PositionCloseResult.closeOrdersSent := sent;
             PositionCloseResult.orderIds := orderIds;
             PositionCloseResult.message :=
               "CloseAllPositions: sent " ++ to_string sent ++ " market close orders." |}
  end.

End Strategy.

(** The closing order that the loop builds for a position. *)
Definition closing_order (p : OpenPosition) : MarketOrder.t :=
  {| MarketOrder.instrument := instrument p;
     MarketOrder.quantity := SFabs (position p);
     MarketOrder.isBuy := SFltb (position p) d_zero;
     MarketOrder.tif := "DAY" |}.

(** *** A recording fake gateway *)

Inductive GatewayCall :=
| Call_nextOrderId
| Call_placeOrder (orderId : Z) (contract : Contract) (order : Order)
| Call_getOpenPositionsSnapshot.

Definition recorded {G A} (c : GatewayCall) (m : M G A) : M (G * list GatewayCall) A :=
  fun s =>
    let (r, g') := m (fst s) in
    (r, (g', (snd s ++ [c])%list)).

#[export] Instance Recording (G : Type) {gw : IIbkrGateway G} : IIbkrGateway (G * list GatewayCall) := {
  nextOrderId := recorded Call_nextOrderId nextOrderId;
  placeOrder id c o := recorded (Call_placeOrder id c o) (placeOrder id c o);
  getOpenPositionsSnapshot := recorded Call_getOpenPositionsSnapshot getOpenPositionsSnapshot
}.

(** The orders handed to [placeOrder], in call order. *)
Fixpoint placed (log : list GatewayCall) : list (Z * Contract * Order) :=
  match log with
  | [] => []
  | Call_placeOrder id c o :: log' => (id, c, o) :: placed log'
  | _ :: log' => placed log'
  end.

(** *** Vocabulary of the properties *)

Section Vocabulary.
Context {defaults : IbkrDefaults} {G : Type} {gw : IIbkrGateway G}.

(** A gateway that accepts all orders: it always hands out an identifier
    and [placeOrder] always returns. *)
Definition accepts_all : Prop :=
  (forall g, exists id g', nextOrderId g = (Returned id, g')) /\
  (forall id c o g, exists g', placeOrder id c o g = (Returned tt, g')).

(** The order that [PlaceMarketOrder_Impl] builds for [closing_order p]. *)
Definition close_Order (p : OpenPosition) : Order :=
  {| action := ActionFromBuy (SFltb (position p) d_zero);
     orderType := "MKT";
     totalQuantity := SFabs (position p);
     lmtPrice := lmtPrice Order_default;
     auxPrice := auxPrice Order_default;
     o_tif := "DAY" |}.

(** [closes p x]: the call [x] of [placeOrder] is the market order that
    closes position [p]. *)
Definition closes (p : OpenPosition) (x : Z * Contract * Order) : Prop :=
  let o := snd x in
  snd (fst x) = BuildContract (instrument p) /\
  orderType o = "MKT" /\
  (SFltb (position p) d_zero = true -> action o = "BUY") /\
  (SFltb d_zero (position p) = true -> action o = "SELL") /\
  totalQuantity o = SFabs (position p) /\
  o_tif o = "DAY".

(** [all_closes_rejected ps g g']: the sweep over [ps] started in gateway
    state [g] ends in [g'], and every close it attempted came back with
    [ok = false]. *)
Inductive all_closes_rejected : list OpenPosition -> G -> G -> Prop :=
| acr_nil g : all_closes_rejected [] g g
| acr_skip p ps g g' :
    SFltb (SFabs (position p)) d_1e_12 = true ->
    all_closes_rejected ps g g' ->
    all_closes_rejected (p :: ps) g g'
| acr_reject p ps g r g1 g' :
    SFltb (SFabs (position p)) d_1e_12 = false ->
    PlaceMarketOrder_Impl (closing_order p) g = (Returned r, g1) ->
    ok r = false ->
    all_closes_rejected ps g1 g' ->
    all_closes_rejected (p :: ps) g g'.

(** The four public order operations as one function of the order. *)
Inductive OrderIntent :=
| Market (o : MarketOrder.t)
| Short (o : ShortOrder.t)
| Stop (o : StopOrder.t)
| Limit (o : LimitOrder.t).

Definition place (i : OrderIntent) : M G OrderResult :=
  match i with
  | Market o => PlaceMarketOrder_Impl o
  | Short o => PlaceShortOrder_Impl o
  | Stop o => PlaceStopOrder_Impl o
  | Limit o => PlaceLimitOrder_Impl o
  end.

Definition intent_instrument (i : OrderIntent) : Instrument :=
  match i with
  | Market o => MarketOrder.instrument o
  | Short o => ShortOrder.instrument o
  | Stop o => StopOrder.instrument o
  | Limit o => LimitOrder.instrument o
  end.

Definition intent_quantity (i : OrderIntent) : double :=
  match i with
  | Market o => MarketOrder.quantity o
  | Short o => ShortOrder.quantity o
  | Stop o => StopOrder.quantity o
  | Limit o => LimitOrder.quantity o
  end.

Definition intent_price (i : OrderIntent) : option double :=
  match i with
  | Stop o => Some (StopOrder.stopPrice o)
  | Limit o => Some (LimitOrder.limitPrice o)
  | Market _ | Short _ => None
  end.

End Vocabulary.

(** *** Scripted gateways for examples

    The state is the next order identifier and the snapshot to hand out.
    [Accepting] takes every order; [Rejecting] throws from [placeOrder];
    [Picky] throws for contracts whose symbol is ["BAD"];
    [NoSnapshot] throws from [getOpenPositionsSnapshot]. *)

Definition Scripted := (Z * list OpenPosition)%type.

Definition scripted_nextOrderId : M Scripted Z :=
  fun g => (Returned (fst g), (fst g + 1, snd g)).

Definition scripted_snapshot : M Scripted (list OpenPosition) :=
  fun g => (Returned (snd g), g).

Definition Accepting : IIbkrGateway Scripted := {|
  nextOrderId := scripted_nextOrderId;
  placeOrder := fun _ _ _ => ret tt;
  getOpenPositionsSnapshot := scripted_snapshot
|}.

Definition Rejecting : IIbkrGateway Scripted := {|
  nextOrderId := scripted_nextOrderId;
  placeOrder := fun _ _ _ => throw (std_exception "not connected");
  getOpenPositionsSnapshot := scripted_snapshot
|}.

Definition Picky : IIbkrGateway Scripted := {|
  nextOrderId := scripted_nextOrderId;
  placeOrder := fun _ c _ =>
    if String.eqb (c_symbol c) "BAD" then throw (std_exception "rejected") else ret tt;
  getOpenPositionsSnapshot := scripted_snapshot
|}.

Definition NoSnapshot : IIbkrGateway Scripted := {|
  nextOrderId := scripted_nextOrderId;
  placeOrder := fun _ _ _ => ret tt;
  getOpenPositionsSnapshot := throw (std_exception "positionEnd timeout")
|}.

(** A scripted gateway whose [getOpenPositionsSnapshot] throws an object
    that is not a [std::exception]. *)
Definition BrokenSnapshot : IIbkrGateway Scripted := {|
  nextOrderId := scripted_nextOrderId;
  placeOrder := fun _ _ _ => ret tt;
  getOpenPositionsSnapshot := throw foreign_exception
|}.

(** Defaults in the style of the IBKR headers: empty strings and zero
    prices. *)
Definition PlainDefaults : IbkrDefaults := {|
  Contract_default := mkContract "" "" "" "" "" "" "";
  Order_default := mkOrder "" "" d_zero d_zero d_zero ""
|}.

Definition stock (sym : string) : Instrument :=
  mkInstrument sym "STK" "SEHK" "HKD" "" "" "".

Definition long_good : OpenPosition := mkOpenPosition (stock "GOOD") d_ten d_one.
Definition short_good : OpenPosition := mkOpenPosition (stock "FINE") d_minus_one d_one.
Definition long_bad : OpenPosition := mkOpenPosition (stock "BAD") d_ten d_one.
Definition at_eps : OpenPosition := mkOpenPosition (stock "DUST") d_1e_12 d_zero.

(** *** Vocabulary of the further properties *)

(** The guard of the sweep: [fabs(p.position) < 1e-12]. *)
Definition is_dust (p : OpenPosition) : bool :=
  SFltb (SFabs (position p)) d_1e_12.

(** An order that ChineseStrategy turns down by itself: [quantity <= 0], or
    (Stop and Limit) a price for which [price > 0.0] is false. *)
Definition locally_rejected (i : OrderIntent) : Prop :=
  SFleb (intent_quantity i) d_zero = true \/
  (exists p, intent_price i = Some p /\ SFltb d_zero p = false).

(** The [Order] each operation fills in before [SendOrder]. *)
Definition order_of {defaults : IbkrDefaults} (i : OrderIntent) : Order :=
  match i with
  | Market o =>
      mkOrder (ActionFromBuy (MarketOrder.isBuy o)) "MKT" (MarketOrder.quantity o)
        (lmtPrice Order_default) (auxPrice Order_default) (MarketOrder.tif o)
  | Short o =>
      mkOrder "SELL" "MKT" (ShortOrder.quantity o)
        (lmtPrice Order_default) (auxPrice Order_default) (ShortOrder.tif o)
  | Stop o =>
      mkOrder (ActionFromBuy (StopOrder.isBuy o)) "STP" (StopOrder.quantity o)
        (lmtPrice Order_default) (StopOrder.stopPrice o) (StopOrder.tif o)
  | Limit o =>
      mkOrder (ActionFromBuy (LimitOrder.isBuy o)) "LMT" (LimitOrder.quantity o)
        (LimitOrder.limitPrice o) (auxPrice Order_default) (LimitOrder.tif o)
  end.

(** A gateway whose members throw nothing but exceptions derived from
    [std::exception]. *)
Definition throws_std_only {G : Type} {gw : IIbkrGateway G} : Prop :=
  (forall g e g', nextOrderId g = (Thrown e, g') -> what e <> None) /\
  (forall id c o g e g', placeOrder id c o g = (Thrown e, g') -> what e <> None).

(** A scripted gateway whose [placeOrder] throws an object that is not a
    [std::exception]. *)
Definition Crashing : IIbkrGateway Scripted := {|
  nextOrderId := scripted_nextOrderId;
  placeOrder := fun _ _ _ => throw foreign_exception;
  getOpenPositionsSnapshot := scripted_snapshot
|}.

Definition future (sym month : string) : Instrument :=
  mkInstrument sym "FUT" "CFFEX" "CNH" month "IF" "300".

Definition zero_position : OpenPosition := mkOpenPosition (stock "FLAT") d_zero d_zero.

(** The instrument read back from a contract, member by member. *)
Definition instrument_of (c : Contract) : Instrument :=
  mkInstrument (c_symbol c) (c_secType c) (c_exchange c) (c_currency c)
    (c_lastTradeDateOrContractMonth c) (c_tradingClass c) (c_multiplier c).

(** The identifiers of the orders handed to [placeOrder], in call order. *)
Definition placed_ids (calls : list GatewayCall) : list Z :=
  map (fun x => fst (fst x)) (placed calls).

(** A snapshot of a position whose close [Picky] rejects, one it accepts
    and a zero position; and what the sweep over it, started with next
    identifier 7, logs and returns. *)
Definition mixed_snapshot : list OpenPosition := [long_bad; short_good; zero_position].

Definition mixed_log : list GatewayCall :=
  [Call_getOpenPositionsSnapshot;
   Call_nextOrderId;
   Call_placeOrder 7 (BuildContract (defaults := PlainDefaults) (stock "BAD"))
     (close_Order (defaults := PlainDefaults) long_bad);
   Call_nextOrderId;
   Call_placeOrder 8 (BuildContract (defaults := PlainDefaults) (stock "FINE"))
     (close_Order (defaults := PlainDefaults) short_good)].

Definition mixed_out : PositionCloseResult.t :=
  {| PositionCloseResult.ok := true;
     PositionCloseResult.closeOrdersSent := 1;
     PositionCloseResult.orderIds := [8%Z];
     PositionCloseResult.message := "CloseAllPositions: sent 1 market close orders." |}.

(** An accepted stop order to sell 10 at stop price 1, and its result. *)
Definition stop_sell_ten : OrderIntent :=
  Stop (StopOrder.mk (stock "GOOD") d_ten false d_one "GTC").

Definition sent_with_id_7 : OrderResult :=
  {| ok := true; orderId := 7;
     message := "Order sent to IBKR (acceptance/fill is async via EWrapper callbacks)" |}.

End ChineseStrategy.

(** ** AlpacaStrategy.cpp: the Alpaca paper-trading adapter *)

Module AlpacaPaperApi.
Import Cxx.
Import StrategyTemplate.

Record AlpacaConfig := mkAlpacaConfig {
  api_key : string;
  api_secret : string;
  base_url : string
}.

(** *** libcurl and iostream, as far as the adapter uses them

    [N] is the state of the network.  [curl_easy_init] tells whether a
    handle was obtained; [curl_easy_perform] runs the transfer set up by the
    [curl_easy_setopt] calls and yields the [CURLcode], the response code
    read back by [curl_easy_getinfo] and the bytes passed to the write
    callback; [put_double] is [operator<<] of an [ostream] on a double. *)

Record CurlRequest := mkCurlRequest {
  req_url : string;
  req_method : string;
  req_headers : list string;
  req_postfields : option string
}.

Record CurlTransfer := mkCurlTransfer {
  res : Z;
  response_code : Z;
  written : string
}.

Definition CURLE_OK : Z := 0.

Class Platform (N : Type) := {
  curl_easy_init : N -> bool * N;
  curl_easy_perform : CurlRequest -> N -> CurlTransfer * N;
  curl_easy_strerror : Z -> string;
  put_double : double -> string
}.

(** The double quote character and the two search keys of the parsers. *)
Definition dquote : string := String "034"%char EmptyString.
Definition key_id : string := Eval cbv in dquote ++ "id" ++ dquote ++ ":" ++ dquote.
Definition key_next_open : string :=
  Eval cbv in dquote ++ "next_open" ++ dquote ++ ":" ++ dquote.

(** [s.find(key)] and [s.find(key, pos)]; [None] is [npos]. *)
Definition find (key : string) (pos : nat) (s : string) : option nat :=
  String.index pos key s.

(** [s.substr(pos, n)] for [pos <= s.size()]. *)
Definition substr (pos n : nat) (s : string) : string := String.substring pos n s.

(** [contains key s]: [key] occurs in [s] as a substring. *)
Definition contains (key s : string) : Prop :=
  exists pre post, s = pre ++ key ++ post.

Record HttpResp := mkHttpResp { status : Z; body : string }.

(** The object: its configuration and the network it reaches. *)
Record Api (N : Type) := mkApi { cfg_ : AlpacaConfig; net : N }.
Arguments mkApi {N} cfg_ net.
Arguments cfg_ {N} a.
Arguments net {N} a.

Section Adapter.
Context {N : Type} {platform : Platform N}.

Definition http_req (method url : string) (body : option string) : M (Api N) HttpResp :=
  fun a =>
    let (curl, n1) := curl_easy_init (net a) in
    if negb curl then (Thrown (runtime_error "curl_easy_init failed"), mkApi (cfg_ a) n1)
    else
      let headers :=
        [ "Content-Type: application/json";
          "APCA-API-KEY-ID: " ++ api_key (cfg_ a);
          "APCA-API-SECRET-KEY: " ++ api_secret (cfg_ a) ] in
      let (tr, n2) := curl_easy_perform (mkCurlRequest url method headers body) n1 in
      if negb (Z.eqb (res tr) CURLE_OK) then
        (Thrown (runtime_error ("curl failed: " ++ curl_easy_strerror (res tr))),
         mkApi (cfg_ a) n2)
      else (Returned (mkHttpResp (response_code tr) (written tr)), mkApi (cfg_ a) n2).

Definition http_get (url : string) : M (Api N) (Z * string) :=
  r <- http_req "GET" url None ;; ret (status r, body r).

Definition http_delete (url : string) : M (Api N) (Z * string) :=
  r <- http_req "DELETE" url None ;; ret (status r, body r).

Definition http_post (url body_ : string) : M (Api N) (Z * string) :=
  r <- http_req "POST" url (Some body_) ;; ret (status r, body r).

Definition to_tif (tif : TimeInForce) : string :=
  match tif with
  | Day => "day"
  | GTC => "gtc"
  | IOC => "ioc"
  | FOK => "fok"
  end.

Definition build_order_json (symbol side : string) (qty : double) (type : string)
  (limit_price stop_price : option double) (tif : string) : string :=
  "{" ++
  dquote ++ "symbol" ++ dquote ++ ":" ++ dquote ++ symbol ++ dquote ++ "," ++
  dquote ++ "qty" ++ dquote ++ ":" ++ dquote ++ put_double qty ++ dquote ++ "," ++
  dquote ++ "side" ++ dquote ++ ":" ++ dquote ++ side ++ dquote ++ "," ++
  dquote ++ "type" ++ dquote ++ ":" ++ dquote ++ type ++ dquote ++ "," ++
  dquote ++ "time_in_force" ++ dquote ++ ":" ++ dquote ++ tif ++ dquote ++
  match limit_price with
  | Some p => "," ++ dquote ++ "limit_price" ++ dquote ++ ":" ++ dquote ++ put_double p ++ dquote
  | None => ""
  end ++
  match stop_price with
  | Some p => "," ++ dquote ++ "stop_price" ++ dquote ++ ":" ++ dquote ++ put_double p ++ dquote
  | None => ""
  end ++
  "}".

Definition parse_order_result (status : Z) (resp : string) : OrderResult :=
  if ((200 <=? status) && (status <? 300))%Z then
    let id :=
      match find key_id 0 resp with
      | Some pos =>
          let pos := (pos + String.length key_id)%nat in
          match find dquote pos resp with
          | Some end_ => substr pos (end_ - pos) resp
          | None => ""
          end
      | None => ""
      end in
    {| orderId := id; accepted := true; message := "Accepted" |}
  else
    {| orderId := ""; accepted := false;
       message := "Order failed: HTTP " ++ to_string status ++ " " ++ resp |}.

Definition side_json (s : Side) : string :=
  match s with Buy => "buy" | Sell => "sell" end.

Definition PlaceMarketOrder_Impl (o : MarketOrder.t) : M (Api N) OrderResult :=
  fun a =>
    let body_ := build_order_json (MarketOrder.symbol o) (side_json (MarketOrder.side o))
                   (MarketOrder.qty o) "market" None None (to_tif (MarketOrder.tif o)) in
    (r <- http_post (base_url (cfg_ a) ++ "/v2/orders") body_ ;;
     ret (parse_order_result (fst r) (snd r))) a.

Definition PlaceShortOrder_Impl (o : ShortOrder.t) : M (Api N) OrderResult :=
  fun a =>
    let body_ := build_order_json (ShortOrder.symbol o) "sell"
                   (ShortOrder.qty o) "market" None None (to_tif (ShortOrder.tif o)) in
    (r <- http_post (base_url (cfg_ a) ++ "/v2/orders") body_ ;;
     ret (parse_order_result (fst r) (snd r))) a.

Definition PlaceStopOrder_Impl (o : StopOrder.t) : M (Api N) OrderResult :=
  fun a =>
    let body_ := build_order_json (StopOrder.symbol o) (side_json (StopOrder.side o))
                   (StopOrder.qty o) "stop" None (Some (StopOrder.stopPrice o))
                   (to_tif (StopOrder.tif o)) in
    (r <- http_post (base_url (cfg_ a) ++ "/v2/orders") body_ ;;
     ret (parse_order_result (fst r) (snd r))) a.

Definition PlaceLimitOrder_Impl (o : LimitOrder.t) : M (Api N) OrderResult :=
  fun a =>
    let body_ := build_order_json (LimitOrder.symbol o) (side_json (LimitOrder.side o))
                   (LimitOrder.qty o) "limit" (Some (LimitOrder.limitPrice o)) None
                   (to_tif (LimitOrder.tif o)) in
    (r <- http_post (base_url (cfg_ a) ++ "/v2/orders") body_ ;;
     ret (parse_order_result (fst r) (snd r))) a.

Definition CloseAllPositions_Impl : M (Api N) PositionCloseResult.t :=
  fun a =>
    (r <- http_delete (base_url (cfg_ a) ++ "/v2/positions") ;;
     let (status, resp) := r : Z * string in
     if ((200 <=? status) && (status <? 300))%Z
     then ret (PositionCloseResult.mk true "Closed all positions.")
     else ret (PositionCloseResult.mk false
                 ("CloseAllPositions failed: HTTP " ++ to_string status ++ " " ++ resp))) a.

Definition GetNextMarketOpenTime_Impl : M (Api N) (option SysTime) :=
  fun a =>
    (r <- http_get (base_url (cfg_ a) ++ "/v2/clock") ;;
     let (status, resp) := r : Z * string in
     if ((status <? 200) || (status >=? 300))%Z then ret None
     else
       match find key_next_open 0 resp with
       | None => ret None
       | Some pos =>
           let pos := (pos + String.length key_next_open)%nat in
           match find dquote pos resp with
           | None => ret None
           | Some _ => ret (Some 0%Z)
           end
       end) a.

End Adapter.

(** *** The adapter behind the dispatch layer

    The class is a [StrategyTemplate<AlpacaPaperApi>]: its [*_Impl] members
    fill the CRTP contract.  [IsMarketOpen_Impl] is not defined in the
    repository and is an argument. *)
Definition AsDerived {N : Type} {platform : Platform N}
  (IsMarketOpen_Impl : M (Api N) bool) : Derived (Api N) :=
  StrategyTemplate.Build_Derived (Api N)
    PlaceMarketOrder_Impl PlaceShortOrder_Impl PlaceStopOrder_Impl PlaceLimitOrder_Impl
    CloseAllPositions_Impl IsMarketOpen_Impl GetNextMarketOpenTime_Impl.

(** *** Vocabulary of the properties *)

Section Vocabulary.
Context {N : Type} {platform : Platform N}.

(** The four order operations as one function of the order intent. *)
Definition place (i : OrderIntent) : M (Api N) OrderResult :=
  match i with
  | Market o => PlaceMarketOrder_Impl o
  | Limit o => PlaceLimitOrder_Impl o
  | Stop o => PlaceStopOrder_Impl o
  | Short o => PlaceShortOrder_Impl o
  end.

(** The JSON text each operation posts. *)
Definition order_json (i : OrderIntent) : string :=
  match i with
  | Market o =>
      build_order_json (MarketOrder.symbol o) (side_json (MarketOrder.side o))
        (MarketOrder.qty o) "market" None None (to_tif (MarketOrder.tif o))
  | Limit o =>
      build_order_json (LimitOrder.symbol o) (side_json (LimitOrder.side o))
        (LimitOrder.qty o) "limit" (Some (LimitOrder.limitPrice o)) None
        (to_tif (LimitOrder.tif o))
  | Stop o =>
      build_order_json (StopOrder.symbol o) (side_json (StopOrder.side o))
        (StopOrder.qty o) "stop" None (Some (StopOrder.stopPrice o))
        (to_tif (StopOrder.tif o))
  | Short o =>
      build_order_json (ShortOrder.symbol o) "sell"
        (ShortOrder.qty o) "market" None None (to_tif (ShortOrder.tif o))
  end.

(** The transfer [http_req] sets up for a method, a path under the base
    URL and a body: the three headers carry the content type and the two
    credentials of the configuration. *)
Definition request (a : Api N) (method path : string) (body_ : option string)
  : CurlRequest :=
  mkCurlRequest (base_url (cfg_ a) ++ path) method
    [ "Content-Type: application/json";
      "APCA-API-KEY-ID: " ++ api_key (cfg_ a);
      "APCA-API-SECRET-KEY: " ++ api_secret (cfg_ a) ] body_.

End Vocabulary.

(** *** A scripted network for examples

    The state is the list of transfers still to come: each [perform] pops
    one.  When the script is exhausted the host cannot be reached
    ([CURLE_COULDNT_CONNECT], 7). *)

Definition Script := list CurlTransfer.

Definition ScriptedNet : Platform Script := {|
  curl_easy_init := fun n => (true, n);
  curl_easy_perform := fun _ n =>
    match n with
    | [] => (mkCurlTransfer 7 0 "", [])
    | tr :: n' => (tr, n')
    end;
  curl_easy_strerror := fun code =>
    if Z.eqb code 7 then "Couldn't connect to server" else "error";
  put_double := fun _ => "?"
|}.

(** A platform on which libcurl gives no handle. *)
Definition NoHandleNet : Platform unit := {|
  curl_easy_init := fun n => (false, n);
  curl_easy_perform := fun _ n => (mkCurlTransfer 2 0 "", n);
  curl_easy_strerror := fun _ => "Failed initialization";
  put_double := fun _ => "?"
|}.

Definition demo_cfg : AlpacaConfig :=
  mkAlpacaConfig "key" "secret" "https://paper-api.alpaca.markets".

End AlpacaPaperApi.

(** ** liveloop.hpp: the market picker and the live loop *)

Module LiveLoop.
Import Cxx.

Definition SysTime := StrategyTemplate.SysTime.

(** *** What the loop needs from its surroundings *)

(** [struct tm], the members that are read. *)
Record tm := mkTm {
  tm_sec : Z; tm_min : Z; tm_hour : Z; tm_mday : Z; tm_mon : Z; tm_year : Z
}.

(** The C library and the parts of the repository that liveloop.hpp calls
    without defining them: [gmtime], the number of clock ticks in a second
    (for [system_clock::to_time_t]) and [is_cn_market_open_utc], the open
    window of the CN market as a function of the wall-clock time. *)
Class Runtime := {
  gmtime : Z -> tm;
  ticks_per_second : Z;
  is_cn_market_open_utc : SysTime -> bool
}.

(** The template parameter [AlpacaApi]: the members liveloop.hpp calls on
    it.  [IsMarketOpen] is the front door of [StrategyTemplate]. *)
Class AlpacaApi (A : Type) := {
  http_get : string -> M A (Z * string);
  trading_base_url : A -> string;
  data_base_url : A -> string;
  IsMarketOpen : M A bool
}.

(** What a turn of the loop does, as a trace: the calls on the adapter,
    the sleep, and one entry for each time one of the two retrieval
    functions is entered, so that their calls can be counted. *)
Inductive Event :=
| Ev_IsMarketOpen
| Ev_http_get (url : string)
| Ev_GetFirst5MinCandle_US (symbol : string)
| Ev_GetFirst5MinCandle_CN_Placeholder (symbol : string)
| Ev_sleep_for (seconds : Z).

(** The world of the loop: the adapter object, the wall clock as the
    sequence of its successive readings, the text written to [std::cout]
    and the trace of events. *)
Record World (A : Type) := mkWorld {
  alpaca : A;
  system_clock : nat -> SysTime;
  clock_reads : nat;
  cout : string;
  trace : list Event
}.
Arguments mkWorld {A} alpaca system_clock clock_reads cout trace.
Arguments alpaca {A} w.
Arguments system_clock {A} w n.
Arguments clock_reads {A} w.
Arguments cout {A} w.
Arguments trace {A} w.

Inductive Market := US | CN | NONE.

Record MarketPick := mkMarketPick {
  market : Market;
  symbol : string
}.

Record Candle := mkCandle {
  t : string;
  o : double; h : double; l : double; c : double;
  v : Z;
  ok : bool;
  raw : string
}.

(** [Candle{.ok = ok, .raw = raw}]: the other members keep their default
    initialisers. *)
Definition Candle_ok_raw (ok : bool) (raw : string) : Candle :=
  mkCandle "" d_zero d_zero d_zero d_zero 0 ok raw.

Definition newline : string := String "010"%char EmptyString.

Fixpoint zeros (n : nat) : string :=
  match n with O => "" | S n' => "0" ++ zeros n' end.

(** The conversion [%0<width>d]. *)
Definition fmt_0d (width : nat) (z : Z) : string :=
  let sign := if (z <? 0)%Z then "-" else "" in
  let digits := to_string (Z.abs z) in
  sign ++ zeros (width - String.length sign - String.length digits) ++ digits.

Section Loop.
Context {rt : Runtime} {A : Type} {api : AlpacaApi A}.

Definition emit (e : Event) : M (World A) unit :=
  fun w => (Returned tt,
            mkWorld (alpaca w) (system_clock w) (clock_reads w) (cout w)
                    (trace w ++ [e])%list).

(** A call on the adapter object. *)
Definition on_alpaca {X} (m : M A X) : M (World A) X :=
  fun w =>
    let (r, a') := m (alpaca w) in
    (r, mkWorld a' (system_clock w) (clock_reads w) (cout w) (trace w)).

(** [std::chrono::system_clock::now()]. *)
Definition now : M (World A) SysTime :=
  fun w => (Returned (system_clock w (clock_reads w)),
            mkWorld (alpaca w) (system_clock w) (S (clock_reads w)) (cout w) (trace w)).

(** [std::cout << s]. *)
Definition print (s : string) : M (World A) unit :=
  fun w => (Returned tt,
            mkWorld (alpaca w) (system_clock w) (clock_reads w) (cout w ++ s) (trace w)).

(** [std::this_thread::sleep_for(std::chrono::seconds(n))]. *)
Definition sleep_for (seconds : Z) : M (World A) unit := emit (Ev_sleep_for seconds).

Definition alpaca_http_get (url : string) : M (World A) (Z * string) :=
  emit (Ev_http_get url) ;;; on_alpaca (http_get url).

Definition alpaca_IsMarketOpen : M (World A) bool :=
  emit Ev_IsMarketOpen ;;; on_alpaca IsMarketOpen.

Definition alpaca_trading_base_url : M (World A) string :=
  fun w => (Returned (trading_base_url (alpaca w)), w).

Definition alpaca_data_base_url : M (World A) string :=
  fun w => (Returned (data_base_url (alpaca w)), w).

(** [system_clock::to_time_t]: whole seconds, truncated. *)
Definition to_time_t (tp : SysTime) : Z := Z.quot tp ticks_per_second.

Definition to_iso8601_utc (tp : SysTime) : string :=
  let gmt := gmtime (to_time_t tp) in
  to_string (tm_year gmt + 1900) ++ "-" ++ fmt_0d 2 (tm_mon gmt + 1) ++ "-" ++
  fmt_0d 2 (tm_mday gmt) ++ "T" ++ fmt_0d 2 (tm_hour gmt) ++ ":" ++
  fmt_0d 2 (tm_min gmt) ++ ":" ++ fmt_0d 2 (tm_sec gmt) ++ "Z".

(** [snprintf(dateBuf, 11, "%04d-%02d-%02d", ...)]: at most ten characters
    are kept. *)
Definition ymd_of (gmt : tm) : string :=
  String.substring 0 10
    (fmt_0d 4 (tm_year gmt + 1900) ++ "-" ++ fmt_0d 2 (tm_mon gmt + 1) ++ "-" ++
     fmt_0d 2 (tm_mday gmt)).

Definition GetFirst5MinCandle_US (symbol : string) : M (World A) Candle :=
  emit (Ev_GetFirst5MinCandle_US symbol) ;;;
  tb <- alpaca_trading_base_url ;;
  clock <- alpaca_http_get (tb ++ "/v2/clock") ;;
  let (stClock, clockJson) := clock : Z * string in
  if ((stClock <? 200) || (stClock >=? 300))%Z then
    ret (Candle_ok_raw false ("clock failed: " ++ clockJson))
  else
    nowUtc <- now ;;
    let ymd := ymd_of (gmtime (to_time_t nowUtc)) in
    tb <- alpaca_trading_base_url ;;
    let calUrl := tb ++ "/v2/calendar?start=" ++ ymd ++ "&end=" ++ ymd in
    cal <- alpaca_http_get calUrl ;;
    let (stCal, calJson) := cal : Z * string in
    if ((stCal <? 200) || (stCal >=? 300))%Z then
      ret (Candle_ok_raw false ("calendar failed: " ++ calJson))
    else
      let start := ymd ++ "T00:00:00Z" in
      db <- alpaca_data_base_url ;;
      let url := db ++ "/v2/stocks/bars?symbols=" ++ symbol ++
                 "&timeframe=5Min&start=" ++ start ++ "&limit=1" in
      bars <- alpaca_http_get url ;;
      let (stBars, barsJson) := bars : Z * string in
      ret (Candle_ok_raw ((200 <=? stBars) && (stBars <? 300))%Z barsJson).

Definition GetFirst5MinCandle_CN_Placeholder (symbol : string) : M (World A) Candle :=
  emit (Ev_GetFirst5MinCandle_CN_Placeholder symbol) ;;;
  ret (Candle_ok_raw false "CN market data not implemented yet").

Definition pick_market : M (World A) MarketPick :=
  open <- alpaca_IsMarketOpen ;;
  if open : bool then ret (mkMarketPick US "SPY")
  else
    nowUtc <- now ;;
    if is_cn_market_open_utc nowUtc then ret (mkMarketPick CN "SSE")
    else ret (mkMarketPick NONE "").

Definition ok_or_fail (b : bool) : string := if b then "OK" else "FAIL".

(** One turn of the [while (true)] body. *)
Definition cycle : M (World A) unit :=
  nowUtc <- now ;;
  pick <- pick_market ;;
  match market pick with
  | US =>
      c <- GetFirst5MinCandle_US (symbol pick) ;;
      print ("[UTC " ++ to_iso8601_utc nowUtc ++ "] US open. First 5m candle (" ++
             symbol pick ++ "): " ++ ok_or_fail (ok c) ++ newline ++ raw c ++ newline)
  | CN =>
      c <- GetFirst5MinCandle_CN_Placeholder (symbol pick) ;;
      print ("[UTC " ++ to_iso8601_utc nowUtc ++ "] CN open. First 5m candle (" ++
             symbol pick ++ "): " ++ ok_or_fail (ok c) ++ newline ++ raw c ++ newline)
  | NONE =>
      print ("[UTC " ++ to_iso8601_utc nowUtc ++ "] No tracked market open." ++ newline)
  end ;;;
  sleep_for 30.

(** [live_loop]: the first [turns] turns of the loop.  [Returned tt] means
    that all of them were completed and the loop goes on; [Thrown e] that an
    exception left the loop, and with it [main]. *)
Fixpoint live_loop (turns : nat) : M (World A) unit :=
  match turns with
  | O => ret tt
  | S n => cycle ;;; live_loop n
  end.

End Loop.

(** *** Vocabulary of the properties *)

Section Vocabulary.
Context {rt : Runtime} {A : Type} {api : AlpacaApi A}.

(** The three requests of the first-interval sample retrieval, for the
    adapter [a] and the wall-clock reading [tp]. *)
Definition clock_url (a : A) : string := trading_base_url a ++ "/v2/clock".

Definition calendar_url (a : A) (tp : SysTime) : string :=
  let ymd := ymd_of (gmtime (to_time_t tp)) in
  trading_base_url a ++ "/v2/calendar?start=" ++ ymd ++ "&end=" ++ ymd.

Definition bars_url (a : A) (symbol : string) (tp : SysTime) : string :=
  let ymd := ymd_of (gmtime (to_time_t tp)) in
  data_base_url a ++ "/v2/stocks/bars?symbols=" ++ symbol ++
  "&timeframe=5Min&start=" ++ (ymd ++ "T00:00:00Z") ++ "&limit=1".

(** [retrieval_fails symbol a tp payload a']: started with the adapter in
    state [a] and the wall clock reading [tp], the retrieval gets an answer
    to each request it makes, and the clock, the calendar or the bars
    request is answered with a status outside 200..299.  [payload] is the
    diagnostic text for that answer and [a'] the adapter afterwards. *)
Inductive retrieval_fails (symbol : string) (a : A) (tp : SysTime)
  : string -> A -> Prop :=
| clock_fails st body a1 :
    http_get (clock_url a) a = (Returned (st, body), a1) ->
    is_2xx st = false ->
    retrieval_fails symbol a tp ("clock failed: " ++ body) a1
| calendar_fails st0 body0 a1 st body a2 :
    http_get (clock_url a) a = (Returned (st0, body0), a1) ->
    is_2xx st0 = true ->
    http_get (calendar_url a1 tp) a1 = (Returned (st, body), a2) ->
    is_2xx st = false ->
    retrieval_fails symbol a tp ("calendar failed: " ++ body) a2
| bars_fails st0 body0 a1 st1 body1 a2 st body a3 :
    http_get (clock_url a) a = (Returned (st0, body0), a1) ->
    is_2xx st0 = true ->
    http_get (calendar_url a1 tp) a1 = (Returned (st1, body1), a2) ->
    is_2xx st1 = true ->
    http_get (bars_url a2 symbol tp) a2 = (Returned (st, body), a3) ->
    is_2xx st = false ->
    retrieval_fails symbol a tp body a3.

(** The world in which the sample retrieval starts, in a turn begun in [w]
    whose [IsMarketOpen] call left the adapter in state [a1]: the clock has
    been read once and the call is in the trace. *)
Definition after_pick (w : World A) (a1 : A) : World A :=
  mkWorld a1 (system_clock w) (S (clock_reads w)) (cout w)
    (trace w ++ [Ev_IsMarketOpen])%list.

End Vocabulary.

(** How often an event occurs in a trace. *)
Definition is_fetch (e : Event) : bool :=
  match e with
  | Ev_GetFirst5MinCandle_US _ | Ev_GetFirst5MinCandle_CN_Placeholder _ => true
  | _ => false
  end.

Definition is_http_get (e : Event) : bool :=
  match e with Ev_http_get _ => true | _ => false end.

Definition is_sleep (e : Event) : bool :=
  match e with Ev_sleep_for _ => true | _ => false end.

Definition count (f : Event -> bool) (tr : list Event) : nat :=
  List.length (List.filter f tr).

Definition is_market_query (e : Event) : bool :=
  match e with Ev_IsMarketOpen => true | _ => false end.

(** Every sleep in a trace lasts 30 seconds. *)
Definition sleeps_30 (tr : list Event) : Prop :=
  forall seconds, In (Ev_sleep_for seconds) tr -> seconds = 30%Z.

(** *** The Alpaca adapter as the [AlpacaApi] of the loop

    AlpacaStrategy.cpp defines [http_get]; [trading_base_url],
    [data_base_url] and [IsMarketOpen_Impl] are declared or called but not
    defined in the repository, so they are arguments here. *)
Definition OfAlpacaPaperApi {N} {platform : AlpacaPaperApi.Platform N}
  (trading data : string) (IsMarketOpen_Impl : M (AlpacaPaperApi.Api N) bool)
  : AlpacaApi (AlpacaPaperApi.Api N) := {|
  http_get := AlpacaPaperApi.http_get;
  trading_base_url := fun _ => trading;
  data_base_url := fun _ => data;
  IsMarketOpen := IsMarketOpen_Impl
|}.

(** A fake primary adapter on the Alpaca HTTP layer that reports the
    market as open without asking the network. *)
Definition OpenAlpaca : AlpacaApi (AlpacaPaperApi.Api AlpacaPaperApi.Script) :=
  OfAlpacaPaperApi (platform := AlpacaPaperApi.ScriptedNet)
    "https://paper-api.alpaca.markets" "https://data.alpaca.markets" (ret true).

(** The same with the market reported as closed. *)
Definition ClosedAlpaca : AlpacaApi (AlpacaPaperApi.Api AlpacaPaperApi.Script) :=
  OfAlpacaPaperApi (platform := AlpacaPaperApi.ScriptedNet)
    "https://paper-api.alpaca.markets" "https://data.alpaca.markets" (ret false).

(** A world at the start of the loop, with the given script of answers from
    the network; the wall clock advances by one tick per reading. *)
Definition start_world (script : AlpacaPaperApi.Script)
  : World (AlpacaPaperApi.Api AlpacaPaperApi.Script) :=
  mkWorld (AlpacaPaperApi.mkApi AlpacaPaperApi.demo_cfg script)
    (fun n => 1710513000 + Z.of_nat n)%Z 0 "" [].

(** A runtime for examples: the clock ticks in seconds, [gmtime] answers
    2024-03-15 14:30:00 for every instant, and the CN window is closed. *)
Definition DemoRuntime : Runtime := {|
  gmtime := fun _ => mkTm 0 30 14 15 2 124;
  ticks_per_second := 1;
  is_cn_market_open_utc := fun _ => false
|}.

(** The same runtime with the CN window open. *)
Definition DemoRuntimeCN : Runtime := {|
  gmtime := fun _ => mkTm 0 30 14 15 2 124;
  ticks_per_second := 1;
  is_cn_market_open_utc := fun _ => true
|}.

(** An adapter whose market query cannot reach the broker. *)
Definition UnreachableAlpaca : AlpacaApi (AlpacaPaperApi.Api AlpacaPaperApi.Script) :=
  OfAlpacaPaperApi (platform := AlpacaPaperApi.ScriptedNet)
    "https://paper-api.alpaca.markets" "https://data.alpaca.markets"
    (throw (runtime_error "curl failed: Couldn't connect to server")).

(** Three answers with status 200, for the clock, the calendar and the
    bars request. *)
Definition three_ok : AlpacaPaperApi.Script :=
  [AlpacaPaperApi.mkCurlTransfer 0 200 "{}";
   AlpacaPaperApi.mkCurlTransfer 0 200 "[]";
   AlpacaPaperApi.mkCurlTransfer 0 200 "{bars}"].

(** A [struct tm] that holds a calendar date and time of day, with a year
    from 0 to 9999. *)
Definition calendar_tm (gmt : tm) : Prop :=
  (0 <= tm_sec gmt <= 60 /\ 0 <= tm_min gmt <= 59 /\ 0 <= tm_hour gmt <= 23 /\
   1 <= tm_mday gmt <= 31 /\ 0 <= tm_mon gmt <= 11 /\
   0 <= tm_year gmt + 1900 <= 9999)%Z.

End LiveLoop.

(* ================================================================== *)
(** * Part II. Properties                                              *)
(* ================================================================== *)

Import Cxx.

(** ** Doubles *)

(** The constants are binary64 values, and [d_1e_12] is the one nearest to
    10^-12: its distance to 10^-12 is at most half a unit in the last place,
    [|m * 2^-92 - 10^-12| <= 2^-93]. *)
Lemma constants_are_doubles :
  is_double d_zero = true /\ is_double d_1e_12 = true /\
  is_double d_one = true /\ is_double d_ten = true /\ is_double d_minus_one = true.
Proof. repeat split; vm_compute; reflexivity. Qed.

Lemma d_1e_12_nearest :
  (2 * Z.abs (4951760157141521 * 10 ^ 12 - 2 ^ 92) <= 10 ^ 12)%Z.
Proof. vm_compute. discriminate. Qed.

(** [fabs x] is never negative, so it is [<= 0] only when it is zero; and
    zero is below [1e-12]. *)
Lemma fabs_not_below_eps_positive (x : double) :
  SFltb (SFabs x) d_1e_12 = false -> SFleb (SFabs x) d_zero = false.
Proof.
  destruct x as [s | s | | s m e]; intros Hx; try reflexivity.
  exfalso. revert Hx. vm_compute. discriminate.
Qed.

Lemma fabs_above_eps_not_below (x : double) :
  SFltb d_1e_12 (SFabs x) = true -> SFltb (SFabs x) d_1e_12 = false.
Proof.
  destruct x as [s | s | | s m e];
    [vm_compute; congruence | vm_compute; congruence | vm_compute; congruence |].
  change (SFabs (S754_finite s m e)) with (S754_finite false m e).
  unfold SFltb, d_1e_12, SFcompare.
  rewrite (Z.compare_antisym (-92) e).
  destruct (Z.compare (-92) e); try (intros _; reflexivity); try discriminate.
  change (CompOpp Eq) with Eq. cbv iota.
  change PosDef.Pos.compare_cont with Pos.compare_cont.
  rewrite (eq_sym (Pos.compare_cont_antisym 4951760157141521 m Eq)
           : Pos.compare_cont Eq m 4951760157141521 = _).
  destruct (Pos.compare_cont Eq 4951760157141521 m); unfold CompOpp;
    try (intros _; reflexivity); discriminate.
Qed.

(** A double cannot be both below and above zero. *)
Lemma above_zero_not_below (x : double) :
  SFltb d_zero x = true -> SFltb x d_zero = false.
Proof. destruct x as [s | s | | s m e]; try destruct s; vm_compute; congruence. Qed.

Lemma above_zero_not_le (x : double) :
  SFltb d_zero x = true -> SFleb x d_zero = false.
Proof. destruct x as [s | s | | s m e]; try destruct s; vm_compute; congruence. Qed.

(** ** The dispatch layer *)

Section Dispatch.
Import StrategyTemplate.
Context {D : Type} {adapter : Derived D}.

Lemma validate_basic_throws (symbol : string) (qty : double) (s : D * list ImplCall) :
  symbol = "" \/ SFleb qty d_zero = true ->
  exists msg, validate_basic symbol qty s = (Thrown (invalid_argument msg), s).
Proof.
  unfold validate_basic, throw. intros [-> | Hq]; cbn.
  - eexists; reflexivity.
  - destruct (empty symbol); rewrite ?Hq; eexists; reflexivity.
Qed.

Lemma validate_basic_cases (symbol : string) (qty : double) (s : D * list ImplCall) :
  (exists msg, validate_basic symbol qty s = (Thrown (invalid_argument msg), s)) \/
  validate_basic symbol qty s = (Returned tt, s).
Proof.
  unfold validate_basic, throw, ret.
  destruct (empty symbol); [left; eexists; reflexivity|].
  destruct (SFleb qty d_zero); [left; eexists; reflexivity|right; reflexivity].
Qed.

(** C1. Every order intent with an empty symbol or a quantity [<= 0], and
    every Limit or Stop intent with a price [<= 0], makes the dispatch layer
    throw [std::invalid_argument]; the adapter and the log of the recording
    fake are left as they were: no [*_Impl] member has been called. *)
Theorem C1_invalid_intent_never_reaches_adapter
  (i : OrderIntent) (d : D) (log : list ImplCall) :
  invalid_intent i ->
  exists msg,
    dispatch (D := D * list ImplCall) i (d, log)
    = (Thrown (invalid_argument msg), (d, log)).
Proof.
  intros Hbad.
  destruct i as [o | o | o | o]; cbn [dispatch];
    unfold PlaceMarketOrder, PlaceLimitOrder, PlaceStopOrder, PlaceShortOrder, bind;
    unfold invalid_intent in Hbad; cbn [intent_symbol intent_qty intent_price] in Hbad.
  - destruct Hbad as [Hs | [Hq | (p & Hp & _)]]; [| |discriminate].
    + destruct (validate_basic_throws (MarketOrder.symbol o) (MarketOrder.qty o) (d, log)
                  (or_introl Hs)) as [msg ->]. eauto.
    + destruct (validate_basic_throws (MarketOrder.symbol o) (MarketOrder.qty o) (d, log)
                  (or_intror Hq)) as [msg ->]. eauto.
  - destruct (validate_basic_cases (LimitOrder.symbol o) (LimitOrder.qty o) (d, log))
      as [[msg ->] | Hv]; [eauto|].
    destruct Hbad as [Hs | [Hq | (p & Hp & Hle)]].
    + destruct (validate_basic_throws _ (LimitOrder.qty o) (d, log) (or_introl Hs))
        as [msg Hm]. congruence.
    + destruct (validate_basic_throws (LimitOrder.symbol o) _ (d, log) (or_intror Hq))
        as [msg Hm]. congruence.
    + rewrite Hv. injection Hp as <-. rewrite Hle. eexists; reflexivity.
  - destruct (validate_basic_cases (StopOrder.symbol o) (StopOrder.qty o) (d, log))
      as [[msg ->] | Hv]; [eauto|].
    destruct Hbad as [Hs | [Hq | (p & Hp & Hle)]].
    + destruct (validate_basic_throws _ (StopOrder.qty o) (d, log) (or_introl Hs))
        as [msg Hm]. congruence.
    + destruct (validate_basic_throws (StopOrder.symbol o) _ (d, log) (or_intror Hq))
        as [msg Hm]. congruence.
    + rewrite Hv. injection Hp as <-. rewrite Hle. eexists; reflexivity.
  - destruct Hbad as [Hs | [Hq | (p & Hp & _)]]; [| |discriminate].
    + destruct (validate_basic_throws (ShortOrder.symbol o) (ShortOrder.qty o) (d, log)
                  (or_introl Hs)) as [msg ->]. eauto.
    + destruct (validate_basic_throws (ShortOrder.symbol o) (ShortOrder.qty o) (d, log)
                  (or_intror Hq)) as [msg ->]. eauto.
Qed.

End Dispatch.

(** The instance of C1 from the specification: a market order for ["SPY"]
    with quantity [0] against the echoing fake. *)
Lemma C1_witness_zero_quantity :
  StrategyTemplate.invalid_intent
    (StrategyTemplate.Market
       (StrategyTemplate.MarketOrder.mk "SPY" StrategyTemplate.Buy d_zero
          StrategyTemplate.Day)) /\
  exists msg,
    StrategyTemplate.dispatch (D := unit * list StrategyTemplate.ImplCall)
      (adapter := StrategyTemplate.Recording unit (adapter := StrategyTemplate.Echo))
      (StrategyTemplate.Market
         (StrategyTemplate.MarketOrder.mk "SPY" StrategyTemplate.Buy d_zero
            StrategyTemplate.Day)) (tt, [])
    = (Thrown (invalid_argument msg), (tt, [])).
Proof.
  assert (Hbad : StrategyTemplate.invalid_intent
    (StrategyTemplate.Market
       (StrategyTemplate.MarketOrder.mk "SPY" StrategyTemplate.Buy d_zero
          StrategyTemplate.Day))).
  { right; left; reflexivity. }
  split; [exact Hbad|].
  exact (C1_invalid_intent_never_reaches_adapter (adapter := StrategyTemplate.Echo)
           _ tt [] Hbad).
Defined.

(** The same order with quantity [10] goes through to the adapter, whose
    result comes back as it is. *)
Example dispatch_valid_market_order :
  StrategyTemplate.dispatch (D := unit * list StrategyTemplate.ImplCall)
    (adapter := StrategyTemplate.Recording unit (adapter := StrategyTemplate.Echo))
    (StrategyTemplate.Market
       (StrategyTemplate.MarketOrder.mk "SPY" StrategyTemplate.Buy d_ten
          StrategyTemplate.Day)) (tt, [])
  = (Returned (StrategyTemplate.mkOrderResult "adapter-id" true "Accepted"),
     (tt, [StrategyTemplate.Call_PlaceMarketOrder_Impl
             (StrategyTemplate.MarketOrder.mk "SPY" StrategyTemplate.Buy d_ten
                StrategyTemplate.Day)])).
Proof. reflexivity. Qed.

(** ** The closing sweep of ChineseStrategy *)

Section ClosingSweep.
Import ChineseStrategy.
Context {defaults : IbkrDefaults} {G : Type} {gw : IIbkrGateway G}.

(** The loop body on a position that is not skipped. *)
Lemma close_loop_attempt (p : OpenPosition) (ps : list OpenPosition)
  (sent : Z) (ids : list Z) (g : G) :
  SFltb (SFabs (position p)) d_1e_12 = false ->
  close_loop (p :: ps) sent ids g =
  match PlaceMarketOrder_Impl (closing_order p) g with
  | (Returned res, g1) =>
      if ok res then close_loop ps (int_incr sent) (ids ++ [orderId res])%list g1
      else close_loop ps sent ids g1
  | (Thrown e, g1) => (Thrown e, g1)
  end.
Proof.
  intros Hp. cbn [close_loop]. rewrite Hp. unfold bind, closing_order.
  destruct (PlaceMarketOrder_Impl _ g) as [[res | e] g1]; [|reflexivity].
  destruct (ok res); reflexivity.
Qed.

Lemma close_loop_skip (p : OpenPosition) (ps : list OpenPosition)
  (sent : Z) (ids : list Z) (g : G) :
  SFltb (SFabs (position p)) d_1e_12 = true ->
  close_loop (p :: ps) sent ids g = close_loop ps sent ids g.
Proof. intros Hp. cbn [close_loop]. rewrite Hp. reflexivity. Qed.

(** The loop over a snapshot in two parts: the second part starts from the
    accumulators and the gateway state the first part ends with. *)
Lemma close_loop_app (pre post : list OpenPosition) (sent : Z) (ids : list Z) (g : G) :
  close_loop (pre ++ post) sent ids g =
  match close_loop pre sent ids g with
  | (Returned (sent', ids'), g') => close_loop post sent' ids' g'
  | (Thrown e, g') => (Thrown e, g')
  end.
Proof.
  revert sent ids g. induction pre as [|q pre IH]; intros sent ids g.
  - reflexivity.
  - cbn [app]. destruct (SFltb (SFabs (position q)) d_1e_12) eqn:Hq.
    + rewrite !close_loop_skip by exact Hq. apply IH.
    + rewrite !close_loop_attempt by exact Hq.
      destruct (PlaceMarketOrder_Impl (closing_order q) g) as [[res | e] g1];
        [|reflexivity].
      destruct (ok res); apply IH.
Qed.

(** [CloseAllPositions_Impl] once the snapshot has been handed out. *)
Lemma CloseAllPositions_after_snapshot (ps : list OpenPosition) (g0 g1 : G) :
  getOpenPositionsSnapshot g0 = (Returned ps, g1) ->
  CloseAllPositions_Impl g0 =
  match close_loop ps 0 [] g1 with
  | (Returned (sent, ids), g') =>
      (Returned {| PositionCloseResult.ok := true;
                   PositionCloseResult.closeOrdersSent := sent;
                   PositionCloseResult.orderIds := ids;
                   PositionCloseResult.message :=
                     "CloseAllPositions: sent " ++ to_string sent ++
                     " market close orders." |}, g')
  | (Thrown e, g') => (Thrown e, g')
  end.
Proof.
  intros Hs. unfold CloseAllPositions_Impl, bind, try_catch, ret. rewrite Hs.
  destruct (close_loop ps 0 [] g1) as [[[sent ids] | e] g']; reflexivity.
Qed.

(** C6 (amended). When fetching the snapshot fails, the sweep stops there:
    the only call the recording gateway has seen is the snapshot request, so
    no closing order was submitted.  If the exception is derived from
    [std::exception], the handler turns it into a result with [ok = false]
    that carries the failure message; any other thrown object passes the
    handler, so there is no result and the exception reaches the caller. *)
Theorem C6_snapshot_failure_aborts_sweep
  (g0 g1 : G) (log : list GatewayCall) (e : exception) :
  getOpenPositionsSnapshot g0 = (Thrown e, g1) ->
  CloseAllPositions_Impl (G := G * list GatewayCall) (g0, log)
  = (match what e with
     | Some msg =>
         Returned {| PositionCloseResult.ok := false;
                     PositionCloseResult.closeOrdersSent := 0;
                     PositionCloseResult.orderIds := [];
                     PositionCloseResult.message := "Failed to fetch positions: " ++ msg |}
     | None => Thrown e
     end,
     (g1, (log ++ [Call_getOpenPositionsSnapshot])%list)).
Proof.
  intros Hs.
  unfold CloseAllPositions_Impl, bind, try_catch, ret.
  cbn [getOpenPositionsSnapshot Recording]. unfold recorded. cbn [fst snd].
  rewrite Hs. destruct (what e) as [msg|]; reflexivity.
Qed.

(** A sweep in which every attempted close is rejected changes neither
    accumulator. *)
Lemma close_loop_all_rejected (ps : list OpenPosition) (g g' : G) :
  all_closes_rejected ps g g' ->
  forall sent ids, close_loop ps sent ids g = (Returned (sent, ids), g').
Proof.
  induction 1 as [g | p ps g g' Hp _ IH | p ps g r g1 g' Hp Hr Hok _ IH];
    intros sent ids.
  - reflexivity.
  - rewrite close_loop_skip by assumption. apply IH.
  - rewrite close_loop_attempt by assumption. rewrite Hr, Hok. apply IH.
Qed.

(** C7. Over an empty snapshot the sweep reports [ok = true] with
    [closeOrdersSent = 0]; and when every close attempted in the sweep is
    rejected it reports the same. *)
Theorem C7_empty_or_all_rejected_still_success
  (ps : list OpenPosition) (g0 g1 : G) :
  getOpenPositionsSnapshot g0 = (Returned ps, g1) ->
  (ps = [] ->
   exists out, CloseAllPositions_Impl g0 = (Returned out, g1) /\
     PositionCloseResult.ok out = true /\
     PositionCloseResult.closeOrdersSent out = 0) /\
  (forall g', all_closes_rejected ps g1 g' ->
   exists out, CloseAllPositions_Impl g0 = (Returned out, g') /\
     PositionCloseResult.ok out = true /\
     PositionCloseResult.closeOrdersSent out = 0 /\
     PositionCloseResult.orderIds out = []).
Proof.
  intros Hs. rewrite (CloseAllPositions_after_snapshot ps g0 g1 Hs). split.
  - intros ->. cbn [close_loop]. unfold ret. eexists. split; [reflexivity|].
    split; reflexivity.
  - intros g' Hrej. rewrite (close_loop_all_rejected ps g1 g' Hrej).
    eexists. split; [reflexivity|]. repeat split; reflexivity.
Qed.

(** C2. A snapshot of two positions, the close of one rejected and the
    close of the other accepted (in either order): the sweep runs through
    both, reports [closeOrdersSent = 1], and [orderIds] holds the identifier
    of the accepted order only. *)
Theorem C2_rejection_does_not_abort_sweep
  (p1 p2 : OpenPosition) (g0 g1 g2 g3 : G) (r1 r2 : OrderResult) :
  getOpenPositionsSnapshot g0 = (Returned [p1; p2], g1) ->
  SFltb (SFabs (position p1)) d_1e_12 = false ->
  SFltb (SFabs (position p2)) d_1e_12 = false ->
  PlaceMarketOrder_Impl (closing_order p1) g1 = (Returned r1, g2) ->
  PlaceMarketOrder_Impl (closing_order p2) g2 = (Returned r2, g3) ->
  ok r1 = negb (ok r2) ->
  exists out, CloseAllPositions_Impl g0 = (Returned out, g3) /\
    PositionCloseResult.ok out = true /\
    PositionCloseResult.closeOrdersSent out = 1 /\
    PositionCloseResult.orderIds out = [orderId (if ok r1 then r1 else r2)].
Proof.
  intros Hs Hp1 Hp2 H1 H2 Hx.
  rewrite (CloseAllPositions_after_snapshot _ g0 g1 Hs).
  rewrite close_loop_attempt by assumption. rewrite H1.
  destruct (ok r1) eqn:E1; destruct (ok r2) eqn:E2; try discriminate;
    rewrite close_loop_attempt by assumption; rewrite H2, E2; cbn [close_loop];
    unfold ret; eexists; (split; [reflexivity|]); repeat split; reflexivity.
Qed.

End ClosingSweep.

(** ** The closing sweep seen through the recording gateway *)

Section RecordedSweep.
Import ChineseStrategy.
Context {defaults : IbkrDefaults} {G : Type} {gw : IIbkrGateway G}.

Lemma placed_app (l1 l2 : list GatewayCall) :
  placed (l1 ++ l2) = (placed l1 ++ placed l2)%list.
Proof.
  induction l1 as [|c l1 IH]; [reflexivity|].
  destruct c; cbn [placed app]; rewrite IH; reflexivity.
Qed.

(** [int] increments do not wrap below [2^31]. *)
Lemma int_incr_iter (n : nat) :
  (Z.of_nat n < 2 ^ 31)%Z -> Nat.iter n int_incr 0%Z = Z.of_nat n.
Proof.
  induction n as [|n IH]; intros Hn; [reflexivity|].
  rewrite Nat.iter_succ, IH by lia.
  unfold int_incr, int_wrap. rewrite Z.mod_small by lia. lia.
Qed.

Lemma int_incr_iter_shift (n : nat) (z : Z) :
  Nat.iter n int_incr (int_incr z) = Nat.iter (S n) int_incr z.
Proof. symmetry. apply Nat.iter_succ_r. Qed.

(** [SendOrder] on the recording gateway, for a quantity that passes the
    guard: the identifier is requested, and when it is handed out the order
    is placed with it. *)
Lemma SendOrder_recorded (c : Contract) (o : Order) (g : G) (log : list GatewayCall) :
  SFleb (totalQuantity o) d_zero = false ->
  SendOrder (G := G * list GatewayCall) c o (g, log) =
  match nextOrderId g with
  | (Returned id, g1) =>
      let log' := (log ++ [Call_nextOrderId; Call_placeOrder id c o])%list in
      match placeOrder id c o g1 with
      | (Returned _, g2) =>
          (Returned {| ok := true; orderId := id;
                       message := "Order sent to IBKR (acceptance/fill is async via EWrapper callbacks)" |},
           (g2, log'))
      | (Thrown e, g2) =>
          match what e with
          | Some w => (Returned {| ok := false; orderId := -1;
                                   message := "Failed to send order: " ++ w |}, (g2, log'))
          | None => (Thrown e, (g2, log'))
          end
      end
  | (Thrown e, g1) =>
      let log' := (log ++ [Call_nextOrderId])%list in
      match what e with
      | Some w => (Returned {| ok := false; orderId := -1;
                               message := "Failed to send order: " ++ w |}, (g1, log'))
      | None => (Thrown e, (g1, log'))
      end
  end.
Proof.
  intros Hq. unfold SendOrder. rewrite Hq.
  unfold try_catch, bind, ret.
  cbn [nextOrderId placeOrder Recording]. unfold recorded. cbn [fst snd].
  destruct (nextOrderId g) as [[id | e] g1]; cbn [fst snd].
  - destruct (placeOrder id c o g1) as [[[] | e] g2]; rewrite <- app_assoc; cbn [app];
      [reflexivity|]. destruct (what e); reflexivity.
  - destruct (what e); reflexivity.
Qed.

Lemma close_Order_closes (p : OpenPosition) (id : Z) :
  closes p (id, BuildContract (instrument p), close_Order p).
Proof.
  unfold closes, close_Order; cbn [fst snd action orderType totalQuantity o_tif].
  repeat split.
  - intros ->. reflexivity.
  - intros Hpos. rewrite (above_zero_not_below _ Hpos). reflexivity.
Qed.

Lemma close_loop_accepting (ps : list OpenPosition) :
  accepts_all ->
  Forall (fun p => SFltb d_1e_12 (SFabs (position p)) = true) ps ->
  forall sent ids g log,
  exists g' calls,
    close_loop (G := G * list GatewayCall) ps sent ids (g, log)
    = (Returned (Nat.iter (List.length ps) int_incr sent,
                 (ids ++ map (fun x => fst (fst x)) (placed calls))%list),
       (g', (log ++ calls)%list)) /\
    Forall2 closes ps (placed calls).
Proof.
  intros [Hid Hpl] Hall. induction Hall as [|p ps Hp _ IH]; intros sent ids g log.
  - exists g, []. cbn [close_loop placed map]. rewrite !app_nil_r. split; [reflexivity|constructor].
  - rewrite close_loop_attempt by (apply fabs_above_eps_not_below; exact Hp).
    change (PlaceMarketOrder_Impl (closing_order p) (g, log))
      with (SendOrder (G := G * list GatewayCall)
              (BuildContract (instrument p)) (close_Order p) (g, log)).
    rewrite SendOrder_recorded
      by (apply fabs_not_below_eps_positive, fabs_above_eps_not_below; exact Hp).
    destruct (Hid g) as (id & g1 & ->). cbv zeta.
    destruct (Hpl id (BuildContract (instrument p)) (close_Order p) g1) as (g2 & ->).
    cbn [ok orderId].
    destruct (IH (int_incr sent) (ids ++ [id])%list g2
                (log ++ [Call_nextOrderId;
                         Call_placeOrder id (BuildContract (instrument p)) (close_Order p)])%list)
      as (g' & calls & -> & Hcl).
    exists g', (Call_nextOrderId
                :: Call_placeOrder id (BuildContract (instrument p)) (close_Order p)
                :: calls).
    split.
    + rewrite int_incr_iter_shift. cbn [placed map fst snd].
      rewrite <- !app_assoc. reflexivity.
    + cbn [placed]. constructor; [apply close_Order_closes|exact Hcl].
Qed.

(** C3. Against a gateway that accepts all orders, the sweep over a
    snapshot of N positions, each with [|position| > 1e-12], places exactly
    N orders, one per position and in snapshot order; each is a market order
    for the position's contract, BUY when the position is negative and SELL
    when it is positive, for the absolute value of the position, with
    time-in-force DAY; [orderIds] lists their identifiers in the same
    order, and [closeOrdersSent] is N (as long as N fits an [int]). *)
Theorem C3_accepting_gateway_closes_each_position
  (ps : list OpenPosition) (g0 g1 : G) :
  accepts_all ->
  getOpenPositionsSnapshot g0 = (Returned ps, g1) ->
  Forall (fun p => SFltb d_1e_12 (SFabs (position p)) = true) ps ->
  exists out g' log,
    CloseAllPositions_Impl (G := G * list GatewayCall) (g0, [])
    = (Returned out, (g', log)) /\
    PositionCloseResult.ok out = true /\
    List.length (placed log) = List.length ps /\
    Forall2 closes ps (placed log) /\
    PositionCloseResult.orderIds out = map (fun x => fst (fst x)) (placed log) /\
    ((Z.of_nat (List.length ps) < 2 ^ 31)%Z ->
     PositionCloseResult.closeOrdersSent out = Z.of_nat (List.length ps)).
Proof.
  intros Hacc Hs Hall.
  assert (Hs' : getOpenPositionsSnapshot (G := G * list GatewayCall) (g0, [])
                = (Returned ps, (g1, [Call_getOpenPositionsSnapshot]))).
  { cbn [getOpenPositionsSnapshot Recording]. unfold recorded. cbn [fst snd].
    rewrite Hs. reflexivity. }
  rewrite (CloseAllPositions_after_snapshot _ _ _ Hs').
  destruct (close_loop_accepting ps Hacc Hall 0%Z [] g1 [Call_getOpenPositionsSnapshot])
    as (g' & calls & -> & Hcl).
  eexists. exists g', (Call_getOpenPositionsSnapshot :: calls).
  split; [reflexivity|]. cbn [placed app PositionCloseResult.ok
    PositionCloseResult.orderIds PositionCloseResult.closeOrdersSent].
  repeat split.
  - symmetry. eapply Forall2_length. exact Hcl.
  - exact Hcl.
  - apply int_incr_iter.
Qed.

(** The gateway calls made by [SendOrder] for a quantity that passes the
    guard start with the request for an identifier, and an order that is
    placed is the one that was sent. *)
Lemma SendOrder_recorded_calls (c : Contract) (o : Order) (g : G) (log : list GatewayCall) :
  SFleb (totalQuantity o) d_zero = false ->
  exists rest,
    snd (snd (SendOrder (G := G * list GatewayCall) c o (g, log)))
    = (log ++ Call_nextOrderId :: rest)%list /\
    (forall x, In x (placed rest) -> snd x = o).
Proof.
  intros Hq. rewrite (SendOrder_recorded c o g log Hq).
  destruct (nextOrderId g) as [[id | e] g1]; cbv zeta.
  - exists [Call_placeOrder id c o].
    split.
    + destruct (placeOrder id c o g1) as [[[] | e] g2]; [reflexivity|].
      destruct (what e); reflexivity.
    + cbn [placed]. intros x [<- | []]. reflexivity.
  - exists []. split; [destruct (what e); reflexivity|]. intros x [].
Qed.

Lemma app_cons_neq {X} (l rest : list X) (x : X) : (l ++ x :: rest)%list <> l.
Proof.
  intros Heq. apply (f_equal (@List.length X)) in Heq.
  rewrite length_app in Heq. cbn [List.length] in Heq. lia.
Qed.

(** C8 (amended). Take any position [p] the sweep reaches, that is, the
    loop over the positions [pre] before it has ended with the count [sent],
    the identifiers [ids] and the gateway in state [g] with call log [log].
    The position is passed over with no call to the gateway exactly when
    [|position| < 1e-12], and then the loop goes on with count, identifiers
    and gateway as they were.  For every other position (in particular one
    of exactly 1e-12) the closing order is built and sent: the gateway is
    asked for an order identifier, and when it hands one out [placeOrder] is
    called with that identifier, the position's contract and the market
    order (BUY for a negative position and SELL otherwise, quantity
    [|position|], DAY); the order is counted when [placeOrder] returns, and
    the loop goes on after a [std::exception]. *)
Theorem C8_position_skipped_iff_below_eps
  (pre post : list OpenPosition) (p : OpenPosition)
  (sent0 : Z) (ids0 : list Z) (s0 : G * list GatewayCall)
  (sent : Z) (ids : list Z) (g : G) (log : list GatewayCall) :
  close_loop (G := G * list GatewayCall) pre sent0 ids0 s0
  = (Returned (sent, ids), (g, log)) ->
  let c := BuildContract (instrument p) in
  let o := {| action := ActionFromBuy (SFltb (position p) d_zero);
              orderType := "MKT";
              totalQuantity := SFabs (position p);
              lmtPrice := lmtPrice Order_default;
              auxPrice := auxPrice Order_default;
              o_tif := "DAY" |} in
  (snd (snd (close_loop (G := G * list GatewayCall) (pre ++ [p]) sent0 ids0 s0)) = log
   <-> SFltb (SFabs (position p)) d_1e_12 = true) /\
  (SFltb (SFabs (position p)) d_1e_12 = true ->
   close_loop (G := G * list GatewayCall) (pre ++ p :: post) sent0 ids0 s0
   = close_loop post sent ids (g, log)) /\
  (SFltb (SFabs (position p)) d_1e_12 = false ->
   close_loop (G := G * list GatewayCall) (pre ++ p :: post) sent0 ids0 s0
   = match nextOrderId g with
     | (Returned id, g1) =>
         let log' := (log ++ [Call_nextOrderId; Call_placeOrder id c o])%list in
         match placeOrder id c o g1 with
         | (Returned _, g2) =>
             close_loop post (int_incr sent) (ids ++ [id])%list (g2, log')
         | (Thrown e, g2) =>
             match what e with
             | Some _ => close_loop post sent ids (g2, log')
             | None => (Thrown e, (g2, log'))
             end
         end
     | (Thrown e, g1) =>
         let log' := (log ++ [Call_nextOrderId])%list in
         match what e with
         | Some _ => close_loop post sent ids (g1, log')
         | None => (Thrown e, (g1, log'))
         end
     end).
Proof.
  intros Hpre. cbv zeta. rewrite !close_loop_app, Hpre.
  change {| action := ActionFromBuy (SFltb (position p) d_zero);
            orderType := "MKT";
            totalQuantity := SFabs (position p);
            lmtPrice := lmtPrice Order_default;
            auxPrice := auxPrice Order_default;
            o_tif := "DAY" |} with (close_Order p).
  assert (Hstep : forall rest, SFltb (SFabs (position p)) d_1e_12 = false ->
    close_loop (G := G * list GatewayCall) (p :: rest) sent ids (g, log)
    = match nextOrderId g with
      | (Returned id, g1) =>
          match placeOrder id (BuildContract (instrument p)) (close_Order p) g1 with
          | (Returned _, g2) =>
              close_loop rest (int_incr sent) (ids ++ [id])%list
                (g2, (log ++ [Call_nextOrderId;
                              Call_placeOrder id (BuildContract (instrument p))
                                (close_Order p)])%list)
          | (Thrown e, g2) =>
              match what e with
              | Some _ =>
                  close_loop rest sent ids
                    (g2, (log ++ [Call_nextOrderId;
                                  Call_placeOrder id (BuildContract (instrument p))
                                    (close_Order p)])%list)
              | None =>
                  (Thrown e,
                   (g2, (log ++ [Call_nextOrderId;
                                 Call_placeOrder id (BuildContract (instrument p))
                                   (close_Order p)])%list))
              end
          end
      | (Thrown e, g1) =>
          match what e with
          | Some _ => close_loop rest sent ids (g1, (log ++ [Call_nextOrderId])%list)
          | None => (Thrown e, (g1, (log ++ [Call_nextOrderId])%list))
          end
      end).
  { intros rest Hp. rewrite close_loop_attempt by exact Hp.
    change (PlaceMarketOrder_Impl (closing_order p) (g, log))
      with (SendOrder (G := G * list GatewayCall)
              (BuildContract (instrument p)) (close_Order p) (g, log)).
    rewrite SendOrder_recorded by exact (fabs_not_below_eps_positive _ Hp).
    destruct (nextOrderId g) as [[id | e] g1]; cbv zeta.
    - destruct (placeOrder id _ _ g1) as [[[] | e] g2]; [reflexivity|].
      destruct (what e); reflexivity.
    - destruct (what e); reflexivity. }
  split; [|split].
  - destruct (SFltb (SFabs (position p)) d_1e_12) eqn:Hp.
    + rewrite close_loop_skip by exact Hp. cbn [close_loop]. unfold ret. cbn [snd].
      split; reflexivity.
    + split; [|discriminate]. intros Heq. exfalso.
      rewrite (Hstep [] eq_refl) in Heq. cbn [close_loop] in Heq. unfold ret in Heq.
      destruct (nextOrderId g) as [[id | e] g1].
      * assert (Hlog : (log ++ [Call_nextOrderId;
                                Call_placeOrder id (BuildContract (instrument p))
                                  (close_Order p)])%list = log).
        { destruct (placeOrder id _ _ g1) as [[[] | e] g2]; [exact Heq|].
          destruct (what e); exact Heq. }
        exact (app_cons_neq _ _ _ Hlog).
      * assert (Hlog : (log ++ [Call_nextOrderId])%list = log)
          by (destruct (what e); exact Heq).
        exact (app_cons_neq _ _ _ Hlog).
  - intros Hp. apply close_loop_skip. exact Hp.
  - intros Hp. exact (Hstep post Hp).
Qed.

(** C9 (amended). An order with quantity [> 0] and, for Stop and Limit
    orders, price [> 0] is handed to [placeOrder] as soon as the gateway
    gives out an order identifier, whatever its symbol: the contract carries
    the symbol as it came, empty or not. *)
Theorem C9_valid_quantity_and_price_reach_placeOrder
  (i : OrderIntent) (g g1 : G) (log : list GatewayCall) (id : Z) :
  SFltb d_zero (intent_quantity i) = true ->
  (forall price, intent_price i = Some price -> SFltb d_zero price = true) ->
  nextOrderId g = (Returned id, g1) ->
  exists res g2 o,
    place (G := G * list GatewayCall) i (g, log)
    = (res, (g2, (log ++ [Call_nextOrderId;
                          Call_placeOrder id (BuildContract (intent_instrument i)) o])%list)) /\
    totalQuantity o = intent_quantity i /\
    c_symbol (BuildContract (intent_instrument i)) = symbol (intent_instrument i).
Proof.
  intros Hq Hprice Hid.
  assert (Hsend : forall c o, totalQuantity o = intent_quantity i ->
    exists res g2,
      SendOrder (G := G * list GatewayCall) c o (g, log)
      = (res, (g2, (log ++ [Call_nextOrderId; Call_placeOrder id c o])%list))).
  { intros c o Ho. rewrite SendOrder_recorded by (rewrite Ho; apply above_zero_not_le, Hq).
    rewrite Hid. cbv zeta.
    destruct (placeOrder id c o g1) as [[[] | e] g2]; [eauto|]. destruct (what e); eauto. }
  destruct i as [o | o | o | o];
    cbn [place intent_instrument intent_quantity intent_price] in *;
    unfold PlaceMarketOrder_Impl, PlaceShortOrder_Impl, PlaceStopOrder_Impl,
      PlaceLimitOrder_Impl;
    rewrite ?(Hprice _ eq_refl); cbn [negb]; cbv zeta;
    match goal with
    | |- context [SendOrder ?c ?o' _] =>
        destruct (Hsend c o' eq_refl) as (res & g2 & Hr); rewrite Hr;
        exists res, g2, o'; repeat split; reflexivity
    end.
Qed.

End RecordedSweep.

(** ** Instances of the closing-sweep properties on scripted gateways *)

Section SweepExamples.
Import ChineseStrategy.

Lemma Accepting_accepts_all : accepts_all (gw := Accepting).
Proof. split; intros; cbn; unfold scripted_nextOrderId, ret; eauto. Qed.

(** C6 on a gateway whose snapshot request times out. *)
Lemma C6_witness_snapshot_timeout :
  CloseAllPositions_Impl (defaults := PlainDefaults) (gw := Recording Scripted (gw := NoSnapshot))
    ((7%Z, [long_good]), [])
  = (Returned {| PositionCloseResult.ok := false;
                 PositionCloseResult.closeOrdersSent := 0;
                 PositionCloseResult.orderIds := [];
                 PositionCloseResult.message :=
                   "Failed to fetch positions: positionEnd timeout" |},
     ((7%Z, [long_good]), [Call_getOpenPositionsSnapshot])).
Proof.
  exact (C6_snapshot_failure_aborts_sweep (defaults := PlainDefaults) (gw := NoSnapshot)
           (7%Z, [long_good]) (7%Z, [long_good]) []
           (std_exception "positionEnd timeout") eq_refl).
Defined.

(** C6 as stated fails when the snapshot request throws an object that is
    not a [std::exception]: the fetch has failed, but the handler does not
    catch it, so the sweep gives no result at all (neither [ok = false] nor
    a message) and the exception reaches the caller. *)
Lemma C6_counterexample_foreign_snapshot_failure :
  getOpenPositionsSnapshot (IIbkrGateway := BrokenSnapshot) (7%Z, [long_good])
  = (Thrown foreign_exception, (7%Z, [long_good])) /\
  CloseAllPositions_Impl (defaults := PlainDefaults)
    (gw := Recording Scripted (gw := BrokenSnapshot)) ((7%Z, [long_good]), [])
  = (Thrown foreign_exception, ((7%Z, [long_good]), [Call_getOpenPositionsSnapshot])) /\
  (forall r s,
     CloseAllPositions_Impl (defaults := PlainDefaults)
       (gw := Recording Scripted (gw := BrokenSnapshot)) ((7%Z, [long_good]), [])
     <> (Returned r, s)).
Proof.
  split; [reflexivity|]. split; [reflexivity|].
  intros r s H. discriminate H.
Qed.

(** C7 on a gateway that rejects every order, over a snapshot of two
    positions. *)
Lemma C7_witness_all_rejected :
  exists out,
    CloseAllPositions_Impl (defaults := PlainDefaults) (gw := Rejecting)
      (7%Z, [long_good; short_good])
    = (Returned out, (9%Z, [long_good; short_good])) /\
    PositionCloseResult.ok out = true /\
    PositionCloseResult.closeOrdersSent out = 0%Z /\
    PositionCloseResult.orderIds out = [].
Proof.
  refine (proj2 (C7_empty_or_all_rejected_still_success
                   (defaults := PlainDefaults) (gw := Rejecting)
                   [long_good; short_good] (7%Z, [long_good; short_good])
                   (7%Z, [long_good; short_good]) eq_refl) _ _).
  eapply acr_reject; [reflexivity | reflexivity | reflexivity |].
  eapply acr_reject; [reflexivity | reflexivity | reflexivity |].
  apply acr_nil.
Defined.

(** C2 on a gateway that rejects the contract ["BAD"]: the rejected close
    comes first, the accepted one is still processed and gets identifier 8. *)
Lemma C2_witness_rejected_then_accepted :
  exists out,
    CloseAllPositions_Impl (defaults := PlainDefaults) (gw := Picky)
      (7%Z, [long_bad; short_good])
    = (Returned out, (9%Z, [long_bad; short_good])) /\
    PositionCloseResult.ok out = true /\
    PositionCloseResult.closeOrdersSent out = 1%Z /\
    PositionCloseResult.orderIds out = [8%Z].
Proof.
  exact (C2_rejection_does_not_abort_sweep (defaults := PlainDefaults) (gw := Picky)
           long_bad short_good
           (7%Z, [long_bad; short_good]) (7%Z, [long_bad; short_good])
           (8%Z, [long_bad; short_good]) (9%Z, [long_bad; short_good])
           {| ok := false; orderId := -1; message := "Failed to send order: rejected" |}
           {| ok := true; orderId := 8;
              message := "Order sent to IBKR (acceptance/fill is async via EWrapper callbacks)" |}
           eq_refl eq_refl eq_refl eq_refl eq_refl eq_refl).
Defined.

(** C3 on the accepting gateway, over a long and a short position. *)
Lemma C3_witness_long_and_short :
  exists out g' log,
    CloseAllPositions_Impl (defaults := PlainDefaults)
      (gw := Recording Scripted (gw := Accepting))
      ((7%Z, [long_good; short_good]), [])
    = (Returned out, (g', log)) /\
    PositionCloseResult.ok out = true /\
    List.length (placed log) = 2%nat /\
    Forall2 (closes (defaults := PlainDefaults)) [long_good; short_good] (placed log) /\
    PositionCloseResult.orderIds out = map (fun x => fst (fst x)) (placed log) /\
    ((2 < 2 ^ 31)%Z -> PositionCloseResult.closeOrdersSent out = 2%Z).
Proof.
  apply (C3_accepting_gateway_closes_each_position
           (defaults := PlainDefaults) (gw := Accepting)
           [long_good; short_good]
           (7%Z, [long_good; short_good]) (7%Z, [long_good; short_good])).
  - exact Accepting_accepts_all.
  - reflexivity.
  - repeat constructor.
Defined.

(** What that sweep does, computed: SELL 10 of GOOD with identifier 7, then
    BUY 1 of FINE with identifier 8. *)
Example sweep_long_and_short_run :
  let r := CloseAllPositions_Impl (defaults := PlainDefaults)
             (gw := Recording Scripted (gw := Accepting))
             ((7%Z, [long_good; short_good]), []) in
  map (fun x => (fst (fst x), c_symbol (snd (fst x)), action (snd x),
                 totalQuantity (snd x)))
      (placed (snd (snd r)))
  = [(7%Z, "GOOD", "SELL", d_ten); (8%Z, "FINE", "BUY", d_one)].
Proof. reflexivity. Qed.

(** C8 as stated fails at a position of exactly 1e-12: it is [<= 1e-12],
    so the claim has it skipped, but the sweep builds its closing order and
    places it (SELL, quantity 1e-12) and counts it as sent. *)
Lemma C8_counterexample_exactly_eps :
  SFleb (SFabs (position at_eps)) d_1e_12 = true /\
  SFltb d_1e_12 (SFabs (position at_eps)) = false /\
  CloseAllPositions_Impl (defaults := PlainDefaults)
    (gw := Recording Scripted (gw := Accepting)) ((7%Z, [at_eps]), [])
  = (Returned {| PositionCloseResult.ok := true;
                 PositionCloseResult.closeOrdersSent := 1;
                 PositionCloseResult.orderIds := [7%Z];
                 PositionCloseResult.message :=
                   "CloseAllPositions: sent 1 market close orders." |},
     ((8%Z, [at_eps]),
      [Call_getOpenPositionsSnapshot; Call_nextOrderId;
       Call_placeOrder 7 (BuildContract (defaults := PlainDefaults) (stock "DUST"))
         (mkOrder "SELL" "MKT" d_1e_12 d_zero d_zero "DAY")])).
Proof. repeat split. Qed.

(** C8 (amended) at that position, reached after a long position and
    followed by a short one: it is not below 1e-12, so identifier 8 is
    requested and its closing order (SELL, quantity 1e-12) is placed and
    counted before the loop goes on. *)
Lemma C8_witness_exactly_eps_is_sent :
  close_loop (defaults := PlainDefaults) (gw := Recording Scripted (gw := Accepting))
    [long_good; at_eps; short_good] 0%Z [] ((7%Z, []), [])
  = close_loop (defaults := PlainDefaults) (gw := Recording Scripted (gw := Accepting))
      [short_good] 2%Z [7%Z; 8%Z]
      ((9%Z, []),
       [Call_nextOrderId;
        Call_placeOrder 7 (BuildContract (defaults := PlainDefaults) (stock "GOOD"))
          (mkOrder "SELL" "MKT" d_ten d_zero d_zero "DAY");
        Call_nextOrderId;
        Call_placeOrder 8 (BuildContract (defaults := PlainDefaults) (stock "DUST"))
          (mkOrder "SELL" "MKT" d_1e_12 d_zero d_zero "DAY")]).
Proof.
  exact (proj2 (proj2 (C8_position_skipped_iff_below_eps
                         (defaults := PlainDefaults) (gw := Accepting)
                         [long_good] [short_good] at_eps 0%Z [] ((7%Z, []), [])
                         1%Z [7%Z] (8%Z, [])
                         [Call_nextOrderId;
                          Call_placeOrder 7
                            (BuildContract (defaults := PlainDefaults) (stock "GOOD"))
                            (mkOrder "SELL" "MKT" d_ten d_zero d_zero "DAY")]
                         eq_refl))
           eq_refl).
Defined.

(** C9 as stated fails for a limit order with quantity 1 and limit price
    0: the quantity is strictly positive, but the order is turned down
    before any call to the gateway. *)
Lemma C9_counterexample_limit_price_zero :
  SFltb d_zero (LimitOrder.quantity (LimitOrder.mk (stock "") d_one true d_zero "DAY"))
  = true /\
  place (defaults := PlainDefaults) (gw := Recording Scripted (gw := Accepting))
    (Limit (LimitOrder.mk (stock "") d_one true d_zero "DAY")) ((7%Z, []), [])
  = (Returned {| ok := false; orderId := -1; message := "LimitPrice must be > 0" |},
     ((7%Z, []), [])) /\
  placed (snd (snd (place (defaults := PlainDefaults)
                      (gw := Recording Scripted (gw := Accepting))
                      (Limit (LimitOrder.mk (stock "") d_one true d_zero "DAY"))
                      ((7%Z, []), [])))) = [].
Proof. repeat split. Qed.

(** C9 (amended) on a market order with an empty symbol: it reaches
    [placeOrder] with identifier 7. *)
Lemma C9_witness_empty_symbol_forwarded :
  exists res g2 o,
    place (defaults := PlainDefaults) (gw := Recording Scripted (gw := Accepting))
      (Market (MarketOrder.mk (stock "") d_ten true "DAY")) ((7%Z, []), [])
    = (res, (g2, [Call_nextOrderId;
                  Call_placeOrder 7 (BuildContract (defaults := PlainDefaults) (stock "")) o])) /\
    totalQuantity o = d_ten /\
    c_symbol (BuildContract (defaults := PlainDefaults) (stock "")) = "".
Proof.
  exact (C9_valid_quantity_and_price_reach_placeOrder
           (defaults := PlainDefaults) (gw := Accepting)
           (Market (MarketOrder.mk (stock "") d_ten true "DAY"))
           (7%Z, []) (8%Z, []) [] 7%Z eq_refl
           (fun price (E : None = Some price) =>
              match E in _ = y return match y with None => True | Some _ => _ end
              with eq_refl => I end)
           eq_refl).
Defined.

End SweepExamples.

(** ** The HTTP layer of the Alpaca adapter *)

Section AlpacaHttp.
Import AlpacaPaperApi.
Context {N : Type} {platform : Platform N}.

(** A transfer that does not end with [CURLE_OK] makes [http_get] throw
    [std::runtime_error]: a transport failure is not reported as a
    status. *)
Lemma http_get_transport_failure (url : string) (a : Api N) (n1 n2 : N) (tr : CurlTransfer) :
  curl_easy_init (net a) = (true, n1) ->
  curl_easy_perform
    (mkCurlRequest url "GET"
       [ "Content-Type: application/json";
         "APCA-API-KEY-ID: " ++ api_key (cfg_ a);
         "APCA-API-SECRET-KEY: " ++ api_secret (cfg_ a) ] None) n1 = (tr, n2) ->
  res tr <> CURLE_OK ->
  http_get url a
  = (Thrown (runtime_error ("curl failed: " ++ curl_easy_strerror (res tr))),
     mkApi (cfg_ a) n2).
Proof.
  intros Hinit Hperf Hres. unfold http_get, bind, http_req.
  rewrite Hinit. cbn [negb]. rewrite Hperf.
  destruct (Z.eqb_spec (res tr) CURLE_OK) as [E | _]; [contradiction|]. reflexivity.
Qed.

(** A transfer that ends with [CURLE_OK] is handed back with its status,
    whatever the status is. *)
Lemma http_get_status (url : string) (a : Api N) (n1 n2 : N) (tr : CurlTransfer) :
  curl_easy_init (net a) = (true, n1) ->
  curl_easy_perform
    (mkCurlRequest url "GET"
       [ "Content-Type: application/json";
         "APCA-API-KEY-ID: " ++ api_key (cfg_ a);
         "APCA-API-SECRET-KEY: " ++ api_secret (cfg_ a) ] None) n1 = (tr, n2) ->
  res tr = CURLE_OK ->
  http_get url a = (Returned (response_code tr, written tr), mkApi (cfg_ a) n2).
Proof.
  intros Hinit Hperf Hres. unfold http_get, bind, http_req, ret.
  rewrite Hinit. cbn [negb]. rewrite Hperf, Hres. reflexivity.
Qed.

End AlpacaHttp.

(** ** The order-result parser of the Alpaca adapter *)

Section OrderResultParser.
Import AlpacaPaperApi.
Import StrategyTemplate.

Lemma prefix_split (k s : string) :
  prefix k s = true -> exists post, s = k ++ post.
Proof.
  revert s. induction k as [|a k IH]; intros s Hp.
  - exists s. reflexivity.
  - destruct s as [|b s]; [discriminate|]. cbn [prefix] in Hp.
    destruct (ascii_dec a b) as [<- |]; [|discriminate].
    destruct (IH s Hp) as [post ->]. exists post. reflexivity.
Qed.

Lemma prefix_append (k post : string) : prefix k (k ++ post) = true.
Proof.
  induction k as [|a k IH]; [destruct post; reflexivity|].
  cbn [append prefix]. destruct (ascii_dec a a); [exact IH|congruence].
Qed.

Lemma index_0_unfold (k : string) (b : ascii) (s : string) :
  index 0 k (String b s) =
  if prefix k (String b s) then Some 0%nat
  else match index 0 k s with Some n => Some (S n) | None => None end.
Proof. reflexivity. Qed.

(** [find] from position 0 answers [npos] exactly when the key does not
    occur. *)
Lemma find_npos_iff (key s : string) :
  find key 0 s = None <-> ~ contains key s.
Proof.
  unfold find, contains. split.
  - intros Hnone (pre & post & ->). revert Hnone.
    induction pre as [|b pre IH].
    + cbn [append]. destruct key as [|a key].
      * destruct post; cbn; discriminate.
      * cbn [append]. rewrite index_0_unfold.
        change (String a (key ++ post)) with (String a key ++ post).
        rewrite prefix_append. discriminate.
    + cbn [append]. rewrite index_0_unfold.
      destruct (prefix key (String b (pre ++ key ++ post))); [discriminate|].
      destruct (index 0 key (pre ++ key ++ post)); [discriminate|].
      intros _. apply IH. reflexivity.
  - intros Hno. induction s as [|b s IH].
    + destruct key; [|reflexivity]. exfalso. apply Hno. exists "", "". reflexivity.
    + rewrite index_0_unfold.
      destruct (prefix key (String b s)) eqn:Hp.
      * exfalso. apply Hno. destruct (prefix_split _ _ Hp) as [post ->].
        exists "", post. reflexivity.
      * rewrite IH; [reflexivity|].
        intros (pre & post & ->). apply Hno. exists (String b pre), post. reflexivity.
Qed.

(** C10. For a status in the range 200..299 and a body in which the key
    [key_id] (the six characters: quote, i, d, quote, colon, quote) does not
    occur, the parser answers an accepted result with an empty [orderId];
    and the result is not accepted exactly when the status lies outside
    that range. *)
Theorem C10_parse_order_result_acceptance :
  (forall (status : Z) (resp : string),
     (200 <= status < 300)%Z ->
     ~ contains key_id resp ->
     parse_order_result status resp
     = {| orderId := ""; accepted := true; message := "Accepted" |}) /\
  (forall (status : Z) (resp : string),
     accepted (parse_order_result status resp) = false <->
     ~ (200 <= status < 300)%Z).
Proof.
  split.
  - intros status resp Hst Hno. unfold parse_order_result.
    replace ((200 <=? status)%Z && (status <? 300)%Z) with true
      by (symmetry; apply andb_true_iff; split; [apply Z.leb_le|apply Z.ltb_lt]; lia).
    rewrite (proj2 (find_npos_iff key_id resp) Hno). reflexivity.
  - intros status resp. unfold parse_order_result.
    destruct ((200 <=? status)%Z && (status <? 300)%Z) eqn:E; cbn [accepted].
    + apply andb_true_iff in E. destruct E as [E1 E2].
      apply Z.leb_le in E1. apply Z.ltb_lt in E2. split; [discriminate|lia].
    + apply andb_false_iff in E. split; [|reflexivity]. intros _.
      destruct E as [E | E]; [apply Z.leb_gt in E|apply Z.ltb_ge in E]; lia.
Qed.

End OrderResultParser.

(** The parser at work: an identifier is cut out of a 200 response, a 200
    response without the key gives an empty identifier, a 422 is refused. *)
Example parse_order_result_runs :
  AlpacaPaperApi.parse_order_result 200
    (AlpacaPaperApi.key_id ++ "abc-1" ++ AlpacaPaperApi.dquote ++ "}")
  = StrategyTemplate.mkOrderResult "abc-1" true "Accepted" /\
  AlpacaPaperApi.parse_order_result 204 "{}"
  = StrategyTemplate.mkOrderResult "" true "Accepted" /\
  AlpacaPaperApi.parse_order_result 422 "no"
  = StrategyTemplate.mkOrderResult "" false "Order failed: HTTP 422 no".
Proof. repeat split. Qed.

(** C10 on a 204 response with the body of an empty object. *)
Lemma C10_witness_no_id_in_body :
  AlpacaPaperApi.parse_order_result 204 "{}"
  = StrategyTemplate.mkOrderResult "" true "Accepted".
Proof.
  apply (proj1 C10_parse_order_result_acceptance 204%Z "{}").
  - lia.
  - apply find_npos_iff. reflexivity.
Defined.

(** ** The live loop *)

Section LiveLoopProperties.
Import LiveLoop.
Context {rt : Runtime} {A : Type} {api : AlpacaApi A}.

(** The test [st < 200 || st >= 300] is the negation of the 2xx range. *)
Lemma not_2xx_test (st : Z) :
  ((st <? 200) || (st >=? 300))%Z = negb (is_2xx st).
Proof.
  unfold is_2xx. rewrite negb_andb, Z.geb_leb, <- Z.ltb_antisym, <- Z.leb_antisym.
  reflexivity.
Qed.

Lemma alpaca_http_get_eq (url : string) (w : World A) :
  alpaca_http_get url w =
  let (r, a') := http_get url (alpaca w) in
  (r, mkWorld a' (system_clock w) (clock_reads w) (cout w)
        (trace w ++ [Ev_http_get url])%list).
Proof. reflexivity. Qed.

(** The sample retrieval, spelled out on the answers of the adapter. *)
Lemma GetFirst5MinCandle_US_eq (sym : string) (w : World A) :
  GetFirst5MinCandle_US sym w =
  let a := alpaca w in
  let tp := system_clock w (clock_reads w) in
  let tr0 := (trace w ++ [Ev_GetFirst5MinCandle_US sym; Ev_http_get (clock_url a)])%list in
  match http_get (clock_url a) a with
  | (Thrown e, a1) =>
      (Thrown e, mkWorld a1 (system_clock w) (clock_reads w) (cout w) tr0)
  | (Returned (st0, body0), a1) =>
      if is_2xx st0 then
        let tr1 := (tr0 ++ [Ev_http_get (calendar_url a1 tp)])%list in
        match http_get (calendar_url a1 tp) a1 with
        | (Thrown e, a2) =>
            (Thrown e, mkWorld a2 (system_clock w) (S (clock_reads w)) (cout w) tr1)
        | (Returned (st1, body1), a2) =>
            if is_2xx st1 then
              let tr2 := (tr1 ++ [Ev_http_get (bars_url a2 sym tp)])%list in
              match http_get (bars_url a2 sym tp) a2 with
              | (Thrown e, a3) =>
                  (Thrown e, mkWorld a3 (system_clock w) (S (clock_reads w)) (cout w) tr2)
              | (Returned (st2, body2), a3) =>
                  (Returned (Candle_ok_raw (is_2xx st2) body2),
                   mkWorld a3 (system_clock w) (S (clock_reads w)) (cout w) tr2)
              end
            else
              (Returned (Candle_ok_raw false ("calendar failed: " ++ body1)),
               mkWorld a2 (system_clock w) (S (clock_reads w)) (cout w) tr1)
        end
      else
        (Returned (Candle_ok_raw false ("clock failed: " ++ body0)),
         mkWorld a1 (system_clock w) (clock_reads w) (cout w) tr0)
  end.
Proof.
  cbv zeta.
  unfold GetFirst5MinCandle_US, bind, emit, alpaca_trading_base_url, ret.
  rewrite alpaca_http_get_eq. cbn [alpaca system_clock clock_reads cout trace].
  fold (clock_url (alpaca w)). rewrite <- app_assoc. cbn [app].
  destruct (http_get (clock_url (alpaca w)) (alpaca w)) as [[[st0 body0] | e] a1];
    [|reflexivity].
  rewrite not_2xx_test. destruct (is_2xx st0); cbn [negb]; [|reflexivity].
  unfold now, alpaca_data_base_url. cbn [alpaca system_clock clock_reads cout trace].
  rewrite alpaca_http_get_eq. cbn [alpaca system_clock clock_reads cout trace].
  fold (calendar_url a1 (system_clock w (clock_reads w))).
  destruct (http_get (calendar_url a1 (system_clock w (clock_reads w))) a1)
    as [[[st1 body1] | e] a2]; [|reflexivity].
  rewrite not_2xx_test. destruct (is_2xx st1); cbn [negb]; [|reflexivity].
  rewrite alpaca_http_get_eq. cbn [alpaca system_clock clock_reads cout trace].
  fold (bars_url a2 sym (system_clock w (clock_reads w))).
  destruct (http_get (bars_url a2 sym (system_clock w (clock_reads w))) a2)
    as [[[st2 body2] | e] a3]; reflexivity.
Qed.


(** A status failure of any step gives a sample that is not ok and carries
    the diagnostic payload. *)
Lemma retrieval_fails_sample (sym : string) (w : World A) (payload : string) (a' : A) :
  retrieval_fails sym (alpaca w) (system_clock w (clock_reads w)) payload a' ->
  exists w',
    GetFirst5MinCandle_US sym w = (Returned (Candle_ok_raw false payload), w') /\
    alpaca w' = a' /\ cout w' = cout w /\ system_clock w' = system_clock w.
Proof.
  intros Hf. rewrite GetFirst5MinCandle_US_eq. cbv zeta.
  destruct Hf as [st body a1 H0 E0
                 | st0 body0 a1 st body a2 H0 E0 H1 E1
                 | st0 body0 a1 st1 body1 a2 st body a3 H0 E0 H1 E1 H2 E2].
  - rewrite H0, E0. eexists. repeat split.
  - rewrite H0, E0, H1, E1. eexists. repeat split.
  - rewrite H0, E0, H1, E1, H2, E2. eexists. repeat split.
Qed.

(** A turn of the loop in which the primary market is open. *)
Lemma cycle_US (w : World A) (a1 : A) :
  IsMarketOpen (alpaca w) = (Returned true, a1) ->
  pick_market (mkWorld (alpaca w) (system_clock w) (S (clock_reads w)) (cout w) (trace w))
  = (Returned (mkMarketPick US "SPY"), after_pick w a1) /\
  cycle w =
  match GetFirst5MinCandle_US "SPY" (after_pick w a1) with
  | (Returned c, w2) =>
      (Returned tt,
       mkWorld (alpaca w2) (system_clock w2) (clock_reads w2)
         (cout w2 ++ ("[UTC " ++ to_iso8601_utc (system_clock w (clock_reads w)) ++
                      "] US open. First 5m candle (SPY): " ++ ok_or_fail (ok c) ++
                      newline ++ raw c ++ newline))
         (trace w2 ++ [Ev_sleep_for 30])%list)
  | (Thrown e, w2) => (Thrown e, w2)
  end.
Proof.
  intros Hopen.
  assert (Hpick : pick_market
            (mkWorld (alpaca w) (system_clock w) (S (clock_reads w)) (cout w) (trace w))
          = (Returned (mkMarketPick US "SPY"), after_pick w a1)).
  { unfold pick_market, alpaca_IsMarketOpen, bind, emit, on_alpaca, ret.
    cbn [alpaca system_clock clock_reads cout trace]. rewrite Hopen. reflexivity. }
  split; [exact Hpick|].
  unfold cycle. unfold bind at 1. unfold now at 1. unfold bind at 1. rewrite Hpick.
  cbn [market symbol]. unfold bind.
  destruct (GetFirst5MinCandle_US "SPY" (after_pick w a1)) as [[c | e] w2];
    reflexivity.
Qed.

(** A turn of the loop in which no tracked market is open. *)
Lemma cycle_NONE (w : World A) (a1 : A) :
  IsMarketOpen (alpaca w) = (Returned false, a1) ->
  is_cn_market_open_utc (system_clock w (S (clock_reads w))) = false ->
  pick_market (mkWorld (alpaca w) (system_clock w) (S (clock_reads w)) (cout w) (trace w))
  = (Returned (mkMarketPick NONE ""),
     mkWorld a1 (system_clock w) (S (S (clock_reads w))) (cout w)
       (trace w ++ [Ev_IsMarketOpen])%list) /\
  cycle w =
  (Returned tt,
   mkWorld a1 (system_clock w) (S (S (clock_reads w)))
     (cout w ++ ("[UTC " ++ to_iso8601_utc (system_clock w (clock_reads w)) ++
                 "] No tracked market open." ++ newline))
     (trace w ++ [Ev_IsMarketOpen; Ev_sleep_for 30])%list).
Proof.
  intros Hopen Hcn.
  assert (Hpick : pick_market
            (mkWorld (alpaca w) (system_clock w) (S (clock_reads w)) (cout w) (trace w))
          = (Returned (mkMarketPick NONE ""),
             mkWorld a1 (system_clock w) (S (S (clock_reads w))) (cout w)
               (trace w ++ [Ev_IsMarketOpen])%list)).
  { unfold pick_market, alpaca_IsMarketOpen, bind, emit, on_alpaca, now, ret.
    cbn [alpaca system_clock clock_reads cout trace]. rewrite Hopen.
    cbn [alpaca system_clock clock_reads cout trace]. rewrite Hcn. reflexivity. }
  split; [exact Hpick|].
  unfold cycle. unfold bind at 1. unfold now at 1. unfold bind at 1. rewrite Hpick.
  cbn [market symbol]. unfold bind, print, sleep_for, emit.
  cbn [alpaca system_clock clock_reads cout trace].
  rewrite <- app_assoc. reflexivity.
Qed.

Lemma count_app (f : Event -> bool) (l1 l2 : list Event) :
  count f (l1 ++ l2) = (count f l1 + count f l2)%nat.
Proof. unfold count. rewrite filter_app, length_app. reflexivity. Qed.

(** An exception thrown by the adapter during the market query or during
    the sample retrieval is not caught in the turn: it leaves [cycle], and
    with it [live_loop]. *)
Lemma cycle_throws_leaves_loop (w : World A) (e : exception) :
  fst (cycle w) = Thrown e ->
  forall n, fst (live_loop (S n) w) = Thrown e.
Proof.
  intros Hc n. cbn [live_loop]. unfold bind at 1.
  destruct (cycle w) as [[[] | e'] w']; cbn [fst] in Hc; [discriminate|exact Hc].
Qed.

Lemma cycle_IsMarketOpen_throws (w : World A) (e : exception) (a1 : A) :
  IsMarketOpen (alpaca w) = (Thrown e, a1) ->
  fst (cycle w) = Thrown e.
Proof.
  intros Hopen. unfold cycle, bind, now, pick_market, alpaca_IsMarketOpen, bind, emit,
    on_alpaca. cbn [alpaca system_clock clock_reads cout trace].
  rewrite Hopen. reflexivity.
Qed.

Lemma cycle_clock_request_throws (w : World A) (e : exception) (a1 a2 : A) :
  IsMarketOpen (alpaca w) = (Returned true, a1) ->
  http_get (clock_url a1) a1 = (Thrown e, a2) ->
  fst (cycle w) = Thrown e /\ cout (snd (cycle w)) = cout w.
Proof.
  intros Hopen Hget. destruct (cycle_US w a1 Hopen) as [_ ->].
  rewrite GetFirst5MinCandle_US_eq. cbv zeta. unfold after_pick.
  cbn [alpaca system_clock clock_reads cout trace]. rewrite Hget. split; reflexivity.
Qed.

(** C4 (amended). In a turn whose market is the primary one, when a step
    of the sample retrieval (clock, calendar or bars request) is answered
    with a status outside 200..299, the sample is not ok and carries the
    diagnostic payload; the turn writes the FAIL line with that payload,
    goes to sleep for 30 seconds, and the loop goes on with its next
    turn. *)
Theorem C4_status_failure_is_logged_and_loop_goes_on
  (w : World A) (a1 a2 : A) (payload : string) :
  IsMarketOpen (alpaca w) = (Returned true, a1) ->
  retrieval_fails "SPY" a1 (system_clock w (S (clock_reads w))) payload a2 ->
  exists c w2 w',
    GetFirst5MinCandle_US "SPY" (after_pick w a1) = (Returned c, w2) /\
    ok c = false /\ raw c = payload /\
    cycle w = (Returned tt, w') /\
    alpaca w' = a2 /\
    cout w' = cout w ++ "[UTC " ++ to_iso8601_utc (system_clock w (clock_reads w)) ++
              "] US open. First 5m candle (SPY): FAIL" ++ newline ++ payload ++ newline /\
    trace w' = (trace w2 ++ [Ev_sleep_for 30])%list /\
    (forall n, live_loop (S n) w = live_loop n w').
Proof.
  intros Hopen Hfail.
  destruct (retrieval_fails_sample "SPY" (after_pick w a1) payload a2 Hfail)
    as (w2 & Hget & Ha & Hc & _).
  destruct (cycle_US w a1 Hopen) as [_ Hcycle]. rewrite Hget in Hcycle.
  eexists. exists w2. eexists.
  split; [exact Hget|]. split; [reflexivity|]. split; [reflexivity|].
  split; [exact Hcycle|]. cbn [alpaca cout trace ok raw Candle_ok_raw ok_or_fail].
  split; [exact Ha|]. split; [rewrite Hc; reflexivity|]. split; [reflexivity|].
  intros n. cbn [live_loop]. unfold bind at 1. rewrite Hcycle. reflexivity.
Qed.


End LiveLoopProperties.

(** ** Instances of the live-loop properties on a scripted network *)

Section LiveLoopExamples.
Import LiveLoop.

(** C4 (amended) when the clock request is answered with status 500: the
    turn logs the failure and the loop goes on. *)
Lemma C4_witness_clock_status_500 :
  exists c w2 w',
    GetFirst5MinCandle_US (rt := DemoRuntime) (api := OpenAlpaca) "SPY"
      (after_pick (start_world [AlpacaPaperApi.mkCurlTransfer 0 500 "oops"])
         (AlpacaPaperApi.mkApi AlpacaPaperApi.demo_cfg
            [AlpacaPaperApi.mkCurlTransfer 0 500 "oops"]))
    = (Returned c, w2) /\
    ok c = false /\ raw c = "clock failed: oops" /\
    cycle (rt := DemoRuntime) (api := OpenAlpaca)
      (start_world [AlpacaPaperApi.mkCurlTransfer 0 500 "oops"])
    = (Returned tt, w') /\
    alpaca w' = AlpacaPaperApi.mkApi AlpacaPaperApi.demo_cfg [] /\
    cout w' = "" ++ "[UTC " ++ to_iso8601_utc (rt := DemoRuntime) 1710513000 ++
              "] US open. First 5m candle (SPY): FAIL" ++ newline ++
              "clock failed: oops" ++ newline /\
    trace w' = (trace w2 ++ [Ev_sleep_for 30])%list /\
    (forall n,
       live_loop (rt := DemoRuntime) (api := OpenAlpaca) (S n)
         (start_world [AlpacaPaperApi.mkCurlTransfer 0 500 "oops"])
       = live_loop (rt := DemoRuntime) (api := OpenAlpaca) n w').
Proof.
  apply (C4_status_failure_is_logged_and_loop_goes_on
           (rt := DemoRuntime) (api := OpenAlpaca)
           (start_world [AlpacaPaperApi.mkCurlTransfer 0 500 "oops"])
           (AlpacaPaperApi.mkApi AlpacaPaperApi.demo_cfg
              [AlpacaPaperApi.mkCurlTransfer 0 500 "oops"])
           (AlpacaPaperApi.mkApi AlpacaPaperApi.demo_cfg [])
           "clock failed: oops").
  - reflexivity.
  - apply (clock_fails (api := OpenAlpaca) "SPY" _ _ 500 "oops"); reflexivity.
Defined.

(** The line that turn writes. *)
Example C4_logged_line :
  cout (snd (cycle (rt := DemoRuntime) (api := OpenAlpaca)
               (start_world [AlpacaPaperApi.mkCurlTransfer 0 500 "oops"])))
  = "[UTC 2024-03-15T14:30:00Z] US open. First 5m candle (SPY): FAIL" ++ newline ++
    "clock failed: oops" ++ newline.
Proof. vm_compute. reflexivity. Qed.

(** C4 as stated fails when the broker cannot be reached: with no answer
    from the network, [http_req] throws [std::runtime_error] out of the
    clock request; the turn writes nothing, never reaches its sleep, and the
    exception leaves [live_loop]. *)
Lemma C4_counterexample_broker_unreachable :
  fst (cycle (rt := DemoRuntime) (api := OpenAlpaca) (start_world []))
  = Thrown (runtime_error "curl failed: Couldn't connect to server") /\
  cout (snd (cycle (rt := DemoRuntime) (api := OpenAlpaca) (start_world []))) = "" /\
  count is_sleep
    (trace (snd (cycle (rt := DemoRuntime) (api := OpenAlpaca) (start_world []))))
  = 0%nat /\
  (forall n,
     fst (live_loop (rt := DemoRuntime) (api := OpenAlpaca) (S n) (start_world []))
     = Thrown (runtime_error "curl failed: Couldn't connect to server")).
Proof.
  assert (Hc : fst (cycle (rt := DemoRuntime) (api := OpenAlpaca) (start_world []))
               = Thrown (runtime_error "curl failed: Couldn't connect to server")).
  { vm_compute. reflexivity. }
  split; [exact Hc|]. split; [vm_compute; reflexivity|]. split; [vm_compute; reflexivity|].
  exact (cycle_throws_leaves_loop (rt := DemoRuntime) (api := OpenAlpaca) _ _ Hc).
Qed.


(** The trace of the turn with the market open and every request
    answered: one retrieval, three requests, then the sleep. *)
Example turn_open_trace :
  trace (snd (cycle (rt := DemoRuntime) (api := OpenAlpaca)
                (start_world
                   [AlpacaPaperApi.mkCurlTransfer 0 200 "{}";
                    AlpacaPaperApi.mkCurlTransfer 0 200 "[]";
                    AlpacaPaperApi.mkCurlTransfer 0 200 "{bars}"])))
  = [Ev_IsMarketOpen;
     Ev_GetFirst5MinCandle_US "SPY";
     Ev_http_get "https://paper-api.alpaca.markets/v2/clock";
     Ev_http_get
       "https://paper-api.alpaca.markets/v2/calendar?start=2024-03-15&end=2024-03-15";
     Ev_http_get
       "https://data.alpaca.markets/v2/stocks/bars?symbols=SPY&timeframe=5Min&start=2024-03-15T00:00:00Z&limit=1";
     Ev_sleep_for 30].
Proof. vm_compute. reflexivity. Qed.

End LiveLoopExamples.

(* ================================================================== *)
(** * Part III. Further properties of the code                         *)
(* ================================================================== *)

(** ** The dispatch layer: what gets through *)

Section DispatchForwarding.
Import StrategyTemplate.
Context {D : Type} {adapter : Derived D}.

Lemma empty_true_iff (s : string) : empty s = true <-> s = "".
Proof. destruct s; cbn; split; congruence. Qed.

Lemma snoc_neq {X} (l : list X) (x : X) : (l ++ [x])%list <> l.
Proof.
  intros Heq. apply (f_equal (@List.length X)) in Heq.
  rewrite length_app in Heq. cbn [List.length] in Heq. lia.
Qed.

Lemma validate_basic_passes (symbol : string) (qty : double) (s : D * list ImplCall) :
  empty symbol = false -> SFleb qty d_zero = false ->
  validate_basic symbol qty s = (Returned tt, s).
Proof. intros Hs Hq. unfold validate_basic. rewrite Hs, Hq. reflexivity. Qed.

(** An intent that passes the three tests is handed to its [*_Impl]. *)
Lemma dispatch_passing (i : OrderIntent) (d : D) (log : list ImplCall) :
  passes_validation i ->
  dispatch (D := D * list ImplCall) i (d, log)
  = (fst (impl i d), (snd (impl i d), (log ++ [impl_call i])%list)).
Proof.
  intros (Hs & Hq & Hp).
  destruct i as [o | o | o | o]; cbn [dispatch impl impl_call];
    cbn [intent_symbol intent_qty intent_price] in *;
    unfold PlaceMarketOrder, PlaceLimitOrder, PlaceStopOrder, PlaceShortOrder, bind;
    rewrite (validate_basic_passes _ _ (d, log) Hs Hq);
    rewrite ?(Hp _ eq_refl);
    cbn [PlaceMarketOrder_Impl PlaceLimitOrder_Impl PlaceStopOrder_Impl
         PlaceShortOrder_Impl Recording];
    unfold recorded; cbn [fst snd];
    match goal with |- context [let (_, _) := ?m in _] => destruct m end; reflexivity.
Qed.

Lemma invalid_or_passing (i : OrderIntent) : invalid_intent i \/ passes_validation i.
Proof.
  unfold invalid_intent, passes_validation.
  destruct (empty (intent_symbol i)) eqn:Hs.
  { left; left. apply empty_true_iff, Hs. }
  destruct (SFleb (intent_qty i) d_zero) eqn:Hq.
  { left; right; left. reflexivity. }
  destruct (intent_price i) as [p |] eqn:Hp.
  - destruct (SFleb p d_zero) eqn:Hle.
    + left; right; right. eauto.
    + right. repeat split. intros p' E. injection E as <-. exact Hle.
  - right. repeat split. intros p' E. discriminate.
Qed.

Lemma invalid_throws (i : OrderIntent) (d : D) (log : list ImplCall) :
  invalid_intent i ->
  snd (dispatch (D := D * list ImplCall) i (d, log)) = (d, log).
Proof.
  intros Hbad.
  assert (Hv : forall sym q, validate_basic (D := D * list ImplCall) sym q (d, log)
                             = (Returned tt, (d, log)) \/
                             snd (validate_basic (D := D * list ImplCall) sym q (d, log))
                             = (d, log) /\
                             exists e, fst (validate_basic (D := D * list ImplCall)
                                              sym q (d, log)) = Thrown e).
  { intros sym q. unfold validate_basic, throw, ret.
    destruct (empty sym); [right; split; [reflexivity|eexists; reflexivity]|].
    destruct (SFleb q d_zero);
      [right; split; [reflexivity|eexists; reflexivity]|left; reflexivity]. }
  assert (Hn : forall sym q, (sym = "" \/ SFleb q d_zero = true) ->
                 validate_basic (D := D * list ImplCall) sym q (d, log)
                 <> (Returned tt, (d, log))).
  { intros sym q [-> | Hq]; unfold validate_basic, throw, ret; cbn [empty];
      [discriminate|]. destruct (empty sym); [discriminate|]. rewrite Hq. discriminate. }
  destruct i as [o | o | o | o]; cbn [dispatch];
    unfold PlaceMarketOrder, PlaceLimitOrder, PlaceStopOrder, PlaceShortOrder, bind;
    unfold invalid_intent in Hbad; cbn [intent_symbol intent_qty intent_price] in Hbad;
    match goal with
    | |- context [validate_basic ?sym ?q (d, log)] =>
        destruct (Hv sym q) as [Hok | [Hst [e He]]];
        [ rewrite Hok
        | destruct (validate_basic sym q (d, log)) as [[[] | e'] s'];
          cbn [fst snd] in *; [discriminate | exact Hst] ]
    end.
  - exfalso. destruct Hbad as [Hs | [Hq | (p & Hp & _)]]; [| |discriminate];
      eapply Hn; eauto.
  - destruct Hbad as [Hs | [Hq | (p & Hp & Hle)]];
      [exfalso; eapply Hn; eauto | exfalso; eapply Hn; eauto |].
    injection Hp as <-. rewrite Hle. reflexivity.
  - destruct Hbad as [Hs | [Hq | (p & Hp & Hle)]];
      [exfalso; eapply Hn; eauto | exfalso; eapply Hn; eauto |].
    injection Hp as <-. rewrite Hle. reflexivity.
  - exfalso. destruct Hbad as [Hs | [Hq | (p & Hp & _)]]; [| |discriminate];
      eapply Hn; eauto.
Qed.

(** X1. An order intent that passes validation (symbol not empty,
    [qty <= 0] false, and for Limit and Stop [price <= 0] false) is handed
    unchanged to the [*_Impl] member of its kind, exactly once, and what that
    member does comes back as it is: its result or its exception, and the
    adapter state it leaves. *)
Theorem X1_valid_intent_is_forwarded_verbatim
  (i : OrderIntent) (d : D) (log : list ImplCall) :
  passes_validation i ->
  dispatch (D := D * list ImplCall) i (d, log)
  = (fst (impl i d), (snd (impl i d), (log ++ [impl_call i])%list)).
Proof. exact (dispatch_passing i d log). Qed.

(** X2. The dispatch layer leaves the adapter alone exactly for the invalid
    intents: the log of the recording fake is unchanged if and only if the
    symbol is empty, the quantity is [<= 0] or the Limit/Stop price is
    [<= 0].  Every other intent reaches the adapter; a quantity or price that
    is NaN is among them, since NaN is not [<= 0]. *)
Theorem X2_adapter_untouched_iff_invalid
  (i : OrderIntent) (d : D) (log : list ImplCall) :
  (snd (snd (dispatch (D := D * list ImplCall) i (d, log))) = log <-> invalid_intent i) /\
  (intent_symbol i <> "" -> intent_qty i = d_nan ->
   (forall p, intent_price i = Some p -> p = d_nan) ->
   snd (snd (dispatch (D := D * list ImplCall) i (d, log))) = (log ++ [impl_call i])%list).
Proof.
  split.
  - split.
    + intros Hlog. destruct (invalid_or_passing i) as [Hbad | Hok]; [exact Hbad|].
      rewrite (dispatch_passing i d log Hok) in Hlog. cbn [snd] in Hlog.
      exfalso. exact (snoc_neq _ _ Hlog).
    + intros Hbad. rewrite (invalid_throws i d log Hbad). reflexivity.
  - intros Hs Hq Hp.
    rewrite dispatch_passing; [reflexivity|].
    split; [|split].
    + destruct (empty (intent_symbol i)) eqn:E; [|reflexivity].
      apply empty_true_iff in E. contradiction.
    + rewrite Hq. reflexivity.
    + intros p E. rewrite (Hp p E). reflexivity.
Qed.

End DispatchForwarding.

(** X1 on the order of the specification: quantity 10 of SPY against the
    echoing fake. *)
Lemma X1_witness_spy_ten :
  StrategyTemplate.dispatch (D := unit * list StrategyTemplate.ImplCall)
    (adapter := StrategyTemplate.Recording unit (adapter := StrategyTemplate.Echo))
    (StrategyTemplate.Market
       (StrategyTemplate.MarketOrder.mk "SPY" StrategyTemplate.Buy d_ten
          StrategyTemplate.Day)) (tt, [])
  = (Returned (StrategyTemplate.mkOrderResult "adapter-id" true "Accepted"),
     (tt, [StrategyTemplate.Call_PlaceMarketOrder_Impl
             (StrategyTemplate.MarketOrder.mk "SPY" StrategyTemplate.Buy d_ten
                StrategyTemplate.Day)])).
Proof.
  apply (X1_valid_intent_is_forwarded_verbatim (adapter := StrategyTemplate.Echo)
           (StrategyTemplate.Market
              (StrategyTemplate.MarketOrder.mk "SPY" StrategyTemplate.Buy d_ten
                 StrategyTemplate.Day)) tt []).
  repeat split. intros p E. discriminate E.
Defined.

(** X2 on a limit order whose quantity and price are both NaN: it reaches
    the adapter. *)
Lemma X2_witness_nan_limit_order :
  snd (snd (StrategyTemplate.dispatch (D := unit * list StrategyTemplate.ImplCall)
              (adapter := StrategyTemplate.Recording unit (adapter := StrategyTemplate.Echo))
              (StrategyTemplate.Limit
                 (StrategyTemplate.LimitOrder.mk "SPY" StrategyTemplate.Buy d_nan d_nan
                    StrategyTemplate.Day)) (tt, [])))
  = [StrategyTemplate.Call_PlaceLimitOrder_Impl
       (StrategyTemplate.LimitOrder.mk "SPY" StrategyTemplate.Buy d_nan d_nan
          StrategyTemplate.Day)].
Proof.
  apply (proj2 (X2_adapter_untouched_iff_invalid (adapter := StrategyTemplate.Echo)
                  (StrategyTemplate.Limit
                     (StrategyTemplate.LimitOrder.mk "SPY" StrategyTemplate.Buy d_nan d_nan
                        StrategyTemplate.Day)) tt [])).
  - discriminate.
  - reflexivity.
  - intros p E. injection E as <-. reflexivity.
Defined.

(** ** ChineseStrategy: the order operations *)

Section ChineseOrders.
Import ChineseStrategy.
Context {defaults : IbkrDefaults} {G : Type} {gw : IIbkrGateway G}.

(** [SendOrder] on any gateway, for a quantity that passes the guard. *)
Lemma SendOrder_plain (c : Contract) (o : Order) (g : G) :
  SFleb (totalQuantity o) d_zero = false ->
  SendOrder c o g =
  match nextOrderId g with
  | (Returned id, g1) =>
      match placeOrder id c o g1 with
      | (Returned _, g2) =>
          (Returned {| ok := true; orderId := id;
                       message := "Order sent to IBKR (acceptance/fill is async via EWrapper callbacks)" |},
           g2)
      | (Thrown e, g2) =>
          match what e with
          | Some w => (Returned {| ok := false; orderId := -1;
                                   message := "Failed to send order: " ++ w |}, g2)
          | None => (Thrown e, g2)
          end
      end
  | (Thrown e, g1) =>
      match what e with
      | Some w => (Returned {| ok := false; orderId := -1;
                               message := "Failed to send order: " ++ w |}, g1)
      | None => (Thrown e, g1)
      end
  end.
Proof.
  intros Hq. unfold SendOrder. rewrite Hq. unfold try_catch, bind, ret.
  destruct (nextOrderId g) as [[id | e] g1]; [|destruct (what e); reflexivity].
  destruct (placeOrder id c o g1) as [[[] | e] g2]; [reflexivity|].
  destruct (what e); reflexivity.
Qed.

(** Each operation either answers by itself or calls [SendOrder] with the
    contract of the instrument and the order it filled in. *)
Lemma place_cases {X : Type} {gx : IIbkrGateway X} (i : OrderIntent) (x : X) :
  (exists p, intent_price i = Some p /\ SFltb d_zero p = false /\
     exists msg, place i x = (Returned {| ok := false; orderId := -1; message := msg |}, x)) \/
  ((forall p, intent_price i = Some p -> SFltb d_zero p = true) /\
   place i x = SendOrder (BuildContract (intent_instrument i)) (order_of i) x).
Proof.
  destruct i as [o | o | o | o]; cbn [place intent_price intent_instrument order_of].
  - right. split; [intros p E; discriminate|reflexivity].
  - right. split; [intros p E; discriminate|reflexivity].
  - unfold PlaceStopOrder_Impl. destruct (SFltb d_zero (StopOrder.stopPrice o)) eqn:E; cbn [negb].
    + right. split; [intros p Hp; injection Hp as <-; exact E|reflexivity].
    + left. eexists. split; [reflexivity|]. split; [exact E|]. eexists. reflexivity.
  - unfold PlaceLimitOrder_Impl. destruct (SFltb d_zero (LimitOrder.limitPrice o)) eqn:E; cbn [negb].
    + right. split; [intros p Hp; injection Hp as <-; exact E|reflexivity].
    + left. eexists. split; [reflexivity|]. split; [exact E|]. eexists. reflexivity.
Qed.

Lemma order_of_quantity (i : OrderIntent) : totalQuantity (order_of i) = intent_quantity i.
Proof. destruct i; reflexivity. Qed.

Lemma SendOrder_guard {X : Type} {gx : IIbkrGateway X} (c : Contract) (o : Order) (x : X) :
  SFleb (totalQuantity o) d_zero = true ->
  SendOrder c o x
  = (Returned {| ok := false; orderId := -1; message := "Quantity must be > 0" |}, x).
Proof. intros Hq. unfold SendOrder. rewrite Hq. reflexivity. Qed.

(** X3. An order with [quantity <= 0], or a Stop or Limit order whose
    price is not [> 0] (zero, negative or NaN), is answered by
    ChineseStrategy itself with [ok = false] and [orderId = -1]; the gateway
    is not called at all, not even for an order identifier. *)
Theorem X3_locally_rejected_order_never_reaches_gateway
  (i : OrderIntent) (g : G) (log : list GatewayCall) :
  locally_rejected i ->
  exists msg,
    place (G := G * list GatewayCall) i (g, log)
    = (Returned {| ok := false; orderId := -1; message := msg |}, (g, log)).
Proof.
  intros Hrej.
  destruct (place_cases (gx := Recording G) i (g, log))
    as [(p & _ & _ & msg & Hpl) | [Hprice Hpl]]; [eauto|].
  destruct Hrej as [Hq | (p & Hp & Hbad)].
  - rewrite Hpl. rewrite SendOrder_guard by (rewrite order_of_quantity; exact Hq). eauto.
  - rewrite (Hprice p Hp) in Hbad. discriminate.
Qed.

(** X4. The gateway is asked for an order identifier exactly when the order
    is not turned down locally: the call log is unchanged if and only if
    [quantity <= 0] or the Stop/Limit price is not [> 0].  A NaN quantity is
    not [<= 0], so an order with a NaN quantity (and an acceptable price)
    goes to the gateway. *)
Theorem X4_gateway_untouched_iff_locally_rejected
  (i : OrderIntent) (g : G) (log : list GatewayCall) :
  (snd (snd (place (G := G * list GatewayCall) i (g, log))) = log <-> locally_rejected i) /\
  (intent_quantity i = d_nan ->
   (forall p, intent_price i = Some p -> SFltb d_zero p = true) ->
   exists rest,
     snd (snd (place (G := G * list GatewayCall) i (g, log)))
     = (log ++ Call_nextOrderId :: rest)%list).
Proof.
  assert (Hgo : SFleb (intent_quantity i) d_zero = false ->
                (forall p, intent_price i = Some p -> SFltb d_zero p = true) ->
                exists rest,
                  snd (snd (place (G := G * list GatewayCall) i (g, log)))
                  = (log ++ Call_nextOrderId :: rest)%list).
  { intros Hq Hprice.
    destruct (place_cases (gx := Recording G) i (g, log))
      as [(p & Hp & Hbad & _) | [_ ->]].
    - rewrite (Hprice p Hp) in Hbad. discriminate.
    - destruct (SendOrder_recorded_calls (BuildContract (intent_instrument i)) (order_of i)
                  g log) as (rest & Hlog & _);
        [rewrite order_of_quantity; exact Hq|]. eauto. }
  split.
  - split.
    + intros Hlog.
      destruct (SFleb (intent_quantity i) d_zero) eqn:Hq; [left; exact Hq|].
      destruct (place_cases (gx := Recording G) i (g, log))
        as [(p & Hp & Hbad & _) | [Hprice _]]; [right; eauto|].
      destruct (Hgo eq_refl Hprice) as (rest & Hrest). rewrite Hrest in Hlog.
      exfalso. exact (app_cons_neq _ _ _ Hlog).
    + intros Hrej.
      destruct (place_cases (gx := Recording G) i (g, log))
        as [(p & _ & _ & msg & ->) | [Hprice ->]]; [reflexivity|].
      destruct Hrej as [Hq | (p & Hp & Hbad)].
      * rewrite SendOrder_guard by (rewrite order_of_quantity; exact Hq). reflexivity.
      * rewrite (Hprice p Hp) in Hbad. discriminate.
  - intros Hnan Hprice. apply Hgo; [rewrite Hnan; reflexivity|exact Hprice].
Qed.

(** X5. Whatever the gateway does, a result with [ok = true] means that
    [placeOrder] was called once and returned, with the identifier the
    result carries, the contract built from the instrument and the order of
    the operation's kind (MKT, SELL-MKT for a short, STP with the stop price
    in [auxPrice], LMT with the limit price in [lmtPrice]); and a result with
    [ok = false] carries [orderId = -1]. *)
Theorem X5_result_reflects_what_was_placed
  (i : OrderIntent) (g g' : G) (log log' : list GatewayCall) (res : OrderResult) :
  place (G := G * list GatewayCall) i (g, log) = (Returned res, (g', log')) ->
  (ok res = true ->
   log' = (log ++ [Call_nextOrderId;
                   Call_placeOrder (orderId res) (BuildContract (intent_instrument i))
                     (order_of i)])%list) /\
  (ok res = false -> orderId res = (-1)%Z).
Proof.
  intros Hpl.
  destruct (place_cases (gx := Recording G) i (g, log))
    as [(p & _ & _ & msg & Hloc) | [_ Hsend]].
  { rewrite Hloc in Hpl. injection Hpl as <- <- <-. split; [discriminate|reflexivity]. }
  rewrite Hsend in Hpl.
  destruct (SFleb (totalQuantity (order_of i)) d_zero) eqn:Hq.
  { rewrite SendOrder_guard in Hpl by exact Hq. injection Hpl as <- <- <-.
    split; [discriminate|reflexivity]. }
  rewrite SendOrder_recorded in Hpl by exact Hq.
  destruct (nextOrderId g) as [[id | e] g1]; cbv zeta in Hpl.
  - destruct (placeOrder id _ _ g1) as [[[] | e] g2].
    + injection Hpl as <- <- <-. split; [reflexivity|discriminate].
    + destruct (what e); [|discriminate]. injection Hpl as <- <- <-.
      split; [discriminate|reflexivity].
  - destruct (what e); [|discriminate]. injection Hpl as <- <- <-.
    split; [discriminate|reflexivity].
Qed.

(** X6. When the gateway throws nothing but exceptions derived from
    [std::exception], no order operation of ChineseStrategy throws: every
    call returns an [OrderResult], a failure of the gateway being reported as
    [ok = false]. *)
Theorem X6_order_operations_do_not_throw (i : OrderIntent) (g : G) :
  throws_std_only ->
  exists res g', place i g = (Returned res, g').
Proof.
  intros [Hid Hpl].
  destruct (place_cases i g) as [(p & _ & _ & msg & ->) | [_ ->]]; [eauto|].
  destruct (SFleb (totalQuantity (order_of i)) d_zero) eqn:Hq.
  { rewrite SendOrder_guard by exact Hq. eauto. }
  rewrite SendOrder_plain by exact Hq.
  destruct (nextOrderId g) as [[id | e] g1] eqn:E1.
  - destruct (placeOrder id _ _ g1) as [[[] | e] g2] eqn:E2; [eauto|].
    destruct (what e) eqn:Ew; [eauto|]. exfalso. exact (Hpl _ _ _ _ _ _ E2 Ew).
  - destruct (what e) eqn:Ew; [eauto|]. exfalso. exact (Hid _ _ _ E1 Ew).
Qed.

(** X7. [BuildContract] followed by reading the contract back gives the
    instrument again exactly when the instrument is a future or carries no
    future-specific member: for any other security type the contract month,
    trading class and multiplier are dropped.  (The members left unassigned
    are taken to be empty in a default-constructed contract.) *)
Theorem X7_BuildContract_round_trip (i : Instrument) :
  c_lastTradeDateOrContractMonth Contract_default = "" ->
  c_tradingClass Contract_default = "" ->
  c_multiplier Contract_default = "" ->
  (instrument_of (BuildContract i) = i <->
   secType i = "FUT" \/
   (lastTradeDateOrContractMonth i = "" /\ tradingClass i = "" /\ multiplier i = "")).
Proof.
  intros Hd1 Hd2 Hd3. destruct i as [sym st ex cur ltd tc mu].
  unfold instrument_of, BuildContract.
  cbn [symbol secType exchange currency lastTradeDateOrContractMonth tradingClass
       multiplier c_symbol c_secType c_exchange c_currency
       c_lastTradeDateOrContractMonth c_tradingClass c_multiplier].
  rewrite Hd1, Hd2, Hd3.
  destruct (String.eqb_spec st "FUT") as [-> | Hne]; cbn [andb].
  - split; [intros _; left; reflexivity|]. intros _.
    destruct tc, mu; reflexivity.
  - split.
    + intros Heq. injection Heq as <- <- <-. right. repeat split.
    + intros [Hfut | (-> & -> & ->)]; [contradiction|reflexivity].
Qed.

End ChineseOrders.

(** ** ChineseStrategy: invariants of the closing sweep *)

Section SweepInvariants.
Import ChineseStrategy.
Context {defaults : IbkrDefaults} {G : Type} {gw : IIbkrGateway G}.

(** What a run of the loop on the recording gateway adds to the log and to
    the accumulators, whatever the gateway answers. *)
Lemma close_loop_bounds (ps : list OpenPosition) :
  forall sent ids g log r s',
  close_loop (G := G * list GatewayCall) ps sent ids (g, log) = (r, s') ->
  exists calls,
    snd s' = (log ++ calls)%list /\
    (List.length (placed calls) <= List.length ps)%nat /\
    forall sent' ids', r = Returned (sent', ids') ->
    exists new,
      ids' = (ids ++ new)%list /\
      sent' = Nat.iter (List.length new) int_incr sent /\
      (List.length new <= List.length (placed calls))%nat /\
      incl new (placed_ids calls).
Proof.
  induction ps as [|p ps IH]; intros sent ids g log r s' Hrun.
  - cbn [close_loop] in Hrun. unfold ret in Hrun. injection Hrun as <- <-.
    exists []. cbn [snd placed List.length]. rewrite app_nil_r.
    split; [reflexivity|]. split; [lia|].
    intros sent' ids' E. injection E as <- <-. exists [].
    rewrite app_nil_r. cbn. repeat split; [lia|apply incl_refl].
  - destruct (SFltb (SFabs (position p)) d_1e_12) eqn:Hp.
    + rewrite close_loop_skip in Hrun by exact Hp.
      destruct (IH _ _ _ _ _ _ Hrun) as (calls & Hlog & Hlen & Hres).
      exists calls. split; [exact Hlog|]. split; [cbn [List.length]; lia|exact Hres].
    + rewrite close_loop_attempt in Hrun by exact Hp.
      change (PlaceMarketOrder_Impl (closing_order p) (g, log))
        with (SendOrder (G := G * list GatewayCall)
                (BuildContract (instrument p)) (close_Order p) (g, log)) in Hrun.
      rewrite SendOrder_recorded in Hrun by (apply fabs_not_below_eps_positive; exact Hp).
      destruct (nextOrderId g) as [[id | e] g1]; cbv zeta in Hrun.
      * destruct (placeOrder id _ _ g1) as [[[] | e] g2].
        -- cbn [ok orderId] in Hrun.
           destruct (IH _ _ _ _ _ _ Hrun) as (calls & Hlog & Hlen & Hres).
           exists (Call_nextOrderId
                   :: Call_placeOrder id (BuildContract (instrument p)) (close_Order p)
                   :: calls).
           split; [rewrite Hlog, <- app_assoc; reflexivity|].
           split; [cbn [placed List.length]; lia|].
           intros sent' ids' E. destruct (Hres _ _ E) as (new & -> & -> & Hn & Hin).
           exists (id :: new). rewrite <- app_assoc. cbn [app List.length].
           rewrite int_incr_iter_shift.
           split; [reflexivity|]. split; [reflexivity|].
           unfold placed_ids in *. cbn [placed map List.length fst]. split; [lia|].
           intros z [<- | Hz]; [left; reflexivity|right; apply Hin, Hz].
        -- destruct (what e).
           ++ cbn [ok] in Hrun.
              destruct (IH _ _ _ _ _ _ Hrun) as (calls & Hlog & Hlen & Hres).
              exists (Call_nextOrderId
                      :: Call_placeOrder id (BuildContract (instrument p)) (close_Order p)
                      :: calls).
              split; [rewrite Hlog, <- app_assoc; reflexivity|].
              split; [cbn [placed List.length]; lia|].
              intros sent' ids' E. destruct (Hres _ _ E) as (new & -> & -> & Hn & Hin).
              exists new. split; [reflexivity|]. split; [reflexivity|].
              unfold placed_ids in *. cbn [placed map List.length]. split; [lia|].
              apply incl_tl. exact Hin.
           ++ injection Hrun as <- <-.
              exists [Call_nextOrderId;
                      Call_placeOrder id (BuildContract (instrument p)) (close_Order p)].
              split; [reflexivity|]. split; [cbn [placed List.length]; lia|].
              intros sent' ids' E. discriminate.
      * destruct (what e).
        -- cbn [ok] in Hrun.
           destruct (IH _ _ _ _ _ _ Hrun) as (calls & Hlog & Hlen & Hres).
           exists (Call_nextOrderId :: calls).
           split; [rewrite Hlog, <- app_assoc; reflexivity|].
           split; [cbn [placed List.length]; lia|].
           intros sent' ids' E. destruct (Hres _ _ E) as (new & -> & -> & Hn & Hin).
           exists new. repeat split; assumption.
        -- injection Hrun as <- <-. exists [Call_nextOrderId].
           split; [reflexivity|]. split; [cbn [placed List.length]; lia|].
           intros sent' ids' E. discriminate.
Qed.

(** X8. Whatever the gateway answers, a sweep that returns after a
    successful snapshot reports [ok = true]; it has called [placeOrder] at
    most once per position of the snapshot; [orderIds] holds no more
    identifiers than orders were placed, each of them the identifier of a
    placed order; and [closeOrdersSent] is the length of [orderIds] (as long
    as the snapshot has fewer than 2^31 positions). *)
Theorem X8_sweep_counts_are_consistent
  (ps : list OpenPosition) (g0 g1 g' : G) (log : list GatewayCall)
  (out : PositionCloseResult.t) :
  getOpenPositionsSnapshot g0 = (Returned ps, g1) ->
  CloseAllPositions_Impl (G := G * list GatewayCall) (g0, []) = (Returned out, (g', log)) ->
  PositionCloseResult.ok out = true /\
  (List.length (PositionCloseResult.orderIds out) <= List.length (placed log)
   <= List.length ps)%nat /\
  incl (PositionCloseResult.orderIds out) (placed_ids log) /\
  ((Z.of_nat (List.length ps) < 2 ^ 31)%Z ->
   PositionCloseResult.closeOrdersSent out
   = Z.of_nat (List.length (PositionCloseResult.orderIds out))).
Proof.
  intros Hs Hrun.
  assert (Hs' : getOpenPositionsSnapshot (G := G * list GatewayCall) (g0, [])
                = (Returned ps, (g1, [Call_getOpenPositionsSnapshot]))).
  { cbn [getOpenPositionsSnapshot Recording]. unfold recorded. cbn [fst snd].
    rewrite Hs. reflexivity. }
  rewrite (CloseAllPositions_after_snapshot _ _ _ Hs') in Hrun.
  destruct (close_loop ps 0 [] (g1, [Call_getOpenPositionsSnapshot]))
    as [[[sent ids] | e] s'] eqn:Hloop; [|discriminate].
  injection Hrun as <- ->.
  destruct (close_loop_bounds ps _ _ _ _ _ _ Hloop) as (calls & Hlog & Hlen & Hres).
  cbn [snd] in Hlog. subst log.
  destruct (Hres _ _ eq_refl) as (new & Hids & Hsent & Hn & Hin).
  cbn [app] in Hids. subst ids.
  cbn [PositionCloseResult.ok PositionCloseResult.orderIds
       PositionCloseResult.closeOrdersSent placed placed_ids app].
  split; [reflexivity|]. split; [lia|]. split; [exact Hin|].
  intros Hsmall. rewrite Hsent. apply int_incr_iter. lia.
Qed.

(** X9. Positions with [|position| < 1e-12] (zero positions among them)
    make no difference to the sweep: the loop over a snapshot does what the
    loop over the snapshot without them does; and over a snapshot made of
    such positions only it calls nothing and changes nothing. *)
Theorem X9_dust_positions_are_ignored
  (ps : list OpenPosition) (sent : Z) (ids : list Z) (g : G) :
  close_loop ps sent ids g
  = close_loop (filter (fun p => negb (is_dust p)) ps) sent ids g /\
  (forallb is_dust ps = true -> close_loop ps sent ids g = (Returned (sent, ids), g)).
Proof.
  assert (Hfilter : forall ps sent ids g,
            close_loop ps sent ids g
            = close_loop (filter (fun p => negb (is_dust p)) ps) sent ids g).
  { clear. induction ps as [|p ps IH]; intros sent ids g; [reflexivity|].
    cbn [filter]. unfold is_dust at 1.
    destruct (SFltb (SFabs (position p)) d_1e_12) eqn:Hp; cbn [negb].
    - rewrite close_loop_skip by exact Hp. apply IH.
    - rewrite !close_loop_attempt by exact Hp.
      destruct (PlaceMarketOrder_Impl (closing_order p) g) as [[res | e] g1];
        [|reflexivity].
      destruct (ok res); apply IH. }
  split; [apply Hfilter|].
  intros Hall. rewrite Hfilter.
  replace (filter (fun p => negb (is_dust p)) ps) with (@nil OpenPosition);
    [reflexivity|].
  symmetry. clear -Hall. induction ps as [|p ps IH]; [reflexivity|].
  cbn [forallb] in Hall. apply andb_true_iff in Hall. destruct Hall as [Hp Hall].
  cbn [filter]. rewrite Hp. cbn [negb]. apply IH, Hall.
Qed.

(** A prefix of the snapshot whose closes are all skipped or rejected
    leaves the loop where it started, in the gateway state it ends in. *)
Lemma close_loop_rejected_prefix (pre rest : list OpenPosition) (g g' : G) :
  all_closes_rejected pre g g' ->
  forall sent ids,
  close_loop (pre ++ rest) sent ids g = close_loop rest sent ids g'.
Proof.
  induction 1 as [g | p ps g g' Hp _ IH | p ps g r g1 g' Hp Hr Hok _ IH];
    intros sent ids; cbn [app].
  - reflexivity.
  - rewrite close_loop_skip by assumption. apply IH.
  - rewrite close_loop_attempt by assumption. rewrite Hr, Hok. apply IH.
Qed.

(** X10. The best-effort policy of the sweep covers exceptions derived
    from [std::exception] only.  When [placeOrder] throws anything else for
    a position (after closes that were skipped or rejected), the exception
    leaves [CloseAllPositions_Impl]: no [PositionCloseResult] is produced and
    the positions that follow are not attempted. *)
Theorem X10_foreign_exception_aborts_sweep
  (pre rest : list OpenPosition) (p : OpenPosition) (g0 g1 g2 g3 g4 : G)
  (id : Z) (e : exception) :
  getOpenPositionsSnapshot g0 = (Returned (pre ++ p :: rest)%list, g1) ->
  all_closes_rejected pre g1 g2 ->
  is_dust p = false ->
  nextOrderId g2 = (Returned id, g3) ->
  placeOrder id (BuildContract (instrument p)) (close_Order p) g3 = (Thrown e, g4) ->
  what e = None ->
  CloseAllPositions_Impl g0 = (Thrown e, g4).
Proof.
  intros Hs Hpre Hp Hid Hpl Hw.
  rewrite (CloseAllPositions_after_snapshot _ _ _ Hs).
  rewrite (close_loop_rejected_prefix pre (p :: rest) g1 g2 Hpre).
  rewrite close_loop_attempt by exact Hp.
  change (PlaceMarketOrder_Impl (closing_order p) g2)
    with (SendOrder (BuildContract (instrument p)) (close_Order p) g2).
  rewrite SendOrder_plain by (apply fabs_not_below_eps_positive; exact Hp).
  rewrite Hid, Hpl, Hw. reflexivity.
Qed.

End SweepInvariants.

(** ** Instances of the ChineseStrategy properties on scripted gateways *)

Section ChineseExamples.
Import ChineseStrategy.

Lemma Rejecting_throws_std_only : throws_std_only (gw := Rejecting).
Proof.
  split.
  - intros g e g' E. discriminate E.
  - intros id c o g e g' E. injection E as <- _. discriminate.
Qed.

(** X3 on a limit order for quantity 1 whose price is NaN. *)
Lemma X3_witness_nan_limit_price :
  exists msg,
    place (defaults := PlainDefaults) (gw := Recording Scripted (gw := Accepting))
      (Limit (LimitOrder.mk (stock "GOOD") d_one true d_nan "DAY")) ((7%Z, []), [])
    = (Returned {| ok := false; orderId := -1; message := msg |}, ((7%Z, []), [])).
Proof.
  apply (X3_locally_rejected_order_never_reaches_gateway
           (defaults := PlainDefaults) (gw := Accepting)
           (Limit (LimitOrder.mk (stock "GOOD") d_one true d_nan "DAY")) (7%Z, []) []).
  right. exists d_nan. split; reflexivity.
Defined.

(** X4 on a market order whose quantity is NaN: the gateway is asked for
    an identifier. *)
Lemma X4_witness_nan_quantity :
  exists rest,
    snd (snd (place (defaults := PlainDefaults)
                (gw := Recording Scripted (gw := Accepting))
                (Market (MarketOrder.mk (stock "GOOD") d_nan true "DAY"))
                ((7%Z, []), [])))
    = ([] ++ Call_nextOrderId :: rest)%list.
Proof.
  apply (proj2 (X4_gateway_untouched_iff_locally_rejected
                  (defaults := PlainDefaults) (gw := Accepting)
                  (Market (MarketOrder.mk (stock "GOOD") d_nan true "DAY"))
                  (7%Z, []) [])).
  - reflexivity.
  - intros p E. discriminate E.
Defined.

(** X5 on an accepted stop order: the order placed is STP with the stop
    price in [auxPrice]. *)
Lemma X5_witness_stop_order :
  place (defaults := PlainDefaults) (gw := Recording Scripted (gw := Accepting))
    stop_sell_ten ((7%Z, []), [])
  = (Returned sent_with_id_7,
     ((8%Z, []),
      [Call_nextOrderId;
       Call_placeOrder 7 (BuildContract (defaults := PlainDefaults) (stock "GOOD"))
         (mkOrder "SELL" "STP" d_ten d_zero d_one "GTC")])) /\
  (ok sent_with_id_7 = true ->
   [Call_nextOrderId;
    Call_placeOrder 7 (BuildContract (defaults := PlainDefaults) (stock "GOOD"))
      (mkOrder "SELL" "STP" d_ten d_zero d_one "GTC")]
   = ([] ++ [Call_nextOrderId;
             Call_placeOrder (orderId sent_with_id_7)
               (BuildContract (defaults := PlainDefaults)
                  (intent_instrument stop_sell_ten))
               (order_of (defaults := PlainDefaults) stop_sell_ten)])%list) /\
  (ok sent_with_id_7 = false -> orderId sent_with_id_7 = (-1)%Z).
Proof.
  split; [reflexivity|].
  apply (X5_result_reflects_what_was_placed
           (defaults := PlainDefaults) (gw := Accepting)
           stop_sell_ten (7%Z, []) (8%Z, []) []
           [Call_nextOrderId;
            Call_placeOrder 7 (BuildContract (defaults := PlainDefaults) (stock "GOOD"))
              (mkOrder "SELL" "STP" d_ten d_zero d_one "GTC")]
           sent_with_id_7).
  reflexivity.
Defined.

(** X6 on the gateway that rejects every order by a [std::exception]. *)
Lemma X6_witness_rejecting_gateway :
  exists res g',
    place (defaults := PlainDefaults) (gw := Rejecting)
      (Short (ShortOrder.mk (stock "GOOD") d_ten "DAY")) (7%Z, [])
    = (Returned res, g').
Proof.
  apply (X6_order_operations_do_not_throw (defaults := PlainDefaults) (gw := Rejecting)
           (Short (ShortOrder.mk (stock "GOOD") d_ten "DAY")) (7%Z, [])).
  exact Rejecting_throws_std_only.
Defined.

(** X7 on a future: every member comes back. *)
Lemma X7_witness_future_round_trip :
  instrument_of (BuildContract (defaults := PlainDefaults) (future "IF" "202603"))
  = future "IF" "202603".
Proof.
  apply (proj2 (X7_BuildContract_round_trip (defaults := PlainDefaults)
                  (future "IF" "202603") eq_refl eq_refl eq_refl)).
  left. reflexivity.
Defined.

(** A stock that carries a contract month does not come back: the month is
    dropped. *)
Example BuildContract_drops_month_of_stock :
  lastTradeDateOrContractMonth
    (instrument_of (BuildContract (defaults := PlainDefaults)
                      (mkInstrument "GOOD" "STK" "SEHK" "HKD" "202603" "" "")))
  = "".
Proof. reflexivity. Qed.

(** X8 on the gateway that rejects the contract BAD, over a snapshot of a
    rejected, an accepted and a zero position: two orders placed, one
    identifier kept. *)
Lemma X8_witness_mixed_snapshot :
  CloseAllPositions_Impl (defaults := PlainDefaults)
    (gw := Recording Scripted (gw := Picky)) ((7%Z, mixed_snapshot), [])
  = (Returned mixed_out, ((9%Z, mixed_snapshot), mixed_log)) /\
  PositionCloseResult.ok mixed_out = true /\
  (List.length (PositionCloseResult.orderIds mixed_out) <= List.length (placed mixed_log)
   <= List.length mixed_snapshot)%nat /\
  incl (PositionCloseResult.orderIds mixed_out) (placed_ids mixed_log) /\
  ((Z.of_nat (List.length mixed_snapshot) < 2 ^ 31)%Z ->
   PositionCloseResult.closeOrdersSent mixed_out
   = Z.of_nat (List.length (PositionCloseResult.orderIds mixed_out))).
Proof.
  split; [reflexivity|].
  apply (X8_sweep_counts_are_consistent (defaults := PlainDefaults) (gw := Picky)
           mixed_snapshot (7%Z, mixed_snapshot) (7%Z, mixed_snapshot)
           (9%Z, mixed_snapshot) mixed_log mixed_out).
  - reflexivity.
  - reflexivity.
Defined.

(** X9 on a snapshot of two zero positions: nothing is called. *)
Lemma X9_witness_zero_positions :
  close_loop (defaults := PlainDefaults) (gw := Recording Scripted (gw := Accepting))
    [zero_position; zero_position] 0%Z [] ((7%Z, []), [])
  = (Returned (0%Z, []), ((7%Z, []), [])).
Proof.
  apply (proj2 (X9_dust_positions_are_ignored (defaults := PlainDefaults)
                  (gw := Recording Scripted (gw := Accepting))
                  [zero_position; zero_position] 0%Z [] ((7%Z, []), []))).
  reflexivity.
Defined.

(** X10 on the gateway whose [placeOrder] throws a foreign object: after a
    skipped zero position, the close of the next position ends the sweep. *)
Lemma X10_witness_crashing_gateway :
  CloseAllPositions_Impl (defaults := PlainDefaults) (gw := Crashing)
    (7%Z, [zero_position; long_good; short_good])
  = (Thrown foreign_exception, (8%Z, [zero_position; long_good; short_good])).
Proof.
  apply (X10_foreign_exception_aborts_sweep (defaults := PlainDefaults) (gw := Crashing)
           [zero_position] [short_good] long_good
           (7%Z, [zero_position; long_good; short_good])
           (7%Z, [zero_position; long_good; short_good])
           (7%Z, [zero_position; long_good; short_good])
           (8%Z, [zero_position; long_good; short_good])
           (8%Z, [zero_position; long_good; short_good])
           7%Z foreign_exception).
  - reflexivity.
  - apply acr_skip; [reflexivity|apply acr_nil].
  - reflexivity.
  - reflexivity.
  - reflexivity.
  - reflexivity.
Defined.

End ChineseExamples.

(** ** The Alpaca adapter: requests, failures and parsing *)

Section AlpacaOperations.
Import AlpacaPaperApi.
Import StrategyTemplate.
Context {N : Type} {platform : Platform N}.

(** [http_req] spelled out on what libcurl answers. *)
Lemma http_req_eq (method path : string) (body_ : option string) (a : Api N) :
  http_req method (base_url (cfg_ a) ++ path) body_ a =
  let (curl, n1) := curl_easy_init (net a) in
  if curl then
    let (tr, n2) := curl_easy_perform (request a method path body_) n1 in
    if Z.eqb (res tr) CURLE_OK
    then (Returned (mkHttpResp (response_code tr) (written tr)), mkApi (cfg_ a) n2)
    else (Thrown (runtime_error ("curl failed: " ++ curl_easy_strerror (res tr))),
          mkApi (cfg_ a) n2)
  else (Thrown (runtime_error "curl_easy_init failed"), mkApi (cfg_ a) n1).
Proof.
  unfold http_req, request.
  destruct (curl_easy_init (net a)) as [[|] n1]; cbn [negb]; [|reflexivity].
  destruct (curl_easy_perform _ n1) as [tr n2].
  destruct (Z.eqb (res tr) CURLE_OK); reflexivity.
Qed.

(** Every order operation is one POST of its JSON text to [/v2/orders],
    whose answer goes through [parse_order_result]. *)
Lemma place_eq (i : OrderIntent) (a : Api N) :
  place i a =
  match http_req "POST" (base_url (cfg_ a) ++ "/v2/orders") (Some (order_json i)) a with
  | (Returned r, a') => (Returned (parse_order_result (status r) (body r)), a')
  | (Thrown e, a') => (Thrown e, a')
  end.
Proof.
  destruct i as [o | o | o | o]; cbn [place order_json];
    unfold AlpacaPaperApi.PlaceMarketOrder_Impl, AlpacaPaperApi.PlaceLimitOrder_Impl,
      AlpacaPaperApi.PlaceStopOrder_Impl, AlpacaPaperApi.PlaceShortOrder_Impl,
      http_post, bind, ret;
    destruct (http_req "POST" _ _ a) as [[r | e] a']; reflexivity.
Qed.

(** X11. Each Alpaca order operation performs one transfer: a POST to
    [base_url/v2/orders] with the JSON text of the order and the credential
    headers.  When the transfer completes, the operation returns, whatever
    the status: a status outside 200..299 is reported as [accepted = false]
    with the status and the body in the message, never as an exception.
    When the transfer fails, the operation throws [std::runtime_error]. *)
Theorem X11_alpaca_order_rejection_is_returned_transport_failure_thrown
  (i : OrderIntent) (a : Api N) (n1 n2 : N) (tr : CurlTransfer) :
  curl_easy_init (net a) = (true, n1) ->
  curl_easy_perform (request a "POST" "/v2/orders" (Some (order_json i))) n1 = (tr, n2) ->
  (res tr = CURLE_OK ->
   place i a = (Returned (parse_order_result (response_code tr) (written tr)),
                mkApi (cfg_ a) n2)) /\
  (res tr = CURLE_OK -> is_2xx (response_code tr) = false ->
   place i a
   = (Returned {| orderId := ""; accepted := false;
                  message := "Order failed: HTTP " ++ to_string (response_code tr) ++
                             " " ++ written tr |},
      mkApi (cfg_ a) n2)) /\
  (res tr <> CURLE_OK ->
   place i a
   = (Thrown (runtime_error ("curl failed: " ++ curl_easy_strerror (res tr))),
      mkApi (cfg_ a) n2)).
Proof.
  intros Hinit Hperf.
  rewrite place_eq, http_req_eq, Hinit, Hperf.
  split; [|split].
  - intros ->. reflexivity.
  - intros -> H2. cbn [Z.eqb CURLE_OK status body]. unfold parse_order_result.
    unfold is_2xx in H2. rewrite H2. reflexivity.
  - intros Hne. destruct (Z.eqb_spec (res tr) CURLE_OK); [contradiction|reflexivity].
Qed.

(** X12. When libcurl gives no handle, every operation of the adapter
    throws [std::runtime_error] before any transfer is set up: the network
    is left as [curl_easy_init] left it. *)
Theorem X12_no_curl_handle_no_transfer (a : Api N) (n1 : N) :
  curl_easy_init (net a) = (false, n1) ->
  (forall i, place i a
             = (Thrown (runtime_error "curl_easy_init failed"), mkApi (cfg_ a) n1)) /\
  AlpacaPaperApi.CloseAllPositions_Impl a
  = (Thrown (runtime_error "curl_easy_init failed"), mkApi (cfg_ a) n1) /\
  AlpacaPaperApi.GetNextMarketOpenTime_Impl a
  = (Thrown (runtime_error "curl_easy_init failed"), mkApi (cfg_ a) n1).
Proof.
  intros Hinit. split; [|split].
  - intros i. rewrite place_eq, http_req_eq, Hinit. reflexivity.
  - unfold AlpacaPaperApi.CloseAllPositions_Impl, http_delete, bind. rewrite http_req_eq, Hinit.
    reflexivity.
  - unfold AlpacaPaperApi.GetNextMarketOpenTime_Impl, http_get, bind. rewrite http_req_eq, Hinit.
    reflexivity.
Qed.

(** X13. [AlpacaPaperApi.CloseAllPositions_Impl] of the Alpaca adapter is one DELETE of
    [base_url/v2/positions]: it reports success exactly for a status in
    200..299, a failure with the status and the body in the message for any
    other status, and throws when the transfer fails. *)
Theorem X13_alpaca_close_all_positions
  (a : Api N) (n1 n2 : N) (tr : CurlTransfer) :
  curl_easy_init (net a) = (true, n1) ->
  curl_easy_perform (request a "DELETE" "/v2/positions" None) n1 = (tr, n2) ->
  (res tr = CURLE_OK -> is_2xx (response_code tr) = true ->
   AlpacaPaperApi.CloseAllPositions_Impl a
   = (Returned (PositionCloseResult.mk true "Closed all positions."), mkApi (cfg_ a) n2)) /\
  (res tr = CURLE_OK -> is_2xx (response_code tr) = false ->
   AlpacaPaperApi.CloseAllPositions_Impl a
   = (Returned (PositionCloseResult.mk false
                  ("CloseAllPositions failed: HTTP " ++ to_string (response_code tr) ++
                   " " ++ written tr)), mkApi (cfg_ a) n2)) /\
  (res tr <> CURLE_OK ->
   AlpacaPaperApi.CloseAllPositions_Impl a
   = (Thrown (runtime_error ("curl failed: " ++ curl_easy_strerror (res tr))),
      mkApi (cfg_ a) n2)).
Proof.
  intros Hinit Hperf.
  unfold AlpacaPaperApi.CloseAllPositions_Impl, http_delete, bind, ret.
  rewrite http_req_eq, Hinit, Hperf. unfold is_2xx.
  split; [|split].
  - intros -> H2. cbn [Z.eqb CURLE_OK status body]. rewrite H2. reflexivity.
  - intros -> H2. cbn [Z.eqb CURLE_OK status body]. rewrite H2. reflexivity.
  - intros Hne. destruct (Z.eqb_spec (res tr) CURLE_OK); [contradiction|reflexivity].
Qed.

(** X14. [AlpacaPaperApi.GetNextMarketOpenTime_Impl] never yields a time read from the
    answer: whenever it returns, the value is absent or the epoch
    ([SysTime{}]); it is absent for every status outside 200..299 and for
    every body in which the key [key_next_open] does not occur. *)
Theorem X14_next_open_is_absent_or_epoch (a : Api N) :
  (forall r a', AlpacaPaperApi.GetNextMarketOpenTime_Impl a = (Returned r, a') ->
                r = None \/ r = Some 0%Z) /\
  (forall n1 n2 tr,
     curl_easy_init (net a) = (true, n1) ->
     curl_easy_perform (request a "GET" "/v2/clock" None) n1 = (tr, n2) ->
     res tr = CURLE_OK ->
     is_2xx (response_code tr) = false \/ ~ contains key_next_open (written tr) ->
     AlpacaPaperApi.GetNextMarketOpenTime_Impl a = (Returned None, mkApi (cfg_ a) n2)).
Proof.
  split.
  - intros r a' Hrun. unfold AlpacaPaperApi.GetNextMarketOpenTime_Impl, http_get, bind, ret in Hrun.
    destruct (http_req "GET" _ None a) as [[resp | e] a1]; [|discriminate].
    cbn [status body] in Hrun.
    destruct ((status resp <? 200)%Z || (status resp >=? 300)%Z).
    { injection Hrun as <- _. left; reflexivity. }
    destruct (find key_next_open 0 (body resp)) as [pos |].
    + destruct (find dquote _ (body resp)); injection Hrun as <- _; auto.
    + injection Hrun as <- _. left; reflexivity.
  - intros n1 n2 tr Hinit Hperf Hres Hwhy.
    unfold AlpacaPaperApi.GetNextMarketOpenTime_Impl, http_get, bind, ret.
    rewrite http_req_eq, Hinit, Hperf, Hres. cbn [Z.eqb CURLE_OK status body].
    rewrite not_2xx_test.
    destruct (is_2xx (response_code tr)); cbn [negb]; [|reflexivity].
    destruct Hwhy as [Hst | Hno]; [discriminate|].
    rewrite (proj2 (find_npos_iff key_next_open (written tr)) Hno). reflexivity.
Qed.

End AlpacaOperations.

(** ** The Alpaca adapter: cutting the order identifier out of the body *)

Section OrderIdExtraction.
Import AlpacaPaperApi.
Import StrategyTemplate.

Lemma append_assoc (a b c : string) : (a ++ b) ++ c = a ++ b ++ c.
Proof. induction a as [|x a IH]; [reflexivity|]. cbn [append]. rewrite IH. reflexivity. Qed.

Lemma length_append (a b : string) :
  String.length (a ++ b) = (String.length a + String.length b)%nat.
Proof. induction a as [|x a IH]; [reflexivity|]. cbn [append String.length]. rewrite IH. reflexivity. Qed.

(** Where a key first occurs, [index] finds it. *)
Lemma index_first (key pre post : string) :
  (forall a b, pre ++ key ++ post = a ++ key ++ b ->
               (String.length pre <= String.length a)%nat) ->
  index 0 key (pre ++ key ++ post) = Some (String.length pre).
Proof.
  induction pre as [|c pre IH]; intros Hfirst.
  - cbn [append String.length]. destruct (key ++ post) as [|b s] eqn:E.
    + destruct key; [reflexivity|discriminate E].
    + rewrite index_0_unfold, <- E, prefix_append. reflexivity.
  - cbn [append String.length]. rewrite index_0_unfold.
    destruct (prefix key (String c (pre ++ key ++ post))) eqn:Hp.
    + destruct (prefix_split _ _ Hp) as [b Hb].
      specialize (Hfirst "" b Hb). cbn [String.length] in Hfirst. lia.
    + rewrite IH; [reflexivity|].
      intros a b E. apply le_S_n.
      apply (Hfirst (String c a) b). cbn [append]. rewrite E. reflexivity.
Qed.

(** Searching from the end of a prefix is searching in what follows. *)
Lemma index_skip (a s k : string) :
  index (String.length a) k (a ++ s)
  = option_map (Nat.add (String.length a)) (index 0 k s).
Proof.
  induction a as [|c a IH].
  - cbn [append String.length]. destruct (index 0 k s); reflexivity.
  - cbn [append String.length index]. rewrite IH.
    destruct (index 0 k s); reflexivity.
Qed.

Lemma contains_tail (k : string) (c : ascii) (s : string) :
  contains k s -> contains k (String c s).
Proof. intros (pre & post & ->). exists (String c pre), post. reflexivity. Qed.

Lemma index_quote_first (id rest : string) :
  ~ contains dquote id ->
  index 0 dquote (id ++ dquote ++ rest) = Some (String.length id).
Proof.
  induction id as [|c id IH]; intros Hno.
  - cbn [append String.length].
    change (String "034" rest) with (dquote ++ rest).
    destruct (dquote ++ rest) as [|b s] eqn:E; [discriminate E|].
    rewrite index_0_unfold, <- E, prefix_append. reflexivity.
  - cbn [append String.length]. rewrite index_0_unfold.
    destruct (prefix dquote (String c (id ++ dquote ++ rest))) eqn:Hp.
    + destruct (prefix_split _ _ Hp) as [b Hb]. exfalso. apply Hno.
      injection Hb as -> _. exists "", id. reflexivity.
    + rewrite IH; [reflexivity|]. intros Hc. apply Hno, contains_tail, Hc.
Qed.

Lemma substring_skip (a s : string) (n : nat) :
  substring (String.length a) n (a ++ s) = substring 0 n s.
Proof. induction a as [|c a IH]; [reflexivity|]. cbn [append String.length substring]. exact IH. Qed.

Lemma substring_prefix (a s : string) :
  substring 0 (String.length a) (a ++ s) = a.
Proof.
  induction a as [|c a IH]; [destruct s; reflexivity|].
  cbn [append String.length substring]. rewrite IH. reflexivity.
Qed.

(** X15. For a status in 200..299 and a body in which the key [key_id]
    first occurs right after [pre]: when the key is followed by a text [id]
    without a double quote and then a double quote, the result is accepted
    with [orderId = id], whatever comes before and after; when no double
    quote follows the key at all, the result is accepted with an empty
    [orderId]. *)
Theorem X15_order_id_is_cut_out_after_first_key
  (status : Z) (pre tail : string) :
  is_2xx status = true ->
  (forall a b, pre ++ key_id ++ tail = a ++ key_id ++ b ->
               (String.length pre <= String.length a)%nat) ->
  (forall id rest,
     tail = id ++ dquote ++ rest -> ~ contains dquote id ->
     parse_order_result status (pre ++ key_id ++ tail)
     = {| orderId := id; accepted := true; message := "Accepted" |}) /\
  (~ contains dquote tail ->
   parse_order_result status (pre ++ key_id ++ tail)
   = {| orderId := ""; accepted := true; message := "Accepted" |}).
Proof.
  intros H2 Hfirst. unfold parse_order_result, find, substr.
  unfold is_2xx in H2. rewrite H2.
  rewrite (index_first key_id pre tail Hfirst).
  rewrite <- (length_append pre key_id), <- (append_assoc pre key_id tail).
  rewrite index_skip.
  split.
  - intros id rest -> Hno.
    rewrite (index_quote_first id rest Hno). cbn [option_map].
    replace (String.length (pre ++ key_id) + String.length id
             - String.length (pre ++ key_id))%nat with (String.length id) by lia.
    rewrite substring_skip, substring_prefix. reflexivity.
  - intros Hno.
    pose proof (proj2 (find_npos_iff dquote tail) Hno) as Hnone.
    unfold find in Hnone. rewrite Hnone. reflexivity.
Qed.

End OrderIdExtraction.

(** ** Instances of the Alpaca properties on a scripted network *)

Section AlpacaExamples.
Import AlpacaPaperApi.
Import StrategyTemplate.

(** X11 on a market order answered with status 422: a result, not an
    exception. *)
Lemma X11_witness_status_422 :
  place (platform := ScriptedNet)
    (Market (MarketOrder.mk "SPY" Buy d_ten Day))
    (mkApi demo_cfg [mkCurlTransfer 0 422 "no funds"])
  = (Returned {| orderId := ""; accepted := false;
                 message := "Order failed: HTTP 422 no funds" |},
     mkApi demo_cfg []).
Proof.
  apply (proj1 (proj2 (X11_alpaca_order_rejection_is_returned_transport_failure_thrown
                         (platform := ScriptedNet)
                         (Market (MarketOrder.mk "SPY" Buy d_ten Day))
                         (mkApi demo_cfg [mkCurlTransfer 0 422 "no funds"])
                         [mkCurlTransfer 0 422 "no funds"] []
                         (mkCurlTransfer 0 422 "no funds") eq_refl eq_refl)));
    reflexivity.
Defined.

(** X12 on the platform without a handle. *)
Lemma X12_witness_no_handle :
  (forall i, place (platform := NoHandleNet) i (mkApi demo_cfg tt)
             = (Thrown (runtime_error "curl_easy_init failed"), mkApi demo_cfg tt)) /\
  AlpacaPaperApi.CloseAllPositions_Impl (platform := NoHandleNet) (mkApi demo_cfg tt)
  = (Thrown (runtime_error "curl_easy_init failed"), mkApi demo_cfg tt) /\
  AlpacaPaperApi.GetNextMarketOpenTime_Impl (platform := NoHandleNet) (mkApi demo_cfg tt)
  = (Thrown (runtime_error "curl_easy_init failed"), mkApi demo_cfg tt).
Proof.
  exact (X12_no_curl_handle_no_transfer (platform := NoHandleNet)
           (mkApi demo_cfg tt) tt eq_refl).
Defined.

(** X13 on a DELETE answered with status 207. *)
Lemma X13_witness_status_207 :
  AlpacaPaperApi.CloseAllPositions_Impl (platform := ScriptedNet)
    (mkApi demo_cfg [mkCurlTransfer 0 207 "[]"])
  = (Returned (PositionCloseResult.mk true "Closed all positions."), mkApi demo_cfg []).
Proof.
  apply (proj1 (X13_alpaca_close_all_positions (platform := ScriptedNet)
                  (mkApi demo_cfg [mkCurlTransfer 0 207 "[]"])
                  [mkCurlTransfer 0 207 "[]"] [] (mkCurlTransfer 0 207 "[]")
                  eq_refl eq_refl)); reflexivity.
Defined.

(** X14 on a clock request answered with status 500. *)
Lemma X14_witness_status_500 :
  AlpacaPaperApi.GetNextMarketOpenTime_Impl (platform := ScriptedNet)
    (mkApi demo_cfg [mkCurlTransfer 0 500 "oops"])
  = (Returned None, mkApi demo_cfg []).
Proof.
  apply (proj2 (X14_next_open_is_absent_or_epoch (platform := ScriptedNet)
                  (mkApi demo_cfg [mkCurlTransfer 0 500 "oops"]))
           [mkCurlTransfer 0 500 "oops"] [] (mkCurlTransfer 0 500 "oops")
           eq_refl eq_refl eq_refl).
  left. reflexivity.
Defined.

(** X15 on a body with a symbol before the identifier and a status after
    it. *)
Lemma X15_witness_id_between_fields :
  parse_order_result 201
    ("{" ++ dquote ++ "symbol" ++ dquote ++ ":" ++ dquote ++ "SPY" ++ dquote ++ "," ++
     key_id ++ "904837e3" ++ dquote ++ "," ++ dquote ++ "status" ++ dquote ++ ":1}")
  = {| orderId := "904837e3"; accepted := true; message := "Accepted" |}.
Proof.
  refine (proj1 (X15_order_id_is_cut_out_after_first_key 201
                   ("{" ++ dquote ++ "symbol" ++ dquote ++ ":" ++ dquote ++ "SPY" ++
                    dquote ++ ",")
                   ("904837e3" ++ dquote ++ "," ++ dquote ++ "status" ++ dquote ++ ":1}")
                   eq_refl _)
            "904837e3" ("," ++ dquote ++ "status" ++ dquote ++ ":1}") eq_refl _).
  - intros a b E.
    destruct (Nat.le_gt_cases 16 (String.length a)) as [Hle | Hlt]; [exact Hle|].
    exfalso.
    do 16 (destruct a as [|? a];
           [cbn in E; discriminate E
           |cbn [append] in E; injection E as <- E; cbn [String.length] in Hlt]).
    lia.
  - apply find_npos_iff. reflexivity.
Defined.

End AlpacaExamples.

(** ** The live loop: what a turn and the loop do in every case *)

Section LiveLoopInvariants.
Import LiveLoop.
Context {rt : Runtime} {A : Type} {api : AlpacaApi A}.

Lemma count_cons (f : Event -> bool) (e : Event) (l : list Event) :
  count f (e :: l) = ((if f e then 1 else 0) + count f l)%nat.
Proof. unfold count. cbn [filter]. destruct (f e); reflexivity. Qed.

Lemma count_requests (f : Event -> bool) (urls : list string) :
  (forall url, f (Ev_http_get url) = f (Ev_http_get "")) ->
  count f (map Ev_http_get urls)
  = if f (Ev_http_get "") then List.length urls else 0%nat.
Proof.
  intros Hf. induction urls as [|u urls IH]; [destruct (f _); reflexivity|].
  cbn [map]. rewrite count_cons, IH, (Hf u).
  destruct (f (Ev_http_get "")); reflexivity.
Qed.

Lemma sleeps_30_app (l1 l2 : list Event) :
  sleeps_30 l1 -> sleeps_30 l2 -> sleeps_30 (l1 ++ l2).
Proof. intros H1 H2 s Hin. apply in_app_or in Hin. destruct Hin; eauto. Qed.

Lemma sleeps_30_requests (urls : list string) : sleeps_30 (map Ev_http_get urls).
Proof.
  intros s Hin. apply in_map_iff in Hin. destruct Hin as (u & E & _). discriminate E.
Qed.

(** One run of the retrieval, whatever the adapter answers. *)
Lemma retrieval_summary (sym : string) (w : World A) (r : outcome Candle) (w' : World A) :
  GetFirst5MinCandle_US sym w = (r, w') ->
  exists urls,
    trace w' = (trace w ++ Ev_GetFirst5MinCandle_US sym :: map Ev_http_get urls)%list /\
    (1 <= List.length urls <= 3)%nat /\
    cout w' = cout w /\
    system_clock w' = system_clock w /\
    (clock_reads w <= clock_reads w' <= S (clock_reads w))%nat /\
    (forall c, r = Returned c -> ok c = true -> List.length urls = 3%nat) /\
    (forall e, r = Thrown e -> exists url a a', http_get url a = (Thrown e, a')).
Proof.
  rewrite GetFirst5MinCandle_US_eq. cbv zeta. intros Hrun.
  destruct (http_get (clock_url (alpaca w)) (alpaca w)) as [[[st0 body0] | e0] a1] eqn:E0.
  2:{ injection Hrun as <- <-. exists [clock_url (alpaca w)]. cbn [trace cout system_clock
        clock_reads map List.length]. rewrite <- ?app_assoc; cbn [app].
      repeat split; try lia; try discriminate.
      intros e E. injection E as <-. eauto. }
  destruct (is_2xx st0).
  2:{ injection Hrun as <- <-. exists [clock_url (alpaca w)]. cbn [trace cout system_clock
        clock_reads map List.length ok Candle_ok_raw]. rewrite <- ?app_assoc; cbn [app].
      repeat split; try lia; try discriminate.
      intros c E Hok. injection E as <-. discriminate Hok. }
  destruct (http_get (calendar_url a1 _) a1) as [[[st1 body1] | e1] a2] eqn:E1.
  2:{ injection Hrun as <- <-.
      exists [clock_url (alpaca w); calendar_url a1 (system_clock w (clock_reads w))].
      cbn [trace cout system_clock clock_reads map List.length]. rewrite <- ?app_assoc; cbn [app].
      repeat split; try lia; try discriminate.
      intros e E. injection E as <-. eauto. }
  destruct (is_2xx st1).
  2:{ injection Hrun as <- <-.
      exists [clock_url (alpaca w); calendar_url a1 (system_clock w (clock_reads w))].
      cbn [trace cout system_clock clock_reads map List.length ok Candle_ok_raw].
      rewrite <- ?app_assoc; cbn [app].
      repeat split; try lia; try discriminate.
      intros c E Hok. injection E as <-. discriminate Hok. }
  destruct (http_get (bars_url a2 sym _) a2) as [[[st2 body2] | e2] a3] eqn:E2;
    injection Hrun as <- <-;
    exists [clock_url (alpaca w); calendar_url a1 (system_clock w (clock_reads w));
            bars_url a2 sym (system_clock w (clock_reads w))];
    cbn [trace cout system_clock clock_reads map List.length]; rewrite <- ?app_assoc; cbn [app];
    repeat split; try lia; try discriminate.
  intros e E. injection E as <-. eauto.
Qed.

(** A turn in which the market query throws. *)
Lemma cycle_query_throws (w : World A) (e : exception) (a1 : A) :
  IsMarketOpen (alpaca w) = (Thrown e, a1) ->
  cycle w = (Thrown e, after_pick w a1).
Proof.
  intros Hopen. unfold cycle, bind, now, pick_market, alpaca_IsMarketOpen, bind, emit,
    on_alpaca. cbn [alpaca system_clock clock_reads cout trace].
  rewrite Hopen. reflexivity.
Qed.

(** A turn in which the primary market is closed and the CN window open. *)
Lemma cycle_CN (w : World A) (a1 : A) :
  IsMarketOpen (alpaca w) = (Returned false, a1) ->
  is_cn_market_open_utc (system_clock w (S (clock_reads w))) = true ->
  cycle w =
  (Returned tt,
   mkWorld a1 (system_clock w) (S (S (clock_reads w)))
     (cout w ++ ("[UTC " ++ to_iso8601_utc (system_clock w (clock_reads w)) ++
                 "] CN open. First 5m candle (SSE): FAIL" ++ newline ++
                 "CN market data not implemented yet" ++ newline))
     (trace w ++ [Ev_IsMarketOpen; Ev_GetFirst5MinCandle_CN_Placeholder "SSE";
                  Ev_sleep_for 30])%list).
Proof.
  intros Hopen Hcn.
  assert (Hpick : pick_market
            (mkWorld (alpaca w) (system_clock w) (S (clock_reads w)) (cout w) (trace w))
          = (Returned (mkMarketPick CN "SSE"),
             mkWorld a1 (system_clock w) (S (S (clock_reads w))) (cout w)
               (trace w ++ [Ev_IsMarketOpen])%list)).
  { unfold pick_market, alpaca_IsMarketOpen, bind, emit, on_alpaca, now, ret.
    cbn [alpaca system_clock clock_reads cout trace]. rewrite Hopen.
    cbn [alpaca system_clock clock_reads cout trace]. rewrite Hcn. reflexivity. }
  unfold cycle. unfold bind at 1. unfold now at 1. unfold bind at 1. rewrite Hpick.
  cbn [market symbol].
  unfold GetFirst5MinCandle_CN_Placeholder, bind, print, sleep_for, emit, ret.
  cbn [alpaca system_clock clock_reads cout trace ok raw Candle_ok_raw ok_or_fail].
  rewrite <- !app_assoc. reflexivity.
Qed.

(** Every turn, summed up. *)
Lemma cycle_summary (w : World A) (r : outcome unit) (w' : World A) :
  cycle w = (r, w') ->
  exists new,
    trace w' = (trace w ++ new)%list /\
    system_clock w' = system_clock w /\
    count is_market_query new = 1%nat /\
    (count is_fetch new <= 1)%nat /\
    (count is_http_get new <= 3)%nat /\
    sleeps_30 new /\
    (r = Returned tt ->
     count is_sleep new = 1%nat /\
     (exists before, new = (before ++ [Ev_sleep_for 30])%list) /\
     exists line,
       cout w' = cout w ++ "[UTC " ++ to_iso8601_utc (system_clock w (clock_reads w)) ++
                 "] " ++ line) /\
    (forall e, r = Thrown e ->
     count is_sleep new = 0%nat /\
     cout w' = cout w /\
     ((exists a1, IsMarketOpen (alpaca w) = (Thrown e, a1)) \/
      (exists url a a', http_get url a = (Thrown e, a')))).
Proof.
  intros Hrun.
  destruct (IsMarketOpen (alpaca w)) as [[[|] | e0] a1] eqn:Hopen.
  - (* primary market open *)
    destruct (cycle_US w a1 Hopen) as [_ Hc]. rewrite Hc in Hrun. clear Hc.
    destruct (GetFirst5MinCandle_US "SPY" (after_pick w a1)) as [rc w2] eqn:Hget.
    destruct (retrieval_summary _ _ _ _ Hget)
      as (urls & Htr & Hlen & Hcout & Hclk & _ & _ & Hthrow).
    unfold after_pick in Htr, Hcout, Hclk. cbn [trace cout system_clock] in Htr, Hcout, Hclk.
    destruct rc as [c | e]; injection Hrun as <- <-; cbn [trace cout system_clock].
    + exists (Ev_IsMarketOpen :: Ev_GetFirst5MinCandle_US "SPY"
              :: map Ev_http_get urls ++ [Ev_sleep_for 30])%list.
      rewrite Htr, Hcout, Hclk, <- !app_assoc. cbn [app].
      split; [reflexivity|]. split; [reflexivity|].
      rewrite !count_cons, !count_app, !count_requests by reflexivity.
      cbn [is_market_query is_fetch is_http_get is_sleep count filter List.length Nat.add].
      split; [reflexivity|]. split; [lia|]. split; [lia|].
      split.
      { intros s [E | [E | Hin]]; try discriminate.
        apply in_app_or in Hin. destruct Hin as [Hin | [E | []]].
        - exact (sleeps_30_requests urls s Hin).
        - injection E as <-. reflexivity. }
      split.
      * intros _.
        split; [reflexivity|].
        split; [exists (Ev_IsMarketOpen :: Ev_GetFirst5MinCandle_US "SPY"
                        :: map Ev_http_get urls); reflexivity|].
        eexists. reflexivity.
      * intros e E. discriminate E.
    + exists (Ev_IsMarketOpen :: Ev_GetFirst5MinCandle_US "SPY" :: map Ev_http_get urls).
      rewrite Htr, Hcout, Hclk, <- !app_assoc. cbn [app].
      split; [reflexivity|]. split; [reflexivity|].
      rewrite !count_cons, !count_requests by reflexivity.
      cbn [is_market_query is_fetch is_http_get is_sleep Nat.add].
      split; [reflexivity|]. split; [lia|]. split; [lia|].
      split.
      { intros s [E | [E | Hin]]; try discriminate.
        exact (sleeps_30_requests urls s Hin). }
      split; [intros E; discriminate E|].
      intros e' E. injection E as <-.
      split; [reflexivity|]. split; [reflexivity|]. right. exact (Hthrow e eq_refl).
  - (* primary market closed *)
    destruct (is_cn_market_open_utc (system_clock w (S (clock_reads w)))) eqn:Hcn.
    + rewrite (cycle_CN w a1 Hopen Hcn) in Hrun. injection Hrun as <- <-.
      exists [Ev_IsMarketOpen; Ev_GetFirst5MinCandle_CN_Placeholder "SSE"; Ev_sleep_for 30].
      cbn [trace cout system_clock].
      split; [reflexivity|]. split; [reflexivity|].
      split; [reflexivity|]. split; [cbn; lia|]. split; [cbn; lia|].
      split.
      { intros s [E | [E | [E | []]]]; try discriminate. injection E as <-. reflexivity. }
      split.
      * intros _. split; [reflexivity|].
        split; [exists [Ev_IsMarketOpen; Ev_GetFirst5MinCandle_CN_Placeholder "SSE"];
                reflexivity|].
        eexists. reflexivity.
      * intros e E. discriminate E.
    + destruct (cycle_NONE w a1 Hopen Hcn) as [_ Hc]. rewrite Hc in Hrun.
      injection Hrun as <- <-.
      exists [Ev_IsMarketOpen; Ev_sleep_for 30].
      cbn [trace cout system_clock].
      split; [reflexivity|]. split; [reflexivity|].
      split; [reflexivity|]. split; [cbn; lia|]. split; [cbn; lia|].
      split.
      { intros s [E | [E | []]]; try discriminate. injection E as <-. reflexivity. }
      split.
      * intros _. split; [reflexivity|].
        split; [exists [Ev_IsMarketOpen]; reflexivity|].
        eexists. reflexivity.
      * intros e E. discriminate E.
  - (* the market query throws *)
    rewrite (cycle_query_throws w e0 a1 Hopen) in Hrun. injection Hrun as <- <-.
    exists [Ev_IsMarketOpen]. unfold after_pick. cbn [trace cout system_clock].
    split; [reflexivity|]. split; [reflexivity|].
    split; [reflexivity|]. split; [cbn; lia|]. split; [cbn; lia|].
    split.
    { intros s [E | []]. discriminate. }
    split; [intros E; discriminate E|].
    intros e E. injection E as <-. split; [reflexivity|]. split; [reflexivity|].
    left. eauto.
Qed.

Lemma append_nil_r (a : string) : a ++ "" = a.
Proof. induction a as [|c a IH]; [reflexivity|]. cbn [append]. rewrite IH. reflexivity. Qed.

(** X16. When the clock and the calendar request are answered with a
    status in 200..299 and the bars request is answered at all, the sample
    retrieval returns a sample whose [ok] flag says whether the bars status
    is in 200..299 and whose [raw] text is the bars body; the bodies of the
    first two answers are not used.  It has made exactly these three
    requests in this order, read the wall clock once (for the date of the
    calendar and bars requests) and written nothing. *)
Theorem X16_retrieval_result_is_the_bars_answer
  (sym : string) (w : World A) (a1 a2 a3 : A)
  (st0 st1 st2 : Z) (body0 body1 body2 : string) :
  http_get (clock_url (alpaca w)) (alpaca w) = (Returned (st0, body0), a1) ->
  is_2xx st0 = true ->
  http_get (calendar_url a1 (system_clock w (clock_reads w))) a1
  = (Returned (st1, body1), a2) ->
  is_2xx st1 = true ->
  http_get (bars_url a2 sym (system_clock w (clock_reads w))) a2
  = (Returned (st2, body2), a3) ->
  GetFirst5MinCandle_US sym w
  = (Returned (Candle_ok_raw (is_2xx st2) body2),
     mkWorld a3 (system_clock w) (S (clock_reads w)) (cout w)
       (trace w ++ [Ev_GetFirst5MinCandle_US sym;
                    Ev_http_get (clock_url (alpaca w));
                    Ev_http_get (calendar_url a1 (system_clock w (clock_reads w)));
                    Ev_http_get (bars_url a2 sym (system_clock w (clock_reads w)))])%list).
Proof.
  intros H0 E0 H1 E1 H2.
  rewrite GetFirst5MinCandle_US_eq. cbv zeta. rewrite H0, E0, H1, E1, H2.
  rewrite <- !app_assoc. reflexivity.
Qed.

(** X17. Whatever the adapter answers or throws, one run of the sample
    retrieval makes at least one and at most three requests and nothing
    else on the adapter, writes nothing to the output, and reads the wall
    clock at most once; a sample that is ok has taken all three requests. *)
Theorem X17_retrieval_makes_one_to_three_requests (sym : string) (w : World A) :
  exists urls,
    trace (snd (GetFirst5MinCandle_US sym w))
    = (trace w ++ Ev_GetFirst5MinCandle_US sym :: map Ev_http_get urls)%list /\
    (1 <= List.length urls <= 3)%nat /\
    cout (snd (GetFirst5MinCandle_US sym w)) = cout w /\
    (clock_reads w <= clock_reads (snd (GetFirst5MinCandle_US sym w))
     <= S (clock_reads w))%nat /\
    (forall c, fst (GetFirst5MinCandle_US sym w) = Returned c -> ok c = true ->
               List.length urls = 3%nat).
Proof.
  destruct (GetFirst5MinCandle_US sym w) as [r w'] eqn:Hrun.
  destruct (retrieval_summary _ _ _ _ Hrun)
    as (urls & Htr & Hlen & Hcout & _ & Hreads & Hok & _).
  exists urls. cbn [fst snd]. repeat split; try assumption; try lia.
Qed.

(** X18. A turn in which the primary market is closed and the window of
    the CN market is open at the wall-clock time read for it picks the CN
    market with the symbol SSE, makes no request at all, writes the CN line
    with FAIL and the text of the placeholder, and sleeps 30 seconds. *)
Theorem X18_cn_turn_is_a_placeholder (w : World A) (a1 : A) :
  IsMarketOpen (alpaca w) = (Returned false, a1) ->
  is_cn_market_open_utc (system_clock w (S (clock_reads w))) = true ->
  cycle w =
  (Returned tt,
   mkWorld a1 (system_clock w) (S (S (clock_reads w)))
     (cout w ++ ("[UTC " ++ to_iso8601_utc (system_clock w (clock_reads w)) ++
                 "] CN open. First 5m candle (SSE): FAIL" ++ newline ++
                 "CN market data not implemented yet" ++ newline))
     (trace w ++ [Ev_IsMarketOpen; Ev_GetFirst5MinCandle_CN_Placeholder "SSE";
                  Ev_sleep_for 30])%list).
Proof. exact (cycle_CN w a1). Qed.


(** X20. A turn that ends with an exception has written nothing and has
    not slept; and the exception is one that the adapter threw, from the
    market query or from a request: the loop throws nothing of its own. *)
Theorem X20_failed_turn_is_silent (w : World A) (e : exception) :
  fst (cycle w) = Thrown e ->
  cout (snd (cycle w)) = cout w /\
  (exists new, trace (snd (cycle w)) = (trace w ++ new)%list /\
               count is_sleep new = 0%nat) /\
  ((exists a1, IsMarketOpen (alpaca w) = (Thrown e, a1)) \/
   (exists url a a', http_get url a = (Thrown e, a'))).
Proof.
  intros Hthrown. destruct (cycle w) as [r w'] eqn:Hrun. cbn [fst snd] in *. subst r.
  destruct (cycle_summary _ _ _ Hrun) as (new & Htr & _ & _ & _ & _ & _ & _ & Hthr).
  destruct (Hthr e eq_refl) as (Hs & Hcout & Hwho).
  split; [exact Hcout|]. split; [eauto|exact Hwho].
Qed.

(** X21. The loop over [n] turns: when all of them complete, the adapter
    was asked [n] times whether the market is open and the loop slept [n]
    times; when an exception ends the loop, it slept fewer than [n] times.
    In both cases every sleep lasted 30 seconds, and the output only grew. *)
Theorem X21_loop_sleeps_once_per_completed_turn
  (n : nat) (w : World A) (r : outcome unit) (w' : World A) :
  live_loop n w = (r, w') ->
  exists new text,
    trace w' = (trace w ++ new)%list /\
    cout w' = cout w ++ text /\
    sleeps_30 new /\
    (count is_market_query new <= n)%nat /\
    (r = Returned tt ->
     count is_sleep new = n /\ count is_market_query new = n) /\
    (forall e, r = Thrown e -> (count is_sleep new < n)%nat).
Proof.
  revert w r w'. induction n as [|n IH]; intros w r w' Hrun.
  - cbn [live_loop] in Hrun. unfold ret in Hrun. injection Hrun as <- <-.
    exists [], "". rewrite app_nil_r, append_nil_r.
    repeat split; try reflexivity; try (cbn; lia).
    + intros s [].
    + intros e E. discriminate E.
  - cbn [live_loop] in Hrun. unfold bind at 1 in Hrun.
    destruct (cycle w) as [[[] | e1] w1] eqn:Hc.
    + destruct (cycle_summary _ _ _ Hc)
        as (new1 & Htr1 & _ & Hq1 & _ & _ & H30 & Hret & _).
      destruct (Hret eq_refl) as (Hs1 & _ & (line & Hline)).
      destruct (IH _ _ _ Hrun) as (new2 & text2 & Htr2 & Hcout2 & H302 & Hq2 & Hret2 & Hthr2).
      exists (new1 ++ new2)%list.
      eexists.
      rewrite Htr2, Htr1, Hcout2, Hline, app_assoc, !count_app, Hq1, Hs1.
      split; [reflexivity|]. split; [rewrite append_assoc; reflexivity|].
      split; [apply sleeps_30_app; assumption|]. split; [lia|].
      split.
      * intros E. destruct (Hret2 E) as [-> ->]. split; reflexivity.
      * intros e E. specialize (Hthr2 e E). lia.
    + injection Hrun as <- <-.
      destruct (cycle_summary _ _ _ Hc)
        as (new1 & Htr1 & _ & Hq1 & _ & _ & H30 & _ & Hthr).
      destruct (Hthr e1 eq_refl) as (Hs1 & Hcout1 & _).
      exists new1, "". rewrite append_nil_r.
      split; [exact Htr1|]. split; [exact Hcout1|]. split; [exact H30|].
      split; [lia|]. split; [intros E; discriminate E|].
      intros e E. lia.
Qed.

End LiveLoopInvariants.

(** ** The live loop: dates and timestamps *)

Section Timestamps.
Import LiveLoop.
Context {rt : Runtime}.

(** A check over the integers below [2^n], run once and used for all: the
    integers are enumerated by their binary digits. *)
Lemma below_by_cases (P : Z -> bool) (n : nat) :
  all_below P n 0 = true ->
  forall z, (0 <= z < 2 ^ Z.of_nat n)%Z -> P z = true.
Proof.
  assert (Hgen : forall n acc, all_below P n acc = true ->
            forall z, (acc * 2 ^ Z.of_nat n <= z < acc * 2 ^ Z.of_nat n + 2 ^ Z.of_nat n)%Z ->
                      P z = true).
  { clear. induction n as [|n IH]; intros acc Hall z Hz.
    - cbn [all_below] in Hall. change (2 ^ Z.of_nat 0)%Z with 1%Z in Hz.
      replace z with acc by lia. exact Hall.
    - cbn [all_below] in Hall. apply andb_true_iff in Hall. destruct Hall as [H0 H1].
      rewrite Nat2Z.inj_succ, Z.pow_succ_r in Hz by lia.
      set (e := (2 ^ Z.of_nat n)%Z) in *.
      assert (He : (0 < e)%Z) by (apply Z.pow_pos_nonneg; lia).
      destruct (Z_lt_le_dec z (2 * acc * e + e)) as [Hlt | Hge].
      + apply (IH (2 * acc)%Z H0). fold e. lia.
      + apply (IH (2 * acc + 1)%Z H1). fold e.
        replace ((2 * acc + 1) * e)%Z with (2 * acc * e + e)%Z by ring. lia. }
  intros Hall z Hz. apply (Hgen n 0%Z Hall). lia.
Qed.

Lemma fmt_0d_2_length (z : Z) :
  (0 <= z < 100)%Z -> String.length (fmt_0d 2 z) = 2%nat.
Proof.
  intros Hz. apply Nat.eqb_eq.
  assert (H : (if (z <? 100)%Z then Nat.eqb (String.length (fmt_0d 2 z)) 2 else true)
              = true).
  { apply (below_by_cases
             (fun z => if (z <? 100)%Z then Nat.eqb (String.length (fmt_0d 2 z)) 2
                       else true) 7); [vm_compute; reflexivity|].
    change (2 ^ Z.of_nat 7)%Z with 128%Z. lia. }
  destruct (Z.ltb_spec z 100); [exact H|lia].
Qed.

Lemma fmt_0d_4_length (z : Z) :
  (0 <= z < 10000)%Z -> String.length (fmt_0d 4 z) = 4%nat.
Proof.
  intros Hz. apply Nat.eqb_eq.
  assert (H : (if (z <? 10000)%Z then Nat.eqb (String.length (fmt_0d 4 z)) 4 else true)
              = true).
  { apply (below_by_cases
             (fun z => if (z <? 10000)%Z then Nat.eqb (String.length (fmt_0d 4 z)) 4
                       else true) 14); [vm_compute; reflexivity|].
    change (2 ^ Z.of_nat 14)%Z with 16384%Z. lia. }
  destruct (Z.ltb_spec z 10000); [exact H|lia].
Qed.

Lemma to_string_year_length (z : Z) :
  (1000 <= z < 10000)%Z -> String.length (to_string z) = 4%nat.
Proof.
  intros Hz. apply Nat.eqb_eq.
  assert (H : (if ((1000 <=? z) && (z <? 10000))%Z
               then Nat.eqb (String.length (to_string z)) 4 else true) = true).
  { apply (below_by_cases
             (fun z => if ((1000 <=? z) && (z <? 10000))%Z
                       then Nat.eqb (String.length (to_string z)) 4 else true) 14);
      [vm_compute; reflexivity|].
    change (2 ^ Z.of_nat 14)%Z with 16384%Z. lia. }
  destruct (Z.leb_spec 1000 z); [|lia]. destruct (Z.ltb_spec z 10000); [exact H|lia].
Qed.

Lemma substring_all (s : string) (n : nat) :
  String.length s = n -> substring 0 n s = s.
Proof.
  revert n. induction s as [|c s IH]; intros n Hn; cbn [String.length] in Hn; subst n.
  - reflexivity.
  - cbn [substring]. rewrite IH; reflexivity.
Qed.

Lemma substring_length_le (s : string) (n : nat) :
  (String.length (substring 0 n s) <= n)%nat.
Proof.
  revert s. induction n as [|n IH]; intros s.
  - destruct s; cbn; lia.
  - destruct s as [|c s]; [cbn; lia|].
    cbn [substring String.length]. specialize (IH s). lia.
Qed.

(** X22. The date put into the calendar and bars requests never has more
    than ten characters, since the buffer holds eleven; for a calendar date
    with a year from 0 to 9999 it is the whole of YYYY-MM-DD, ten characters
    with nothing cut off. *)
Theorem X22_request_date_is_ten_characters (gmt : tm) :
  (String.length (ymd_of gmt) <= 10)%nat /\
  (calendar_tm gmt ->
   ymd_of gmt = fmt_0d 4 (tm_year gmt + 1900) ++ "-" ++ fmt_0d 2 (tm_mon gmt + 1) ++ "-" ++
                fmt_0d 2 (tm_mday gmt) /\
   String.length (ymd_of gmt) = 10%nat).
Proof.
  split; [apply substring_length_le|].
  intros (_ & _ & _ & Hd & Hm & Hy).
  assert (Hlen : String.length
            (fmt_0d 4 (tm_year gmt + 1900) ++ "-" ++ fmt_0d 2 (tm_mon gmt + 1) ++ "-" ++
             fmt_0d 2 (tm_mday gmt)) = 10%nat).
  { rewrite !length_append, fmt_0d_4_length, !fmt_0d_2_length by lia. reflexivity. }
  unfold ymd_of. rewrite (substring_all _ 10 Hlen). split; [reflexivity|exact Hlen].
Qed.

(** X23. For an instant whose broken-down UTC time is a calendar date with
    a year from 1000 to 9999, the timestamp of the status line has exactly
    twenty characters (YYYY-MM-DDTHH:MM:SSZ). *)
Theorem X23_timestamp_is_twenty_characters (tp : SysTime) :
  calendar_tm (gmtime (to_time_t tp)) ->
  (1000 <= tm_year (gmtime (to_time_t tp)) + 1900)%Z ->
  String.length (to_iso8601_utc tp) = 20%nat.
Proof.
  intros (Hs & Hmi & Hh & Hd & Hm & Hy) Hy'.
  unfold to_iso8601_utc. cbv zeta.
  rewrite !length_append, to_string_year_length, !fmt_0d_2_length by lia.
  reflexivity.
Qed.

End Timestamps.

(** ** The dispatch layer in front of the Alpaca adapter *)

Section DispatchOverAlpaca.
Import StrategyTemplate.
Context {N : Type} {platform : AlpacaPaperApi.Platform N}.
Variable IsMarketOpen_Impl : M (AlpacaPaperApi.Api N) bool.

(** The dispatch layer on an adapter without a recording wrapper. *)
Lemma dispatch_plain {D : Type} {adapter : Derived D} (i : OrderIntent) (d : D) :
  (passes_validation i -> dispatch i d = impl i d) /\
  (invalid_intent i -> exists msg, dispatch i d = (Thrown (invalid_argument msg), d)).
Proof.
  split.
  - intros (Hs & Hq & Hp).
    destruct i as [o | o | o | o]; cbn [dispatch impl];
      cbn [intent_symbol intent_qty intent_price] in *;
      unfold PlaceMarketOrder, PlaceLimitOrder, PlaceStopOrder, PlaceShortOrder, bind,
        validate_basic, throw, ret;
      rewrite Hs, Hq, ?(Hp _ eq_refl); reflexivity.
  - intros Hbad.
    destruct i as [o | o | o | o]; cbn [dispatch];
      unfold invalid_intent in Hbad; cbn [intent_symbol intent_qty intent_price] in Hbad;
      unfold PlaceMarketOrder, PlaceLimitOrder, PlaceStopOrder, PlaceShortOrder, bind,
        validate_basic, throw, ret;
      match goal with
      | |- context [empty ?sym] => destruct (empty sym) eqn:Hs; [eauto|]
      end;
      match goal with
      | |- context [SFleb ?q d_zero] => destruct (SFleb q d_zero) eqn:Hq; [eauto|]
      end;
      (destruct Hbad as [Hsym | [Hqty | (p & Hp & Hle)]];
       [ apply empty_true_iff in Hsym; congruence
       | congruence
       | try discriminate Hp; injection Hp as <-; rewrite Hle; eauto ]).
Qed.

(** X24. The dispatch layer in front of the Alpaca adapter: an invalid
    order intent throws [std::invalid_argument] and leaves the adapter and
    the network as they were, no handle is asked of libcurl; an intent that
    passes validation is posted once, and when the transfer completes its
    answer comes back through [parse_order_result]. *)
Theorem X24_dispatch_over_alpaca
  (i : OrderIntent) (a : AlpacaPaperApi.Api N) :
  (invalid_intent i ->
   exists msg,
     dispatch (adapter := AlpacaPaperApi.AsDerived IsMarketOpen_Impl) i a
     = (Thrown (invalid_argument msg), a)) /\
  (passes_validation i ->
   forall n1 n2 tr,
     AlpacaPaperApi.curl_easy_init (AlpacaPaperApi.net a) = (true, n1) ->
     AlpacaPaperApi.curl_easy_perform
       (AlpacaPaperApi.request a "POST" "/v2/orders"
          (Some (AlpacaPaperApi.order_json i))) n1 = (tr, n2) ->
     AlpacaPaperApi.res tr = AlpacaPaperApi.CURLE_OK ->
     dispatch (adapter := AlpacaPaperApi.AsDerived IsMarketOpen_Impl) i a
     = (Returned (AlpacaPaperApi.parse_order_result
                    (AlpacaPaperApi.response_code tr) (AlpacaPaperApi.written tr)),
        AlpacaPaperApi.mkApi (AlpacaPaperApi.cfg_ a) n2)).
Proof.
  split.
  - apply (proj2 (dispatch_plain (adapter := AlpacaPaperApi.AsDerived IsMarketOpen_Impl) i a)).
  - intros Hok n1 n2 tr Hinit Hperf Hres.
    rewrite (proj1 (dispatch_plain (adapter := AlpacaPaperApi.AsDerived IsMarketOpen_Impl)
                      i a) Hok).
    change (impl (adapter := AlpacaPaperApi.AsDerived IsMarketOpen_Impl) i a)
      with (AlpacaPaperApi.place i a).
    rewrite place_eq, http_req_eq, Hinit, Hperf, Hres. reflexivity.
Qed.

End DispatchOverAlpaca.

(** ** Instances of the further live-loop properties *)

Section FurtherLoopExamples.
Import LiveLoop.

Lemma pair_of_fst {X Y : Type} (p : X * Y) (x : X) : fst p = x -> p = (x, snd p).
Proof. destruct p as [x' y]. cbn. intros ->. reflexivity. Qed.

(** X16 on three answers with status 200: the sample is ok and carries
    the bars body. *)
Lemma X16_witness_three_ok :
  fst (GetFirst5MinCandle_US (rt := DemoRuntime) (api := OpenAlpaca) "SPY"
         (start_world three_ok))
  = Returned (Candle_ok_raw true "{bars}").
Proof.
  exact (f_equal fst
           (X16_retrieval_result_is_the_bars_answer
              (rt := DemoRuntime) (api := OpenAlpaca) "SPY" (start_world three_ok)
              (AlpacaPaperApi.mkApi AlpacaPaperApi.demo_cfg
                 [AlpacaPaperApi.mkCurlTransfer 0 200 "[]";
                  AlpacaPaperApi.mkCurlTransfer 0 200 "{bars}"])
              (AlpacaPaperApi.mkApi AlpacaPaperApi.demo_cfg
                 [AlpacaPaperApi.mkCurlTransfer 0 200 "{bars}"])
              (AlpacaPaperApi.mkApi AlpacaPaperApi.demo_cfg [])
              200 200 200 "{}" "[]" "{bars}"
              eq_refl eq_refl eq_refl eq_refl eq_refl)).
Defined.

(** X18 on the fake that reports the primary market closed, with the CN
    window open: the line that is written. *)
Lemma X18_witness_cn_line :
  cout (snd (cycle (rt := DemoRuntimeCN) (api := ClosedAlpaca) (start_world [])))
  = "[UTC 2024-03-15T14:30:00Z] CN open. First 5m candle (SSE): FAIL" ++ newline ++
    "CN market data not implemented yet" ++ newline.
Proof.
  exact (f_equal (fun x => cout (snd x))
           (X18_cn_turn_is_a_placeholder (rt := DemoRuntimeCN) (api := ClosedAlpaca)
              (start_world []) (AlpacaPaperApi.mkApi AlpacaPaperApi.demo_cfg [])
              eq_refl eq_refl)).
Defined.


(** X20 on an adapter whose market query cannot reach the broker. *)
Lemma X20_witness_unreachable_query :
  cout (snd (cycle (rt := DemoRuntime) (api := UnreachableAlpaca) (start_world []))) = "" /\
  (exists new,
     trace (snd (cycle (rt := DemoRuntime) (api := UnreachableAlpaca) (start_world [])))
     = ([] ++ new)%list /\
     count is_sleep new = 0%nat) /\
  ((exists a1,
      IsMarketOpen (AlpacaApi := UnreachableAlpaca) (alpaca (start_world []))
      = (Thrown (runtime_error "curl failed: Couldn't connect to server"), a1)) \/
   (exists url a a',
      http_get (AlpacaApi := UnreachableAlpaca) url a
      = (Thrown (runtime_error "curl failed: Couldn't connect to server"), a'))).
Proof.
  apply (X20_failed_turn_is_silent (rt := DemoRuntime) (api := UnreachableAlpaca)
           (start_world []) (runtime_error "curl failed: Couldn't connect to server")).
  reflexivity.
Defined.

(** X21 on two turns with the market closed. *)
Lemma X21_witness_two_closed_turns :
  exists new text,
    trace (snd (live_loop (rt := DemoRuntime) (api := ClosedAlpaca) 2 (start_world [])))
    = ([] ++ new)%list /\
    cout (snd (live_loop (rt := DemoRuntime) (api := ClosedAlpaca) 2 (start_world [])))
    = "" ++ text /\
    sleeps_30 new /\
    (count is_market_query new <= 2)%nat /\
    (Returned tt = Returned tt ->
     count is_sleep new = 2%nat /\ count is_market_query new = 2%nat) /\
    (forall e, Returned tt = Thrown e -> (count is_sleep new < 2)%nat).
Proof.
  assert (Hrun : live_loop (rt := DemoRuntime) (api := ClosedAlpaca) 2 (start_world [])
                 = (Returned tt,
                    snd (live_loop (rt := DemoRuntime) (api := ClosedAlpaca) 2
                           (start_world [])))).
  { apply pair_of_fst. vm_compute. reflexivity. }
  exact (X21_loop_sleeps_once_per_completed_turn
           (rt := DemoRuntime) (api := ClosedAlpaca) 2 (start_world []) _ _ Hrun).
Defined.

(** X22 on 15 March 2024. *)
Lemma X22_witness_march_15 :
  ymd_of (mkTm 0 30 14 15 2 124) = "2024-03-15" /\
  String.length (ymd_of (mkTm 0 30 14 15 2 124)) = 10%nat.
Proof.
  apply (proj2 (X22_request_date_is_ten_characters (mkTm 0 30 14 15 2 124))).
  unfold calendar_tm. cbn [tm_sec tm_min tm_hour tm_mday tm_mon tm_year]. lia.
Defined.

(** In the year 12024 the date no longer fits: the day is cut off. *)
Example ymd_of_year_12024 : ymd_of (mkTm 0 30 14 15 2 10124) = "12024-03-1".
Proof. vm_compute. reflexivity. Qed.

(** X23 on the demo runtime. *)
Lemma X23_witness_demo_timestamp :
  String.length (to_iso8601_utc (rt := DemoRuntime) 1710513000) = 20%nat.
Proof.
  apply (X23_timestamp_is_twenty_characters (rt := DemoRuntime) 1710513000).
  - unfold calendar_tm. cbn. lia.
  - cbn. lia.
Defined.

End FurtherLoopExamples.

Section DispatchOverAlpacaExamples.
Import StrategyTemplate.

(** X24 on the order of the specification, answered with status 201 and an
    identifier. *)
Lemma X24_witness_spy_accepted :
  dispatch (adapter := AlpacaPaperApi.AsDerived
                         (platform := AlpacaPaperApi.ScriptedNet) (ret true))
    (Market (MarketOrder.mk "SPY" Buy d_ten Day))
    (AlpacaPaperApi.mkApi AlpacaPaperApi.demo_cfg
       [AlpacaPaperApi.mkCurlTransfer 0 201
          (AlpacaPaperApi.key_id ++ "abc-1" ++ AlpacaPaperApi.dquote ++ "}")])
  = (Returned (mkOrderResult "abc-1" true "Accepted"),
     AlpacaPaperApi.mkApi AlpacaPaperApi.demo_cfg []).
Proof.
  apply (proj2 (X24_dispatch_over_alpaca (platform := AlpacaPaperApi.ScriptedNet)
                  (ret true) (Market (MarketOrder.mk "SPY" Buy d_ten Day))
                  (AlpacaPaperApi.mkApi AlpacaPaperApi.demo_cfg
                     [AlpacaPaperApi.mkCurlTransfer 0 201
                        (AlpacaPaperApi.key_id ++ "abc-1" ++ AlpacaPaperApi.dquote ++ "}")]))
           (conj eq_refl (conj eq_refl (fun p (E : None = Some p) =>
              match E in _ = y return match y with None => True | Some _ => _ end
              with eq_refl => I end)))
           [AlpacaPaperApi.mkCurlTransfer 0 201
              (AlpacaPaperApi.key_id ++ "abc-1" ++ AlpacaPaperApi.dquote ++ "}")]
           []
           (AlpacaPaperApi.mkCurlTransfer 0 201
              (AlpacaPaperApi.key_id ++ "abc-1" ++ AlpacaPaperApi.dquote ++ "}"))
           eq_refl eq_refl eq_refl).
Defined.

End DispatchOverAlpacaExamples.
